(** * Raillmy deployment orchestrator: shallow embedding and verified properties

    The development embeds the TypeScript sources of the orchestrator
    (input sanitizers, port finder, webhook listener and signature check,
    metadata store and migration, project analyzer, nginx config
    generator, the deploy, update and remove commands, option parsing,
    health check) as Rocq functions and proves properties about them.

    Conventions.
    - JavaScript strings are [string]s, read as the byte sequence that
      [Buffer.from] produces for them; a [Buffer] is the [string] of its
      bytes.
    - Code that throws returns a [Result]; code that mutates files or
      runs external tools threads a [State] and consults a [World] of
      tool outcomes. *)

From Stdlib Require Import ZArith Ascii String List Bool Lia.
From stdpp Require Import base option list gmap strings sorting.

Local Open Scope Z_scope.

(** * Part I: the embedding *)

(** ** Results of computations that may throw *)

(** [Throw msg] stands for [throw new Error(msg)] (or a rejected promise)
    that reaches the caller. *)
Inductive Result (A : Type) : Type :=
| Ok (a : A)
| Throw (message : string).
Arguments Ok {A} a.
Arguments Throw {A} message.

(** JavaScript truthiness of optional strings and numbers, and [a || b]. *)
Definition nonEmpty (s : string) : bool :=
  match s with
  | EmptyString => false
  | String _ _ => true
  end.

Definition truthyStr (o : option string) : bool :=
  match o with
  | Some s => nonEmpty s
  | None => false
  end.

Definition truthyNum (o : option Z) : bool :=
  match o with
  | Some n => negb (n =? 0)
  | None => false
  end.

Definition orElse (o : option string) (d : string) : string :=
  if truthyStr o then default d o else d.

Definition orElseOpt (o1 o2 : option string) : option string :=
  if truthyStr o1 then o1 else o2.

(** [path.join(a, b)] for the relative segments the orchestrator uses. *)
Definition pathJoin (a b : string) : string :=
  if nonEmpty b then a +:+ "/" +:+ b else a.

(** ** utils/security.ts *)
Module Security.

Definition hyphen : ascii := "-"%char.

Definition isUpper (c : ascii) : bool :=
  let n := nat_of_ascii c in (65 <=? n)%nat && (n <=? 90)%nat.

Definition isLower (c : ascii) : bool :=
  let n := nat_of_ascii c in (97 <=? n)%nat && (n <=? 122)%nat.

Definition isDigit (c : ascii) : bool :=
  let n := nat_of_ascii c in (48 <=? n)%nat && (n <=? 57)%nat.

Definition isHyphen (c : ascii) : bool := Ascii.eqb c hyphen.

(** The character class [[a-z0-9-]]. *)
Definition isSafeChar (c : ascii) : bool :=
  isLower c || isDigit c || isHyphen c.

Definition toLowerChar (c : ascii) : ascii :=
  if isUpper c then ascii_of_nat (nat_of_ascii c + 32) else c.

(** [name.toLowerCase()] (letters A-Z; other bytes are left as they are) *)
Fixpoint toLowerCase (s : string) : string :=
  match s with
  | EmptyString => EmptyString
  | String c s' => String (toLowerChar c) (toLowerCase s')
  end.

(** [.replace(/[^a-z0-9-]/g, '-')] *)
Fixpoint replaceUnsafe (s : string) : string :=
  match s with
  | EmptyString => EmptyString
  | String c s' =>
      String (if isSafeChar c then c else hyphen) (replaceUnsafe s')
  end.

(** [.replace(/-+/g, '-')]: every maximal run of hyphens becomes one. *)
Fixpoint collapseHyphens (s : string) : string :=
  match s with
  | EmptyString => EmptyString
  | String c s' =>
      match s' with
      | String c' _ =>
          if isHyphen c && isHyphen c' then collapseHyphens s'
          else String c (collapseHyphens s')
      | EmptyString => String c EmptyString
      end
  end.

(** The [^-] alternative of [/^-|-$/g]. *)
Definition stripLeadingHyphen (s : string) : string :=
  match s with
  | String c s' => if isHyphen c then s' else s
  | EmptyString => EmptyString
  end.

(** The [-$] alternative of [/^-|-$/g]. *)
Fixpoint stripTrailingHyphen (s : string) : string :=
  match s with
  | EmptyString => EmptyString
  | String c EmptyString => if isHyphen c then EmptyString else s
  | String c s' => String c (stripTrailingHyphen s')
  end.

(** [.replace(/^-|-$/g, '')]: the scan first removes a hyphen at index 0,
    then a hyphen at the last index of what is left to scan. *)
Definition stripEdgeHyphens (s : string) : string :=
  stripTrailingHyphen (stripLeadingHyphen s).

Definition sanitizeProjectName (name : string) : string :=
  stripEdgeHyphens (collapseHyphens (replaceUnsafe (toLowerCase name))).

(** Shape of a sanitized name, as decidable predicates. *)
Fixpoint allSafe (s : string) : bool :=
  match s with
  | EmptyString => true
  | String c s' => isSafeChar c && allSafe s'
  end.

Fixpoint noDoubleHyphen (s : string) : bool :=
  match s with
  | EmptyString => true
  | String c s' =>
      match s' with
      | String c' _ => negb (isHyphen c && isHyphen c') && noDoubleHyphen s'
      | EmptyString => true
      end
  end.

Definition noLeadingHyphen (s : string) : bool :=
  match s with
  | String c _ => negb (isHyphen c)
  | EmptyString => true
  end.

Fixpoint noTrailingHyphen (s : string) : bool :=
  match s with
  | EmptyString => true
  | String c EmptyString => negb (isHyphen c)
  | String _ s' => noTrailingHyphen s'
  end.

(** A name in the sanitizer's normal form. *)
Definition wellFormedName (s : string) : Prop :=
  allSafe s = true /\ noLeadingHyphen s = true /\
  noTrailingHyphen s = true /\ noDoubleHyphen s = true.

(** The character class [[;&|`$(){}[\]<>]] of [sanitizeInput]. *)
Definition dangerousChars : list ascii :=
  [";"; "&"; "|"; "`"; "$"; "("; ")"; "{"; "}"; "["; "]"; "<"; ">"]%char.

Definition isDangerous (c : ascii) : bool := existsb (Ascii.eqb c) dangerousChars.

(** [input.replace(dangerous, '')] *)
Fixpoint sanitizeInput (input : string) : string :=
  match input with
  | EmptyString => EmptyString
  | String c s' =>
      if isDangerous c then sanitizeInput s' else String c (sanitizeInput s')
  end.

Definition isDot (c : ascii) : bool := Ascii.eqb c ".".

Definition isSlash (c : ascii) : bool := Ascii.eqb c "/".

(** [.replace(/\.\./g, '')]: the scan drops two dots and goes on after
    them. *)
Fixpoint removeDotDot (s : string) : string :=
  match s with
  | EmptyString => EmptyString
  | String c s' =>
      match s' with
      | String c' rest =>
          if isDot c && isDot c' then removeDotDot rest
          else String c (removeDotDot s')
      | EmptyString => String c EmptyString
      end
  end.

(** [.replace(/\/\//g, '/')]: the scan turns two slashes into one and
    goes on after them. *)
Fixpoint halveSlashes (s : string) : string :=
  match s with
  | EmptyString => EmptyString
  | String c s' =>
      match s' with
      | String c' rest =>
          if isSlash c && isSlash c' then String "/" (halveSlashes rest)
          else String c (halveSlashes s')
      | EmptyString => String c EmptyString
      end
  end.

(** [.replace(/^\/+/, '')] *)
Fixpoint stripLeadingSlashes (s : string) : string :=
  match s with
  | EmptyString => EmptyString
  | String c s' => if isSlash c then stripLeadingSlashes s' else s
  end.

Fixpoint allSlashes (s : string) : bool :=
  match s with
  | EmptyString => true
  | String c s' => isSlash c && allSlashes s'
  end.

(** [.replace(/\/+$/, '')]: the first index from which only slashes
    follow starts the match. *)
Fixpoint stripTrailingSlashes (s : string) : string :=
  match s with
  | EmptyString => EmptyString
  | String c s' =>
      if isSlash c && allSlashes s' then EmptyString
      else String c (stripTrailingSlashes s')
  end.

Definition sanitizePath (path : string) : string :=
  stripTrailingSlashes (stripLeadingSlashes (halveSlashes (removeDotDot path))).

(** Two dots in a row somewhere in [s]. *)
Fixpoint hasDotDot (s : string) : bool :=
  match s with
  | EmptyString => false
  | String c s' =>
      match s' with
      | String c' _ => isDot c && isDot c' || hasDotDot s'
      | EmptyString => false
      end
  end.

Definition isUnderscore (c : ascii) : bool := Ascii.eqb c "_".

(** The class [[A-Z0-9_]]. *)
Definition isKeyChar (c : ascii) : bool := isUpper c || isDigit c || isUnderscore c.

Fixpoint allKeyChars (s : string) : bool :=
  match s with
  | EmptyString => true
  | String c s' => isKeyChar c && allKeyChars s'
  end.

(** [/^[A-Z_][A-Z0-9_]*$/.test(key)] *)
Definition validateEnvKey (key : string) : bool :=
  match key with
  | EmptyString => false
  | String c rest => (isUpper c || isUnderscore c) && allKeyChars rest
  end.

End Security.

(** ** utils/portFinder.ts *)
Module PortFinder.

(** Outcome of one socket-table tool ([ss -tuln], [netstat -tuln]) for a
    port: the tool could not be run, or it ran and its output does or does
    not list [:port] followed by a space or a newline. *)
Inductive ToolResult : Type :=
| ToolFailed
| ToolListed (listed : bool).

Record Probes : Type := {
  ss_tuln : Z -> ToolResult;
  netstat_tuln : Z -> ToolResult;
  lsof_i : Z -> bool   (* [lsof -i :port] exits successfully *)
}.

Definition isPortInUse (env : Probes) (port : Z) : bool :=
  match ss_tuln env port with
  | ToolListed b => b
  | ToolFailed =>
      match netstat_tuln env port with
      | ToolListed b => b
      | ToolFailed => lsof_i env port
      end
  end.

(** The [while (attempts < maxAttempts)] loop; [remaining] is
    [maxAttempts - attempts]. *)
Fixpoint scanPorts (env : Probes) (startPort port : Z) (remaining : nat) : Z :=
  match remaining with
  | O => startPort
  | S r =>
      if isPortInUse env port then scanPorts env startPort (port + 1) r
      else port
  end.

Definition findAvailablePort (env : Probes) (startPort : Z) (maxAttempts : nat) : Z :=
  scanPorts env startPort startPort maxAttempts.

(** An environment in which [ss] works and lists exactly the ports
    satisfying [busy]. *)
Definition ssOnly (busy : Z -> bool) : Probes :=
  {| ss_tuln := fun p => ToolListed (busy p);
     netstat_tuln := fun _ => ToolFailed;
     lsof_i := fun _ => false |}.

End PortFinder.

(** ** Node's [crypto] module: SHA-256, HMAC and hex digests

    [verifySignature] calls [crypto.createHmac('sha256', secret)]; the
    functions below are FIPS 180-4 SHA-256 and RFC 2104 HMAC over bytes
    held as [Z]. *)
Module Crypto.

Definition mask32 : Z := 4294967295.
Definition add32 (a b : Z) : Z := Z.land (a + b) mask32.
Definition rotr (n x : Z) : Z :=
  Z.land (Z.lor (Z.shiftr x n) (Z.shiftl x (32 - n))) mask32.
Definition shr (n x : Z) : Z := Z.shiftr x n.
Definition not32 (x : Z) : Z := Z.lxor x mask32.
Definition xor3 (a b c : Z) : Z := Z.lxor (Z.lxor a b) c.

Definition Ch (x y z : Z) : Z := Z.lxor (Z.land x y) (Z.land (not32 x) z).
Definition Maj (x y z : Z) : Z := xor3 (Z.land x y) (Z.land x z) (Z.land y z).
Definition bigSigma0 (x : Z) : Z := xor3 (rotr 2 x) (rotr 13 x) (rotr 22 x).
Definition bigSigma1 (x : Z) : Z := xor3 (rotr 6 x) (rotr 11 x) (rotr 25 x).
Definition smallSigma0 (x : Z) : Z := xor3 (rotr 7 x) (rotr 18 x) (shr 3 x).
Definition smallSigma1 (x : Z) : Z := xor3 (rotr 17 x) (rotr 19 x) (shr 10 x).

Definition roundConstants : list Z :=
  [ 1116352408; 1899447441; 3049323471; 3921009573;
    961987163; 1508970993; 2453635748; 2870763221;
    3624381080; 310598401; 607225278; 1426881987;
    1925078388; 2162078206; 2614888103; 3248222580;
    3835390401; 4022224774; 264347078; 604807628;
    770255983; 1249150122; 1555081692; 1996064986;
    2554220882; 2821834349; 2952996808; 3210313671;
    3336571891; 3584528711; 113926993; 338241895;
    666307205; 773529912; 1294757372; 1396182291;
    1695183700; 1986661051; 2177026350; 2456956037;
    2730485921; 2820302411; 3259730800; 3345764771;
    3516065817; 3600352804; 4094571909; 275423344;
    430227734; 506948616; 659060556; 883997877;
    958139571; 1322822218; 1537002063; 1747873779;
    1955562222; 2024104815; 2227730452; 2361852424;
    2428436474; 2756734187; 3204031479; 3329325298 ].

Record Hash : Type := mkHash {
  ha : Z; hb : Z; hc : Z; hd : Z; he : Z; hf : Z; hg : Z; hh : Z
}.

Definition initialHash : Hash :=
  mkHash 1779033703 3144134277 1013904242 2773480762
         1359893119 2600822924 528734635 1541459225.

(** Big-endian bytes of a 32-bit word and of a 64-bit length. *)
Definition byteAt (x : Z) (i : Z) : Z := Z.land (Z.shiftr x (8 * i)) 255.
Definition wordBytes (x : Z) : list Z :=
  [byteAt x 3; byteAt x 2; byteAt x 1; byteAt x 0].
Definition lengthBytes (x : Z) : list Z :=
  [byteAt x 7; byteAt x 6; byteAt x 5; byteAt x 4;
   byteAt x 3; byteAt x 2; byteAt x 1; byteAt x 0].

Definition pad (msg : list Z) : list Z :=
  let len := Z.of_nat (length msg) in
  msg ++ [128] ++ repeat 0 (Z.to_nat ((55 - len) mod 64)) ++ lengthBytes (8 * len).

Fixpoint toWords (bs : list Z) : list Z :=
  match bs with
  | b0 :: b1 :: b2 :: b3 :: rest =>
      Z.lor (Z.lor (Z.shiftl b0 24) (Z.shiftl b1 16)) (Z.lor (Z.shiftl b2 8) b3)
      :: toWords rest
  | _ => []
  end.

(** Message schedule, newest word first. *)
Fixpoint extendSchedule (n : nat) (revW : list Z) : list Z :=
  match n with
  | O => revW
  | S n' =>
      let w := add32 (add32 (smallSigma1 (nth 1%nat revW 0)) (nth 6%nat revW 0))
                     (add32 (smallSigma0 (nth 14%nat revW 0)) (nth 15%nat revW 0)) in
      extendSchedule n' (w :: revW)
  end.

Definition schedule (block : list Z) : list Z :=
  rev (extendSchedule 48 (rev block)).

Definition round (h : Hash) (kw : Z * Z) : Hash :=
  let t1 := add32 (add32 (add32 (hh h) (bigSigma1 (he h)))
                         (add32 (Ch (he h) (hf h) (hg h)) (fst kw)))
                  (snd kw) in
  let t2 := add32 (bigSigma0 (ha h)) (Maj (ha h) (hb h) (hc h)) in
  mkHash (add32 t1 t2) (ha h) (hb h) (hc h) (add32 (hd h) t1) (he h) (hf h) (hg h).

Definition compress (h : Hash) (block : list Z) : Hash :=
  let r := fold_left round (combine roundConstants (schedule block)) h in
  mkHash (add32 (ha h) (ha r)) (add32 (hb h) (hb r))
         (add32 (hc h) (hc r)) (add32 (hd h) (hd r))
         (add32 (he h) (he r)) (add32 (hf h) (hf r))
         (add32 (hg h) (hg r)) (add32 (hh h) (hh r)).

(** Sixteen-word blocks; [fuel] bounds the number of blocks. *)
Fixpoint toBlocks (fuel : nat) (ws : list Z) : list (list Z) :=
  match fuel, ws with
  | S f, _ :: _ => firstn 16 ws :: toBlocks f (skipn 16 ws)
  | _, _ => []
  end.

Definition hashBytes (h : Hash) : list Z :=
  wordBytes (ha h) ++ wordBytes (hb h) ++ wordBytes (hc h) ++ wordBytes (hd h) ++
  wordBytes (he h) ++ wordBytes (hf h) ++ wordBytes (hg h) ++ wordBytes (hh h).

Definition sha256 (msg : list Z) : list Z :=
  let ws := toWords (pad msg) in
  hashBytes (fold_left compress (toBlocks (length ws) ws) initialHash).

Definition blockSize : nat := 64.

Definition hmacSha256 (key msg : list Z) : list Z :=
  let k0 := if (blockSize <? length key)%nat then sha256 key else key in
  let k := k0 ++ repeat 0 (blockSize - length k0) in
  let ipad := map (Z.lxor 54) k in
  let opad := map (Z.lxor 92) k in
  sha256 (opad ++ sha256 (ipad ++ msg)).

Definition hexDigit (n : Z) : ascii :=
  nth (Z.to_nat n) (list_ascii_of_string "0123456789abcdef") "0"%char.

Definition hexByte (b : Z) : list ascii := [hexDigit (b / 16); hexDigit (b mod 16)].

(** [.digest('hex')] *)
Definition hex (bs : list Z) : string :=
  string_of_list_ascii (flat_map hexByte bs).

(** The bytes of a string, as [hmac.update(body)] and the key argument of
    [createHmac] read them. *)
Definition bytesOf (s : string) : list Z :=
  map (fun c => Z.of_N (N_of_ascii c)) (list_ascii_of_string s).

(** [crypto.createHmac('sha256', secret).update(body).digest('hex')] *)
Definition hmacSha256Hex (secret body : string) : string :=
  hex (hmacSha256 (bytesOf secret) (bytesOf body)).

End Crypto.

(** ** utils/metadata.ts: the record type *)
Module MetadataTypes.

Record ProjectMetadata : Type := {
  md_name : string;
  md_repoUrl : string;
  md_branch : string;
  md_type : string;
  md_port : option Z;
  md_basePath : string;
  md_createdAt : string;
  md_updatedAt : string;
  md_pm2ProcessName : option string;
  md_nginxConfigPath : option string;
  md_environment : option string;
  md_webhookEnabled : option bool
}.

(** [Partial<ProjectMetadata>] *)
Record PartialMetadata : Type := {
  pm_name : option string;
  pm_repoUrl : option string;
  pm_branch : option string;
  pm_type : option string;
  pm_port : option Z;
  pm_basePath : option string;
  pm_createdAt : option string;
  pm_updatedAt : option string;
  pm_pm2ProcessName : option string;
  pm_nginxConfigPath : option string;
  pm_environment : option string;
  pm_webhookEnabled : option bool
}.

(** What [fs.readJSON] finds in a [metadata.json]: a record, or content
    that does not parse to one. *)
Inductive MetaFile : Type :=
| ValidJson (m : ProjectMetadata)
| CorruptJson.

End MetadataTypes.
Export MetadataTypes.

(** ** The world outside the process and the state it mutates *)
Module Runtime.

(** The three routing shapes of a generated nginx config. *)
Inductive NginxConfig : Type :=
| StaticConfig (serverName staticDir basePath : string)
| ProxyConfig (serverName : string) (port : Z) (basePath : string)
| MonorepoConfig (serverName : string) (port : Z)
    (frontendStaticDir : option string) (backendBasePath frontendBasePath : string).

(** External actions that were carried out, oldest first. *)
Inductive Effect : Type :=
| GitClone (repoUrl branch projectPath : string)
| GitCheckout (projectPath branch : string)
| GitPull (projectPath branch : string)
| RemoveDir (path : string)
| Install (workDir : string)
| Build (workDir : string)
| Pm2Start (processName workDir : string) (port : option Z)
| Pm2Restart (processName : string)
| NginxInstall (configPath : string)
| NginxReload
| Warn (scope message : string).

(** The files the orchestrator owns and the log of what it ran. A
    project's [metadata.json] lives in its workspace directory; it is
    taken to be written by the metadata store only (the cloned repository
    does not ship a file of that name). The store is keyed by the name of
    the directory under the apps directory that holds the file. *)
Record State : Type := {
  metadataFiles : gmap string MetaFile;       (* APPS_DIR/<name>/metadata.json *)
  nginxFiles : gmap string NginxConfig;       (* /etc/nginx/conf.d/<name>.conf *)
  effects : list Effect
}.

Definition M (A : Type) : Type := State -> Result A * State.

Definition ret {A} (a : A) : M A := fun st => (Ok a, st).

Definition throw {A} (message : string) : M A := fun st => (Throw message, st).

Definition bind {A B} (c : M A) (k : A -> M B) : M B :=
  fun st =>
    match c st with
    | (Ok a, st') => k a st'
    | (Throw e, st') => (Throw e, st')
    end.

(** [try { body } catch (error) { handler(error.message) }] *)
Definition tryCatch {A} (body : M A) (handler : string -> M A) : M A :=
  fun st =>
    match body st with
    | (Ok a, st') => (Ok a, st')
    | (Throw e, st') => handler e st'
    end.

Definition emit (e : Effect) : M unit :=
  fun st => (Ok tt, {| metadataFiles := metadataFiles st;
                       nginxFiles := nginxFiles st;
                       effects := effects st ++ [e] |}).

Definition warn (scope message : string) : M unit := emit (Warn scope message).

Definition liftResult {A} (r : Result A) : M A := fun st => (r, st).

(** Runs [c] and hands its outcome, thrown or not, to the continuation:
    the shape of a [try] block whose [catch] needs variables assigned in
    the block. *)
Definition attempt {A} (c : M A) : M (Result A) :=
  fun st => (Ok (fst (c st)), snd (c st)).

(** [await execa(...)] of a command whose outcome the world decides:
    on success the effect is recorded, otherwise the call rejects. *)
Definition exec (succeeds : bool) (e : Effect) (failure : string) : M unit :=
  if succeeds then emit e else throw failure.

(** [c] writes no metadata file. *)
Definition preservesMetadata {A} (c : M A) : Prop :=
  forall st, metadataFiles (snd (c st)) = metadataFiles st.

(** Two states with the same files; their effect logs may differ. *)
Definition sameFiles (st st' : State) : Prop :=
  metadataFiles st = metadataFiles st' /\ nginxFiles st = nginxFiles st'.

(** [c] and [c'] return the same outcome and leave the same files when
    started on states with the same files. *)
Definition agree {A} (c c' : M A) : Prop :=
  forall st st', sameFiles st st' ->
    fst (c st) = fst (c' st') /\ sameFiles (snd (c st)) (snd (c' st')).

(** [c] leaves the nginx config files alone and records only effects
    accepted by [allowed]. *)
Definition emitsOnly {A} (allowed : Effect -> bool) (c : M A) : Prop :=
  forall st,
    nginxFiles (snd (c st)) = nginxFiles st /\
    exists l, effects (snd (c st)) = effects st ++ l /\ forallb allowed l = true.

(** [c] records only effects accepted by [allowed]; the effects recorded
    before it stay as they are. *)
Definition logsOnly {A} (allowed : Effect -> bool) (c : M A) : Prop :=
  forall st,
    exists l, effects (snd (c st)) = effects st ++ l /\ forallb allowed l = true.

End Runtime.
Export Runtime.

Notation "'do' x <- c ; k" := (bind c (fun x => k))
  (at level 10, x name, c at level 100, k at level 200).
Notation "c ;; k" := (bind c (fun _ => k))
  (at level 100, k at level 200, right associativity).

(** ** utils/metadata.ts *)
Module Metadata.

(** What the store needs from the outside: whether the write of a
    project's [metadata.json] goes through, and the clock. *)
Record Env : Type := {
  canWrite : string -> bool;     (* [fs.ensureDir] and [fs.writeJSON] succeed *)
  now : string                   (* [new Date().toISOString()] *)
}.

Definition writeFile (name : string) (f : MetaFile) : M unit :=
  fun st => (Ok tt, {| metadataFiles := <[name := f]> (metadataFiles st);
                       nginxFiles := nginxFiles st;
                       effects := effects st |}).

Definition saveMetadata (env : Env) (metadata : ProjectMetadata) : M unit :=
  if canWrite env (md_name metadata)
  then writeFile (md_name metadata) (ValidJson metadata)
  else throw "metadata write failed".

(** [null] when the file is missing, and also when it cannot be read. *)
Definition loadMetadata (projectName : string) : M (option ProjectMetadata) :=
  fun st =>
    match metadataFiles st !! projectName with
    | None => (Ok None, st)
    | Some (ValidJson m) => (Ok (Some m), st)
    | Some CorruptJson => (Ok None, st)
    end.

(** [{ ...existing, ...updates, updatedAt: now }] *)
Definition mergeMetadata (existing : ProjectMetadata) (updates : PartialMetadata)
    (stamp : string) : ProjectMetadata :=
  {| md_name := default (md_name existing) (pm_name updates);
     md_repoUrl := default (md_repoUrl existing) (pm_repoUrl updates);
     md_branch := default (md_branch existing) (pm_branch updates);
     md_type := default (md_type existing) (pm_type updates);
     md_port := from_option Some (md_port existing) (pm_port updates);
     md_basePath := default (md_basePath existing) (pm_basePath updates);
     md_createdAt := default (md_createdAt existing) (pm_createdAt updates);
     md_updatedAt := stamp;
     md_pm2ProcessName :=
       from_option Some (md_pm2ProcessName existing) (pm_pm2ProcessName updates);
     md_nginxConfigPath :=
       from_option Some (md_nginxConfigPath existing) (pm_nginxConfigPath updates);
     md_environment :=
       from_option Some (md_environment existing) (pm_environment updates);
     md_webhookEnabled :=
       from_option Some (md_webhookEnabled existing) (pm_webhookEnabled updates) |}.

Definition notFoundMessage (projectName : string) : string :=
  "Metadata bulunamadı: " +:+ projectName.

Definition updateMetadata (env : Env) (projectName : string)
    (updates : PartialMetadata) : M unit :=
  do existing <- loadMetadata projectName;
  match existing with
  | None => throw (notFoundMessage projectName)
  | Some existing =>
      saveMetadata env (mergeMetadata existing updates (now env))
  end.

(** [removeOk] says whether [fs.remove] of a project's [metadata.json]
    goes through; a missing file is left alone. The store is keyed by
    directory name, so the file removed is the one under [projectName]
    when [projectName] is the name of a directory under the apps
    directory; [path.join] resolves other spellings ([demo/], [./demo])
    to a directory that the store keeps under its name. *)
Definition deleteMetadata (removeOk : string -> bool) (projectName : string)
    : M unit :=
  fun st =>
    match metadataFiles st !! projectName with
    | None => (Ok tt, st)
    | Some _ =>
        if removeOk projectName
        then (Ok tt, {| metadataFiles := delete projectName (metadataFiles st);
                        nginxFiles := nginxFiles st;
                        effects := effects st |})
        else (Throw "metadata remove failed", st)
    end.

(** The record [loadMetadata] finds in a directory, if any. *)
Definition storedRecord (st : State) (entry : string) : option ProjectMetadata :=
  match metadataFiles st !! entry with
  | Some (ValidJson m) => Some m
  | _ => None
  end.

End Metadata.

(** ** types/index.ts and analyzer/detectProjectType.ts *)
Module Analyzer.

Inductive ProjectType : Type := BACKEND | FRONTEND | MONOREPO | UNKNOWN.

Inductive PackageManager : Type := NPM | YARN | PNPM.

#[global] Instance ProjectType_eq_dec : EqDecision ProjectType.
Proof. solve_decision. Defined.

#[global] Instance PackageManager_eq_dec : EqDecision PackageManager.
Proof. solve_decision. Defined.

(** The enum's string values. *)
Definition typeName (t : ProjectType) : string :=
  match t with
  | BACKEND => "backend"
  | FRONTEND => "frontend"
  | MONOREPO => "monorepo"
  | UNKNOWN => "unknown"
  end.

(** JSON values, for the manifest fields that are tested for
    truthiness. *)
#[warnings="-register-all"] Inductive Json : Type :=
| JNull
| JBool (b : bool)
| JNumber (n : Z)
| JString (s : string)
| JArray (items : list Json)
| JObject (fields : list (string * Json)).

Definition truthy (j : option Json) : bool :=
  match j with
  | None | Some JNull => false
  | Some (JBool b) => b
  | Some (JNumber n) => negb (n =? 0)
  | Some (JString s) => nonEmpty s
  | Some (JArray _) | Some (JObject _) => true
  end.

(** [value?.key] *)
Definition getProp (j : option Json) (key : string) : option Json :=
  match j with
  | Some (JObject fields) => snd <$> List.find (fun kv => String.eqb (fst kv) key) fields
  | _ => None
  end.

(** A parsed [package.json]: dependency maps send a package name to its
    version string (an absent map is the empty map). *)
Record PackageJson : Type := {
  workspaces : option Json;
  dependencies : gmap string string;
  devDependencies : gmap string string;
  scriptsBuild : option string;
  scriptsStart : option string
}.

Record DirEntry : Type := {
  entryName : string;
  entryIsDirectory : bool
}.

(** What [fs.readJson] returns for a [package.json]. The analyzer only
    tells a truthy value from a falsy one and then reads fields off it;
    [Manifest pkg] is a truthy value with the fields read off it (a field
    the value does not have reads as absent). *)
Inductive ManifestFile : Type :=
| Manifest (pkg : PackageJson)
| FalsyManifest          (* the file holds [null], [false], [0] or the empty string *)
| UnreadableManifest.    (* [fs.readJson] throws *)

(** The checkout as the analyzer observes it. *)
Record FileSystem : Type := {
  pathExists : string -> bool;
  readJson : string -> ManifestFile;
  readdir : string -> option (list DirEntry)   (* [None]: [fs.readdir] throws *)
}.

Record ProjectAnalysis : Type := {
  an_type : ProjectType;
  an_packageManager : PackageManager;
  an_hasBuildScript : bool;
  an_hasStartScript : bool;
  an_buildCommand : option string;
  an_startCommand : option string;
  an_frontendPath : option string;
  an_backendPath : option string;
  an_isSSR : bool;
  an_staticOutputDir : option string
}.

Definition noManifestMessage : string :=
  "package.json bulunamadı ve monorepo yapısı tespit edilemedi".

Definition unreadableManifestMessage : string := "package.json okunamadı".

Definition manifestPath (dir : string) : string := pathJoin dir "package.json".

(** Returns what [fs.readJson] returns, or [null] without a file. The
    caller only tests the result with [!packageJson], so [Ok None] stands
    for [null] and for the other falsy values alike. *)
Definition readPackageJson (fs : FileSystem) (projectPath : string)
    : Result (option PackageJson) :=
  if pathExists fs (manifestPath projectPath) then
    match readJson fs (manifestPath projectPath) with
    | Manifest pkg => Ok (Some pkg)
    | FalsyManifest => Ok None
    | UnreadableManifest => Throw unreadableManifestMessage
    end
  else Ok None.

Definition detectPackageManager (fs : FileSystem) (projectPath : string)
    : PackageManager :=
  if pathExists fs (pathJoin projectPath "pnpm-lock.yaml") then PNPM
  else if pathExists fs (pathJoin projectPath "yarn.lock") then YARN
  else NPM.

(** [deps[name]] is truthy *)
Definition declares (deps : gmap string string) (name : string) : bool :=
  truthyStr (deps !! name).

Definition isMonorepo (fs : FileSystem) (packageJson : PackageJson)
    (projectPath : string) : bool :=
  if truthy (workspaces packageJson)
     || truthy (getProp (workspaces packageJson) "packages") then true
  else if declares (dependencies packageJson) "turbo"
          || declares (devDependencies packageJson) "turbo" then true
  else if declares (dependencies packageJson) "lerna"
          || declares (devDependencies packageJson) "lerna" then true
  else if pathExists fs (pathJoin projectPath "nx.json") then true
  else false.

Definition commonFrontendPaths : list string :=
  ["apps/frontend"; "apps/web"; "packages/frontend"; "packages/web";
   "frontend"; "web"].

Definition commonBackendPaths : list string :=
  ["apps/backend"; "apps/api"; "apps/server"; "packages/backend";
   "packages/api"; "packages/server"; "backend"; "api"; "server";
   "customer"; "products"; "shopping"; "orders"; "payment"].

Definition scanFrontendFrameworks : list string :=
  ["react"; "vue"; "angular"; "next"; "nuxt"; "svelte"].

Definition scanBackendFrameworks : list string :=
  ["express"; "fastify"; "koa"; "nest"; "@nestjs/core"].

(** [{ ...(pkg.dependencies || {}), ...(pkg.devDependencies || {}) }]:
    on a clash the devDependencies entry wins. *)
Definition mergedDependencies (pkg : PackageJson) : gmap string string :=
  devDependencies pkg ∪ dependencies pkg.

Definition hasManifestAt (fs : FileSystem) (projectPath dir : string) : bool :=
  pathExists fs (pathJoin projectPath dir)
  && pathExists fs (manifestPath (pathJoin projectPath dir)).

(** Which first-level entries the fallback scan looks into. *)
Definition scanned (entry : DirEntry) : bool :=
  entryIsDirectory entry
  && negb (String.prefix "." (entryName entry))
  && negb (String.eqb (entryName entry) "node_modules").

(** One iteration of the fallback loop over [fs.readdir]. A manifest
    that cannot be read is skipped; so is one that holds a falsy value
    ([null.dependencies] throws into the same [catch], the other falsy
    values have no dependencies). *)
Definition scanEntry (fs : FileSystem) (projectPath : string)
    (found : option string * option string) (entry : DirEntry)
    : option string * option string :=
  if scanned entry then
    let subPath := pathJoin projectPath (entryName entry) in
    if pathExists fs (manifestPath subPath) then
      match readJson fs (manifestPath subPath) with
      | Manifest pkg =>
          let deps := mergedDependencies pkg in
          let isFrontend := existsb (declares deps) scanFrontendFrameworks in
          let isBackend := existsb (declares deps) scanBackendFrameworks in
          (if isFrontend && negb (truthyStr (fst found))
           then Some (entryName entry) else fst found,
           if isBackend && negb (truthyStr (snd found))
           then Some (entryName entry) else snd found)
      | FalsyManifest | UnreadableManifest => found
      end
    else found
  else found.

(** Returns [(frontendPath, backendPath)]. *)
Definition analyzeMonorepo (fs : FileSystem) (projectPath : string)
    : option string * option string :=
  let frontendPath := List.find (hasManifestAt fs projectPath) commonFrontendPaths in
  let backendPath := List.find (hasManifestAt fs projectPath) commonBackendPaths in
  if negb (truthyStr frontendPath) && negb (truthyStr backendPath) then
    match readdir fs projectPath with
    | Some entries =>
        fold_left (scanEntry fs projectPath) entries (frontendPath, backendPath)
    | None => (frontendPath, backendPath)
    end
  else (frontendPath, backendPath).

(** Returns [(isSSR, staticOutputDir)]. *)
Definition detectFrontendType (packageJson : PackageJson) : bool * option string :=
  let deps := mergedDependencies packageJson in
  if declares deps "next" then (true, Some ".next")
  else if declares deps "nuxt" || declares deps "nuxt3" then (true, Some ".output")
  else if declares deps "@remix-run/node" then (true, None)
  else if declares deps "vite" then (false, Some "dist")
  else if declares deps "react" && declares deps "react-scripts"
       then (false, Some "build")
  else (false, Some "dist").

Definition backendFrameworks : list string :=
  ["express"; "fastify"; "koa"; "nest"; "@nestjs/core"; "hapi"; "restify"].

Definition frontendFrameworks : list string :=
  ["react"; "vue"; "angular"; "svelte"; "next"; "nuxt"; "remix"].

(** The analysis of a root manifest before sub-paths and rendering mode
    are filled in. *)
Definition baseAnalysis (t : ProjectType) (pm : PackageManager)
    (packageJson : PackageJson) : ProjectAnalysis :=
  {| an_type := t;
     an_packageManager := pm;
     an_hasBuildScript := truthyStr (scriptsBuild packageJson);
     an_hasStartScript := truthyStr (scriptsStart packageJson);
     an_buildCommand := scriptsBuild packageJson;
     an_startCommand := scriptsStart packageJson;
     an_frontendPath := None;
     an_backendPath := None;
     an_isSSR := false;
     an_staticOutputDir := None |}.

Definition withSubPaths (a : ProjectAnalysis) (paths : option string * option string)
    : ProjectAnalysis :=
  {| an_type := MONOREPO;
     an_packageManager := an_packageManager a;
     an_hasBuildScript := an_hasBuildScript a;
     an_hasStartScript := an_hasStartScript a;
     an_buildCommand := an_buildCommand a;
     an_startCommand := an_startCommand a;
     an_frontendPath := fst paths;
     an_backendPath := snd paths;
     an_isSSR := an_isSSR a;
     an_staticOutputDir := an_staticOutputDir a |}.

Definition withFrontendInfo (a : ProjectAnalysis) (info : bool * option string)
    : ProjectAnalysis :=
  {| an_type := an_type a;
     an_packageManager := an_packageManager a;
     an_hasBuildScript := an_hasBuildScript a;
     an_hasStartScript := an_hasStartScript a;
     an_buildCommand := an_buildCommand a;
     an_startCommand := an_startCommand a;
     an_frontendPath := an_frontendPath a;
     an_backendPath := an_backendPath a;
     an_isSSR := fst info;
     an_staticOutputDir := snd info |}.

(** [userSpecifiedType && userSpecifiedType !== ProjectType.UNKNOWN] *)
Definition explicitType (userSpecifiedType : option ProjectType) : option ProjectType :=
  match userSpecifiedType with
  | Some UNKNOWN | None => None
  | Some t => Some t
  end.

Definition detectProjectType (fs : FileSystem) (projectPath : string)
    (userSpecifiedType : option ProjectType) : Result ProjectAnalysis :=
  match readPackageJson fs projectPath with
  | Throw e => Throw e
  | Ok None =>
      (* no manifest at the root: look for sub-packages *)
      let paths := analyzeMonorepo fs projectPath in
      if truthyStr (fst paths) || truthyStr (snd paths) then
        let packageManager :=
          if truthyStr (snd paths)
          then detectPackageManager fs (pathJoin projectPath (default "" (snd paths)))
          else if truthyStr (fst paths)
          then detectPackageManager fs (pathJoin projectPath (default "" (fst paths)))
          else NPM in
        Ok {| an_type := MONOREPO;
              an_packageManager := packageManager;
              an_hasBuildScript := false;
              an_hasStartScript := false;
              an_buildCommand := None;
              an_startCommand := None;
              an_frontendPath := fst paths;
              an_backendPath := snd paths;
              an_isSSR := false;
              an_staticOutputDir := None |}
      else Throw noManifestMessage
  | Ok (Some packageJson) =>
      let packageManager := detectPackageManager fs projectPath in
      match explicitType userSpecifiedType with
      | Some t =>
          let analysis := baseAnalysis t packageManager packageJson in
          let analysis :=
            if bool_decide (t = MONOREPO) || isMonorepo fs packageJson projectPath
            then withSubPaths analysis (analyzeMonorepo fs projectPath)
            else analysis in
          let analysis :=
            if bool_decide (t = FRONTEND)
            then withFrontendInfo analysis (detectFrontendType packageJson)
            else analysis in
          Ok analysis
      | None =>
          if isMonorepo fs packageJson projectPath then
            Ok (withSubPaths (baseAnalysis MONOREPO packageManager packageJson)
                             (analyzeMonorepo fs projectPath))
          else
            let deps := mergedDependencies packageJson in
            if existsb (declares deps) backendFrameworks then
              Ok (baseAnalysis BACKEND packageManager packageJson)
            else if existsb (declares deps) frontendFrameworks then
              Ok (withFrontendInfo (baseAnalysis FRONTEND packageManager packageJson)
                                   (detectFrontendType packageJson))
            else Ok (baseAnalysis UNKNOWN packageManager packageJson)
      end
  end.

(** The fallback scan reads [entry]'s manifest and finds one of
    [frameworks] declared in it. *)
Definition entryDeclares (fs : FileSystem) (projectPath : string)
    (frameworks : list string) (entry : DirEntry) : bool :=
  scanned entry
  && pathExists fs (manifestPath (pathJoin projectPath (entryName entry)))
  && match readJson fs (manifestPath (pathJoin projectPath (entryName entry))) with
     | Manifest pkg => existsb (declares (mergedDependencies pkg)) frameworks
     | FalsyManifest | UnreadableManifest => false
     end.

(** A sub-package exists for the analyzer: a conventional sub-path holds a
    manifest, or a first-level entry declares a framework the fallback
    scan knows. *)
Definition subPackageFound (fs : FileSystem) (projectPath : string) : bool :=
  existsb (hasManifestAt fs projectPath) (commonFrontendPaths ++ commonBackendPaths)
  || match readdir fs projectPath with
     | Some entries =>
         existsb (fun entry =>
                    nonEmpty (entryName entry)
                    && (entryDeclares fs projectPath scanFrontendFrameworks entry
                        || entryDeclares fs projectPath scanBackendFrameworks entry))
                 entries
     | None => false
     end.

(** Sub-directories the analyzer looks into when the root has no
    manifest: the conventional paths and the first-level entries the
    fallback scan accepts. *)
Definition searchedDirs (fs : FileSystem) (projectPath : string) : list string :=
  commonFrontendPaths ++ commonBackendPaths ++
  match readdir fs projectPath with
  | Some entries => entryName <$> filter (fun e => scanned e = true) entries
  | None => []
  end.

(** [dir], if it is a usable sub-path, holds a manifest. *)
Definition holdsManifest (fs : FileSystem) (projectPath : string)
    (dir : option string) : Prop :=
  truthyStr dir = true ->
  pathExists fs (manifestPath (pathJoin projectPath (default "" dir))) = true.

End Analyzer.

(** ** nginx/generateConfig.ts *)
Module Nginx.
Import Analyzer.

Record NginxConfigOptions : Type := {
  ng_projectName : string;
  ng_projectPath : string;
  ng_projectType : ProjectType;
  ng_analysis : ProjectAnalysis;
  ng_port : option Z;
  ng_basePath : option string;
  ng_domain : option string
}.

(** Outcomes of the commands and file operations the generator runs. *)
Record Tools : Type := {
  writeTemp : string -> bool;            (* [fs.writeFile(tempConfigPath, ...)] *)
  sudoCp : string -> string -> bool;     (* [sudo cp temp config] *)
  removeTemp : string -> bool;           (* [fs.remove(tempConfigPath)] *)
  whichNginx : option string;            (* trimmed stdout of [which nginx] *)
  testF : string -> bool;                (* [test -f path] *)
  sudoNginxT : string -> bool;           (* [sudo <nginx> -t] *)
  sudoNginxReload : string -> bool;      (* [sudo <nginx> -s reload] *)
  nginxReload : string -> bool           (* [<nginx> -s reload] *)
}.

(** utils/paths.ts *)
Definition getNginxConfigPath (projectName : string) : string :=
  "/etc/nginx/conf.d/" +:+ Security.sanitizeProjectName projectName +:+ ".conf".

Definition tempConfigPath (projectName : string) : string :=
  "/tmp/" +:+ Security.sanitizeProjectName projectName +:+ ".nginx.conf".

Definition commonNginxPaths : list string :=
  ["/usr/sbin/nginx"; "/usr/bin/nginx"; "/sbin/nginx"].

(** The "find nginx's full path" block that both functions start with. *)
Definition locateNginx (tools : Tools) : string :=
  match whichNginx tools with
  | Some out => if nonEmpty out then out else "nginx"
  | None => default "nginx" (List.find (testF tools) commonNginxPaths)
  end.

(** The routing shape chosen for the project, or the configuration
    error. *)
Definition chooseConfig (options : NginxConfigOptions) : Result NginxConfig :=
  let analysis := ng_analysis options in
  let serverName :=
    orElse (ng_domain options)
           (Security.sanitizeProjectName (ng_projectName options) +:+ ".local") in
  if bool_decide (ng_projectType options = FRONTEND) && negb (an_isSSR analysis) then
    Ok (StaticConfig serverName
          (pathJoin (pathJoin (ng_projectPath options)
                              (orElse (an_frontendPath analysis) ""))
                    (orElse (an_staticOutputDir analysis) "dist"))
          (orElse (ng_basePath options) "/"))
  else if bool_decide (ng_projectType options = BACKEND) || an_isSSR analysis then
    if negb (truthyNum (ng_port options)) then Throw "Backend için port gerekli"
    else Ok (ProxyConfig serverName (default 0 (ng_port options))
               (orElse (ng_basePath options) "/"))
  else if bool_decide (ng_projectType options = MONOREPO) then
    if negb (truthyNum (ng_port options)) then Throw "Monorepo için backend port gerekli"
    else Ok (MonorepoConfig serverName (default 0 (ng_port options))
               (if truthyStr (an_frontendPath analysis)
                then Some (pathJoin (pathJoin (ng_projectPath options)
                                              (default "" (an_frontendPath analysis)))
                                    (orElse (an_staticOutputDir analysis) "dist"))
                else None)
               (orElse (ng_basePath options) "/api") "/")
  else Throw ("Desteklenmeyen proje tipi: " +:+ typeName (ng_projectType options)).

(** The project is routed to an upstream process: the proxy and the
    combined shapes. *)
Definition needsUpstream (options : NginxConfigOptions) : bool :=
  negb (bool_decide (ng_projectType options = FRONTEND)
        && negb (an_isSSR (ng_analysis options)))
  && (bool_decide (ng_projectType options = BACKEND)
      || an_isSSR (ng_analysis options)
      || bool_decide (ng_projectType options = MONOREPO)).

Definition installConfig (configPath : string) (config : NginxConfig) : M unit :=
  fun st => (Ok tt, {| metadataFiles := metadataFiles st;
                       nginxFiles := <[configPath := config]> (nginxFiles st);
                       effects := effects st ++ [NginxInstall configPath] |}).

Definition syntaxWarning : string :=
  "Nginx syntax kontrolü başarısız. Config dosyası oluşturuldu ama manuel kontrol önerilir.".

Definition generateNginxConfig (tools : Tools) (options : NginxConfigOptions)
    : M string :=
  let configPath := getNginxConfigPath (ng_projectName options) in
  let temp := tempConfigPath (ng_projectName options) in
  do configContent <- liftResult (chooseConfig options);
  (if writeTemp tools temp then ret tt else throw "temp config write failed") ;;
  tryCatch
    ((if sudoCp tools temp configPath
      then installConfig configPath configContent
      else throw "sudo cp failed") ;;
     (if removeTemp tools temp then ret tt else throw "temp config remove failed"))
    (fun message =>
       warn "nginx" "Nginx config sudo ile kopyalanamadı. Manuel kopyalama gerekebilir" ;;
       throw ("Nginx config write failed: " +:+ message)) ;;
  (* syntax check: a failure is logged and the function carries on *)
  tryCatch
    (if sudoNginxT tools (locateNginx tools) then ret tt
     else throw "nginx -t failed")
    (fun _ => warn "nginx" syntaxWarning) ;;
  ret configPath.

Definition reloadWarning : string :=
  "Nginx reload hatası (manuel reload gerekebilir)".

Definition reloadNginx (tools : Tools) : M unit :=
  let nginxPath := locateNginx tools in
  tryCatch
    (exec (sudoNginxReload tools nginxPath) NginxReload "sudo nginx reload failed")
    (fun _ =>
       tryCatch
         (exec (nginxReload tools nginxPath) NginxReload "nginx reload failed")
         (fun _ => warn "nginx" reloadWarning)).

End Nginx.

(** ** The older copy of nginx/generateConfig.ts

    The repository also holds an earlier [generateNginxConfig], which
    writes the config file directly and rethrows a failed [nginx -t]. The
    pipeline below goes with the copy embedded in [Nginx]. *)
Module Legacy.

Record Tools : Type := {
  writeConfig : string -> bool;     (* [fs.writeFile(configPath, ...)] *)
  nginxT : bool                     (* [nginx -t] *)
}.

Definition generateNginxConfig (tools : Tools) (options : Nginx.NginxConfigOptions)
    : M string :=
  let configPath := Nginx.getNginxConfigPath (Nginx.ng_projectName options) in
  do configContent <- liftResult (Nginx.chooseConfig options);
  (if writeConfig tools configPath
   then Nginx.installConfig configPath configContent
   else throw "config write failed") ;;
  tryCatch
    (if nginxT tools then ret tt else throw "nginx -t failed")
    (fun message => throw ("Nginx config invalid: " +:+ message)) ;;
  ret configPath.

End Legacy.

(** ** index.ts: the deploy pipeline and the update command *)
Module Pipeline.
Import Analyzer.

(** [DeployConfig], with the two optional fields [deploy] reads besides
    those of types/index.ts. *)
Record DeployConfig : Type := {
  cfg_repoUrl : string;
  cfg_branch : string;
  cfg_projectType : ProjectType;
  cfg_port : option Z;
  cfg_envVars : option (list (string * string));
  cfg_projectName : string;
  cfg_basePath : option string;
  cfg_environment : option string;
  cfg_webhookEnabled : option bool
}.

Record DeployResult : Type := {
  success : bool;
  res_projectPath : string;
  res_port : option Z;
  res_nginxConfigPath : option string;
  res_pm2ProcessName : option string;
  res_error : option string
}.

(** Everything outside the orchestrator process. *)
Record World : Type := {
  probes : PortFinder.Probes;
  checkout : FileSystem;                       (* what the analyzer reads *)
  validateRepoUrl : string -> bool;            (* utils/security.ts *)
  dirExists : string -> bool;                  (* [fs.pathExists(projectPath)] *)
  removeDirOk : string -> bool;
  ensureDirOk : string -> bool;
  gitCloneOk : string -> string -> string -> bool;
  gitCurrentBranch : string -> option string;  (* trimmed stdout; [None]: it fails *)
  gitCheckoutOk : string -> string -> bool;
  gitPullOk : string -> string -> bool;
  installOk : string -> bool;                  (* install command in a work dir *)
  buildOk : string -> bool;                    (* build command in a work dir *)
  pm2StartOk : string -> bool;                 (* ecosystem file, [pm2 start], [pm2 show] *)
  pm2RestartOk : string -> bool;
  nginxTools : Nginx.Tools;
  metadataEnv : Metadata.Env
}.

Definition APPS_DIR : string := "/var/apps".

Definition getProjectPath (projectName : string) : string :=
  pathJoin APPS_DIR (Security.sanitizeProjectName projectName).

Definition getBuildLogPath (projectName : string) : string :=
  pathJoin (pathJoin APPS_DIR (Security.sanitizeProjectName projectName)) "build.log".

Definition getRuntimeLogPath (projectName : string) : string :=
  pathJoin (pathJoin APPS_DIR (Security.sanitizeProjectName projectName)) "runtime.log".

(** [path.basename] *)
Fixpoint basenameFrom (s acc : string) : string :=
  match s with
  | EmptyString => acc
  | String c s' =>
      if Ascii.eqb c "/" then basenameFrom s' EmptyString
      else basenameFrom s' (acc +:+ String c EmptyString)
  end.

Definition basename (p : string) : string := basenameFrom p EmptyString.

(** *** github/cloneRepo.ts *)

Definition updateRepo (w : World) (projectPath branch : string) : M string :=
  tryCatch
    (match gitCurrentBranch w projectPath with
     | None => throw "git branch failed"
     | Some currentBranch =>
         (if String.eqb currentBranch branch then ret tt
          else exec (gitCheckoutOk w projectPath branch)
                    (GitCheckout projectPath branch) "git checkout failed") ;;
         exec (gitPullOk w projectPath branch) (GitPull projectPath branch)
              "git pull failed" ;;
         ret projectPath
     end)
    (fun message => throw ("Git pull failed: " +:+ message)).

Record CloneOptions : Type := {
  co_repoUrl : string;
  co_branch : string;
  co_projectName : string;
  co_force : bool
}.

(** [path.dirname] of an absolute path without trailing slash: what
    stands before its last slash, [/] for an entry of the root. *)
Fixpoint dirnameFrom (s seen dir : string) : string :=
  match s with
  | EmptyString => dir
  | String c s' =>
      if Ascii.eqb c "/" then dirnameFrom s' (seen +:+ "/") seen
      else dirnameFrom s' (seen +:+ String c EmptyString) dir
  end.

Definition dirname (p : string) : string :=
  let dir := dirnameFrom p EmptyString EmptyString in
  if nonEmpty dir then dir else "/".

(** [fs.remove(projectPath)] of the workspace [APPS_DIR/<safeName>] went
    through. The directory goes with the [metadata.json] in it; when the
    name sanitized to the empty string the path is the apps directory
    itself, which goes with every project's. *)
Definition removeCheckout (safeName : string) : M unit :=
  fun st => (Ok tt, {| metadataFiles :=
                         if nonEmpty safeName
                         then delete safeName (metadataFiles st) else ∅;
                       nginxFiles := nginxFiles st;
                       effects := effects st ++ [RemoveDir (pathJoin APPS_DIR safeName)] |}).

Definition cloneRepo (w : World) (options : CloneOptions) : M string :=
  if negb (validateRepoUrl w (co_repoUrl options))
  then throw ("Geçersiz repo URL: " +:+ co_repoUrl options)
  else
    let projectPath := getProjectPath (co_projectName options) in
    if dirExists w projectPath && negb (co_force options)
    then updateRepo w projectPath (co_branch options)
    else
      (if dirExists w projectPath
       then if removeDirOk w projectPath
            then removeCheckout (Security.sanitizeProjectName (co_projectName options))
            else throw "remove failed"
       else ret tt) ;;
      (if ensureDirOk w (dirname projectPath) then ret tt
       else throw "ensureDir failed") ;;
      tryCatch
        (exec (gitCloneOk w (co_repoUrl options) (co_branch options) projectPath)
              (GitClone (co_repoUrl options) (co_branch options) projectPath)
              "git clone failed")
        (fun message => throw ("Git clone failed: " +:+ message)) ;;
      ret projectPath.

(** *** installer/installDeps.ts, builder/buildProject.ts, runner/runWithPM2.ts *)

Definition workDirOf (projectPath : string) (subPath : option string) : string :=
  if truthyStr subPath then pathJoin projectPath (default "" subPath) else projectPath.

Definition installDependencies (w : World) (projectPath : string)
    (packageManager : PackageManager) (subPath : option string) : M unit :=
  let workDir := workDirOf projectPath subPath in
  tryCatch
    (exec (installOk w workDir) (Install workDir) "install command failed")
    (fun message => throw ("Dependency installation failed: " +:+ message)).

Definition buildProject (w : World) (projectPath : string)
    (packageManager : PackageManager) (analysis : ProjectAnalysis)
    (subPath : option string) : M unit :=
  let workDir := workDirOf projectPath subPath in
  if negb (an_hasBuildScript analysis)
  then warn "builder" "Build script bulunamadı, build atlanıyor"
  else
    tryCatch
      (exec (buildOk w workDir) (Build workDir) "build command failed")
      (fun message => throw ("Build failed: " +:+ message)).

Definition processNameOf (projectName : string) (subPath : option string) : string :=
  if truthyStr subPath
  then projectName +:+ "-" +:+ basename (default "" subPath)
  else projectName.

Definition runWithPM2 (w : World) (projectPath : string)
    (packageManager : PackageManager) (analysis : ProjectAnalysis)
    (projectName : string) (port : option Z)
    (envVars : option (list (string * string))) (subPath : option string)
    : M string :=
  let workDir := workDirOf projectPath subPath in
  let processName := processNameOf projectName subPath in
  if negb (an_hasStartScript analysis) then throw "Start script bulunamadı"
  else
    tryCatch
      (exec (pm2StartOk w processName) (Pm2Start processName workDir port)
            "pm2 start failed")
      (fun message => throw ("PM2 start failed: " +:+ message)) ;;
    ret processName.

(** *** deploy *)

(** "Port kontrolü ve otomatik port bulma": the port the deploy goes on
    with. *)
Definition resolvePort (w : World) (config : DeployConfig) : option Z :=
  if truthyNum (cfg_port config)
  then Some (PortFinder.findAvailablePort (probes w) (default 0 (cfg_port config)) 10)
  else cfg_port config.

Definition analyze (w : World) (projectPath : string) (t : ProjectType)
    : M ProjectAnalysis :=
  liftResult (detectProjectType (checkout w) projectPath (Some t)).

(** Step 2 *)
Definition stageAnalyze (w : World) (config : DeployConfig) (projectPath : string)
    : M ProjectAnalysis :=
  do analysis <- analyze w projectPath (cfg_projectType config);
  if bool_decide (an_type analysis = UNKNOWN)
  then throw "Proje tipi tespit edilemedi. Lütfen --type parametresi ile belirtin."
  else ret analysis.

(** Step 3 *)
Definition stageInstall (w : World) (projectPath : string)
    (analysis : ProjectAnalysis) : M unit :=
  let pm := an_packageManager analysis in
  if bool_decide (an_type analysis = MONOREPO) then
    (if truthyStr (an_frontendPath analysis)
     then installDependencies w projectPath pm (an_frontendPath analysis)
     else ret tt) ;;
    (if truthyStr (an_backendPath analysis)
     then installDependencies w projectPath pm (an_backendPath analysis)
     else ret tt)
  else installDependencies w projectPath pm None.

(** Step 4 *)
Definition stageBuild (w : World) (projectPath : string)
    (analysis : ProjectAnalysis) : M unit :=
  let pm := an_packageManager analysis in
  if bool_decide (an_type analysis = MONOREPO) then
    (if truthyStr (an_frontendPath analysis) then
       do frontendAnalysis <-
         analyze w (pathJoin projectPath (default "" (an_frontendPath analysis))) FRONTEND;
       buildProject w projectPath pm frontendAnalysis (an_frontendPath analysis)
     else ret tt) ;;
    (if truthyStr (an_backendPath analysis) then
       do backendAnalysis <-
         analyze w (pathJoin projectPath (default "" (an_backendPath analysis))) BACKEND;
       buildProject w projectPath pm backendAnalysis (an_backendPath analysis)
     else ret tt)
  else buildProject w projectPath pm analysis None.

(** Step 5: [pm2ProcessName] stays undefined for a static frontend. *)
Definition stageRun (w : World) (config : DeployConfig) (finalPort : option Z)
    (projectPath : string) (analysis : ProjectAnalysis) : M (option string) :=
  let pm := an_packageManager analysis in
  if bool_decide (an_type analysis = FRONTEND) && negb (an_isSSR analysis)
  then ret None
  else if bool_decide (an_type analysis = MONOREPO) && truthyStr (an_backendPath analysis)
  then
    do backendAnalysis <-
      analyze w (pathJoin projectPath (default "" (an_backendPath analysis))) BACKEND;
    do processName <-
      runWithPM2 w projectPath pm backendAnalysis (cfg_projectName config)
                 finalPort (cfg_envVars config) (an_backendPath analysis);
    ret (Some processName)
  else
    do processName <-
      runWithPM2 w projectPath pm analysis (cfg_projectName config)
                 finalPort (cfg_envVars config) None;
    ret (Some processName).

(** Step 6 *)
Definition stageNginx (w : World) (config : DeployConfig) (finalPort : option Z)
    (projectPath : string) (analysis : ProjectAnalysis) : M string :=
  Nginx.generateNginxConfig (nginxTools w)
    {| Nginx.ng_projectName := cfg_projectName config;
       Nginx.ng_projectPath := projectPath;
       Nginx.ng_projectType := an_type analysis;
       Nginx.ng_analysis := analysis;
       Nginx.ng_port := finalPort;
       Nginx.ng_basePath := cfg_basePath config;
       Nginx.ng_domain := None |}.

(** What steps 2 to 7 hand to step 8. *)
Record Provisioned : Type := {
  pv_analysis : ProjectAnalysis;
  pv_pm2ProcessName : option string;
  pv_nginxConfigPath : string
}.

(** Steps 2 to 7, in order; the first one that throws ends the run. *)
Definition provision (w : World) (config : DeployConfig) (finalPort : option Z)
    (projectPath : string) : M Provisioned :=
  do analysis <- stageAnalyze w config projectPath;
  stageInstall w projectPath analysis ;;
  stageBuild w projectPath analysis ;;
  do pm2ProcessName <- stageRun w config finalPort projectPath analysis;
  do nginxConfigPath <- stageNginx w config finalPort projectPath analysis;
  Nginx.reloadNginx (nginxTools w) ;;
  ret {| pv_analysis := analysis;
         pv_pm2ProcessName := pm2ProcessName;
         pv_nginxConfigPath := nginxConfigPath |}.

(** Step 8: the record [deploy] saves. *)
Definition recordOf (w : World) (config : DeployConfig) (finalPort : option Z)
    (p : Provisioned) : ProjectMetadata :=
  {| md_name := cfg_projectName config;
     md_repoUrl := cfg_repoUrl config;
     md_branch := cfg_branch config;
     md_type := typeName (an_type (pv_analysis p));
     md_port := finalPort;
     md_basePath := orElse (cfg_basePath config) "/";
     md_createdAt := Metadata.now (metadataEnv w);
     md_updatedAt := Metadata.now (metadataEnv w);
     md_pm2ProcessName := pv_pm2ProcessName p;
     md_nginxConfigPath := Some (pv_nginxConfigPath p);
     md_environment := Some (orElse (cfg_environment config) "production");
     md_webhookEnabled := Some (default false (cfg_webhookEnabled config)) |}.

Definition succeeded (finalPort : option Z) (projectPath : string) (p : Provisioned)
    : DeployResult :=
  {| success := true;
     res_projectPath := projectPath;
     res_port := finalPort;
     res_nginxConfigPath := Some (pv_nginxConfigPath p);
     res_pm2ProcessName := pv_pm2ProcessName p;
     res_error := None |}.

(** The [catch] block's result; [projectPath] is still [''] when the
    clone itself threw. *)
Definition failed (projectPath message : string) : DeployResult :=
  {| success := false;
     res_projectPath := projectPath;
     res_port := None;
     res_nginxConfigPath := None;
     res_pm2ProcessName := None;
     res_error := Some (if nonEmpty message then message else "Bilinmeyen hata") |}.

(** The warning logged when the port finder moved the deploy to another
    port. *)
Definition portNotice (w : World) (config : DeployConfig) : M unit :=
  if bool_decide (resolvePort w config = cfg_port config) then ret tt
  else warn "deploy" "Port kullanımda, başka port kullanılıyor".

(** Step 1 *)
Definition stageFetch (w : World) (config : DeployConfig) : M string :=
  cloneRepo w {| co_repoUrl := cfg_repoUrl config;
                 co_branch := cfg_branch config;
                 co_projectName := cfg_projectName config;
                 co_force := false |}.

Definition deploy (w : World) (config : DeployConfig) : M DeployResult :=
  let finalPort := resolvePort w config in
  portNotice w config ;;
  do fetched <- attempt (stageFetch w config);
  match fetched with
  | Throw message => ret (failed "" message)
  | Ok projectPath =>
      tryCatch
        (do p <- provision w config finalPort projectPath;
         Metadata.saveMetadata (metadataEnv w) (recordOf w config finalPort p) ;;
         ret (succeeded finalPort projectPath p))
        (fun message => ret (failed projectPath message))
  end.

(** The world [w] with an nginx whose syntax check and reloads all
    fail. *)
Definition withFailingNginx (w : World) : World :=
  {| probes := probes w;
     checkout := checkout w;
     validateRepoUrl := validateRepoUrl w;
     dirExists := dirExists w;
     removeDirOk := removeDirOk w;
     ensureDirOk := ensureDirOk w;
     gitCloneOk := gitCloneOk w;
     gitCurrentBranch := gitCurrentBranch w;
     gitCheckoutOk := gitCheckoutOk w;
     gitPullOk := gitPullOk w;
     installOk := installOk w;
     buildOk := buildOk w;
     pm2StartOk := pm2StartOk w;
     pm2RestartOk := pm2RestartOk w;
     nginxTools :=
       {| Nginx.writeTemp := Nginx.writeTemp (nginxTools w);
          Nginx.sudoCp := Nginx.sudoCp (nginxTools w);
          Nginx.removeTemp := Nginx.removeTemp (nginxTools w);
          Nginx.whichNginx := Nginx.whichNginx (nginxTools w);
          Nginx.testF := Nginx.testF (nginxTools w);
          Nginx.sudoNginxT := fun _ => false;
          Nginx.sudoNginxReload := fun _ => false;
          Nginx.nginxReload := fun _ => false |};
     metadataEnv := metadataEnv w |}.

(** *** the [update] command *)

Inductive Exit : Type :=
| ExitOk
| ExitError (message : string).

Record UpdateOptions : Type := {
  opt_name : string;
  opt_branch : string
}.

(** commander: [.requiredOption('--name <name>')] and
    [.option('--branch <branch>', 'Git branch to pull', 'main')]; the third
    argument is the value of [options.branch] when the flag is absent. *)
Definition parseUpdateOptions (name : string) (branchFlag : option string)
    : UpdateOptions :=
  {| opt_name := name; opt_branch := default "main" branchFlag |}.

(** [options.branch || metadata.branch] *)
Definition branchToPull (options : UpdateOptions) (metadata : ProjectMetadata)
    : string :=
  if nonEmpty (opt_branch options) then opt_branch options else md_branch metadata.

Definition branchAndStamp (branch stamp : string) : PartialMetadata :=
  {| pm_name := None; pm_repoUrl := None; pm_branch := Some branch;
     pm_type := None; pm_port := None; pm_basePath := None;
     pm_createdAt := None; pm_updatedAt := Some stamp;
     pm_pm2ProcessName := None; pm_nginxConfigPath := None;
     pm_environment := None; pm_webhookEnabled := None |}.

Definition updateAction (w : World) (options : UpdateOptions) : M Exit :=
  tryCatch
    (do metadata <- Metadata.loadMetadata (opt_name options);
     match metadata with
     | None => ret (ExitError ("Proje bulunamadı: " +:+ opt_name options))
     | Some metadata =>
         cloneRepo w {| co_repoUrl := md_repoUrl metadata;
                        co_branch := branchToPull options metadata;
                        co_projectName := opt_name options;
                        co_force := false |} ;;
         (match md_pm2ProcessName metadata with
          | Some processName =>
              if nonEmpty processName
              then exec (pm2RestartOk w processName) (Pm2Restart processName)
                        "pm2 restart failed"
              else ret tt
          | None => ret tt
          end) ;;
         Metadata.updateMetadata (metadataEnv w) (opt_name options)
           (branchAndStamp (branchToPull options metadata)
                           (Metadata.now (metadataEnv w))) ;;
         ret ExitOk
     end)
    (fun message => ret (ExitError message)).

(** The effects of a re-fetch and of a supervisor restart. *)
Definition fetchOrRestart (e : Effect) : bool :=
  match e with
  | GitClone _ _ _ | GitCheckout _ _ | GitPull _ _ | RemoveDir _ | Pm2Restart _ => true
  | _ => false
  end.

(** Every effect but the removal of a directory. *)
Definition keepsWorkspace (e : Effect) : bool :=
  match e with
  | RemoveDir _ => false
  | _ => true
  end.

(** Every effect but the start of a supervised process. *)
Definition startsNoProcess (e : Effect) : bool :=
  match e with
  | Pm2Start _ _ _ => false
  | _ => true
  end.

(** [raillmy update --name <name> [--branch <branch>]] *)
Definition updateCommand (w : World) (name : string) (branchFlag : option string)
    : M Exit :=
  updateAction w (parseUpdateOptions name branchFlag).

(** *** the [remove] command *)

Record RemoveTools : Type := {
  confirmation : string;                 (* the line read from stdin *)
  pm2DeleteOk : string -> bool;          (* [pm2 delete <process>] *)
  sudoRmOk : string -> bool;             (* [sudo rm -f <config>] *)
  sudoReloadOk : bool;                   (* [sudo nginx -s reload] *)
  removeWorkspaceOk : string -> bool;    (* [fs.remove(projectPath)] *)
  removeMetadataOk : string -> bool      (* [fs.remove(metadataPath)] *)
}.

Inductive RemoveOutcome : Type :=
| NotFound
| Cancelled
| Removed
| Crashed (message : string).

(** [name] names a directory directly under the apps directory: it is
    not empty, has no slash and is neither [.] nor [..], so that
    [path.join(APPS_DIR, name)] is [APPS_DIR/name]. *)
Definition directoryName (name : string) : bool :=
  nonEmpty name
  && forallb (fun c => negb (Ascii.eqb c "/")) (list_ascii_of_string name)
  && negb (String.eqb name ".") && negb (String.eqb name "..").

(** [answer.toLowerCase()] is ['y'] or ['yes'] *)
Definition confirmed (answer : string) : bool :=
  String.eqb (Security.toLowerCase answer) "y"
  || String.eqb (Security.toLowerCase answer) "yes".

(** [sudo rm -f] of an nginx config went through. *)
Definition removeConfig (configPath : string) : M unit :=
  fun st => (Ok tt, {| metadataFiles := metadataFiles st;
                       nginxFiles := delete configPath (nginxFiles st);
                       effects := effects st |}).

(** [fs.remove] of the project's directory went through; its
    [metadata.json] goes with it. *)
Definition removeWorkspace (projectName : string) : M unit :=
  fun st => (Ok tt, {| metadataFiles := delete projectName (metadataFiles st);
                       nginxFiles := nginxFiles st;
                       effects := effects st ++ [RemoveDir (pathJoin APPS_DIR projectName)] |}).

(** Step 1: a failure is a warning. *)
Definition stopProcess (tools : RemoveTools) (metadata : ProjectMetadata) : M unit :=
  if truthyStr (md_pm2ProcessName metadata) then
    tryCatch
      (if pm2DeleteOk tools (default "" (md_pm2ProcessName metadata))
       then ret tt else throw "pm2 delete failed")
      (fun message => warn "remove" ("PM2 process silinemedi: " +:+ message))
  else ret tt.

(** Step 2: a failure is a warning. *)
Definition dropConfig (tools : RemoveTools) (metadata : ProjectMetadata) : M unit :=
  if truthyStr (md_nginxConfigPath metadata) then
    tryCatch
      ((if sudoRmOk tools (default "" (md_nginxConfigPath metadata))
        then removeConfig (default "" (md_nginxConfigPath metadata))
        else throw "sudo rm failed") ;;
       exec (sudoReloadOk tools) NginxReload "sudo nginx reload failed")
      (fun message => warn "remove" ("Nginx config silinemedi: " +:+ message))
  else ret tt.

(** Step 3: a failure is a warning. *)
Definition dropWorkspace (tools : RemoveTools) (name : string) : M unit :=
  tryCatch
    (if removeWorkspaceOk tools name then removeWorkspace name
     else throw "remove failed")
    (fun message => warn "remove" ("Proje dizini silinemedi: " +:+ message)).

(** Steps 1 to 4 *)
Definition removeProject (tools : RemoveTools) (name : string)
    (metadata : ProjectMetadata) : M RemoveOutcome :=
  stopProcess tools metadata ;;
  dropConfig tools metadata ;;
  dropWorkspace tools name ;;
  Metadata.deleteMetadata (removeMetadataOk tools) name ;;
  ret Removed.

Definition removeAction (tools : RemoveTools) (name : string) (force : bool)
    : M RemoveOutcome :=
  tryCatch
    (do metadata <- Metadata.loadMetadata name;
     match metadata with
     | None => ret NotFound
     | Some metadata =>
         if negb force && negb (confirmed (confirmation tools)) then ret Cancelled
         else removeProject tools name metadata
     end)
    (fun message => ret (Crashed message)).

End Pipeline.

(** ** webhook/webhookServer.ts *)
Module Webhook.

Record WebhookConfig : Type := {
  wh_port : Z;
  wh_secret : option string;
  wh_path : option string
}.

(** A request as the listener receives it. The body comes as the
    [Buffer] chunks of the stream's [data] events, in order; [Throw]
    stands for the stream's [error] event. *)
Record Request : Type := {
  req_method : string;
  req_url : string;
  req_signature : option string;      (* header [x-hub-signature-256] *)
  req_event : option string;          (* header [x-github-event] *)
  req_chunks : Result (list string)
}.

Record Response : Type := {
  status : Z;
  content : string
}.

(** The fields the handler reads from the parsed payload. *)
Record Push : Type := {
  push_ref : option string;
  push_clone_url : option string;
  push_html_url : option string
}.

(** [engineOrder] stands for what [Array.prototype.sort] does when its
    comparator returns NaN for some pair of elements: ECMAScript leaves
    the resulting order to the implementation. It maps the comparator's
    keys, in input order, to the input positions of the elements in
    output order. *)
Record Env : Type := {
  parseJson : string -> option Push;   (* [None]: [JSON.parse] throws *)
  appsEntries : option (Result (list string));
                                       (* [fs.readdir(APPS_DIR)]; [None]: no APPS_DIR *)
  isDirectory : string -> Result bool; (* [fs.stat] of an entry, then [isDirectory()] *)
  getTime : string -> option Z;        (* [new Date(s).getTime()]; [None]: NaN *)
  engineOrder : list (option Z) -> list nat;
  world : Pipeline.World
}.

(** [Buffer.from(s)] *)
Definition bufferFrom (s : string) : list ascii := list_ascii_of_string s.

(** U+FFFD, in UTF-8. *)
Definition replacementChar : string :=
  String "239"%char (String "191"%char (String "189"%char EmptyString)).

Definition byteIn (lower upper : N) (b : ascii) : bool :=
  (lower <=? N_of_ascii b)%N && (N_of_ascii b <=? upper)%N.

(** The UTF-8 decoder behind [chunk.toString()], which puts U+FFFD in
    the place of every ill-formed part of its input. As strings are kept
    as the bytes [Buffer.from] produces for them, the decoded text is
    given re-encoded: a well-formed sequence comes back as it is, an
    ill-formed part as the three bytes of U+FFFD.

    [remaining] counts the continuation bytes the open sequence still
    needs, [lower] and [upper] bound the next one, [seen] holds the bytes
    of the open sequence. *)
Fixpoint decodeUtf8 (remaining : nat) (lower upper : N) (seen bytes : string)
    : string :=
  match bytes with
  | EmptyString =>
      match remaining with
      | O => EmptyString
      | S _ => replacementChar
      end
  | String b rest =>
      let fresh :=
        if byteIn 0 127 b then String b (decodeUtf8 0 128 191 EmptyString rest)
        else if byteIn 194 223 b
        then decodeUtf8 1 128 191 (String b EmptyString) rest
        else if byteIn 224 239 b
        then decodeUtf8 2 (if byteIn 224 224 b then 160 else 128)
                          (if byteIn 237 237 b then 159 else 191)
                          (String b EmptyString) rest
        else if byteIn 240 244 b
        then decodeUtf8 3 (if byteIn 240 240 b then 144 else 128)
                          (if byteIn 244 244 b then 143 else 191)
                          (String b EmptyString) rest
        else replacementChar +:+ decodeUtf8 0 128 191 EmptyString rest in
      match remaining with
      | O => fresh
      | S n =>
          if byteIn lower upper b then
            match n with
            | O => seen +:+ String b (decodeUtf8 0 128 191 EmptyString rest)
            | S _ => decodeUtf8 n 128 191 (seen +:+ String b EmptyString) rest
            end
          else replacementChar +:+ fresh
      end
  end.

(** [chunk.toString()] *)
Definition bufferToString (chunk : string) : string :=
  decodeUtf8 0 128 191 EmptyString chunk.

(** Well-formed UTF-8, sequence by sequence: one byte up to 7F; C2..DF
    and a continuation byte; E0..EF and two, the first of them from A0
    after E0 and up to 9F after ED; F0..F4 and three, the first of them
    from 90 after F0 and up to 8F after F4. *)
Fixpoint wellFormedUtf8 (bytes : string) : bool :=
  match bytes with
  | EmptyString => true
  | String b1 rest =>
      if byteIn 0 127 b1 then wellFormedUtf8 rest
      else if byteIn 194 223 b1 then
        match rest with
        | String b2 rest2 => byteIn 128 191 b2 && wellFormedUtf8 rest2
        | EmptyString => false
        end
      else if byteIn 224 239 b1 then
        match rest with
        | String b2 (String b3 rest3) =>
            byteIn (if byteIn 224 224 b1 then 160 else 128)
                   (if byteIn 237 237 b1 then 159 else 191) b2
            && byteIn 128 191 b3 && wellFormedUtf8 rest3
        | _ => false
        end
      else if byteIn 240 244 b1 then
        match rest with
        | String b2 (String b3 (String b4 rest4)) =>
            byteIn (if byteIn 240 240 b1 then 144 else 128)
                   (if byteIn 244 244 b1 then 143 else 191) b2
            && byteIn 128 191 b3 && byteIn 128 191 b4 && wellFormedUtf8 rest4
        | _ => false
        end
      else false
  end.

Definition rangeErrorMessage : string :=
  "Input buffers must have the same byte length".

(** [readRequestBody]: [body += chunk.toString()] for every chunk. *)
Definition readRequestBody (req : Request) : Result string :=
  match req_chunks req with
  | Ok chunks =>
      Ok (fold_left (fun body chunk => body +:+ bufferToString chunk)
                    chunks EmptyString)
  | Throw message => Throw message
  end.

(** The body as it was sent: the bytes of the chunks, in order. *)
Definition rawBody (chunks : list string) : string :=
  fold_left String.append chunks EmptyString.

(** The signature a sender computes for a delivery: [sha256=] followed
    by the hex digest of the HMAC-SHA256 of the raw body under the shared
    secret. *)
Definition githubSignature (secret raw : string) : string :=
  "sha256=" +:+ Crypto.hex (Crypto.hmacSha256 (Crypto.bytesOf secret)
                                             (Crypto.bytesOf raw)).

(** [crypto.timingSafeEqual]: a RangeError unless both buffers have the
    same byte length, otherwise whether they are equal. *)
Definition timingSafeEqual (a b : list ascii) : Result bool :=
  if (length a =? length b)%nat then Ok (bool_decide (a = b))
  else Throw rangeErrorMessage.

Definition expectedSignature (body secret : string) : string :=
  "sha256=" +:+ Crypto.hmacSha256Hex secret body.

Definition verifySignature (body signature secret : string) : Result bool :=
  timingSafeEqual (bufferFrom signature) (bufferFrom (expectedSignature body secret)).

Fixpoint dropChars (n : nat) (s : string) : string :=
  match n, s with
  | S n', String _ s' => dropChars n' s'
  | _, _ => s
  end.

(** [s.replace(pattern, '')] with a string pattern: the first occurrence
    only. *)
Fixpoint replaceFirst (pattern s : string) : string :=
  if String.prefix pattern s then dropChars (String.length pattern) s
  else
    match s with
    | EmptyString => EmptyString
    | String c s' => String c (replaceFirst pattern s')
    end.

(** Stable sort, newest [updatedAt] first. *)
Fixpoint insertByUpdate (getTime : string -> Z) (x : ProjectMetadata)
    (l : list ProjectMetadata) : list ProjectMetadata :=
  match l with
  | [] => [x]
  | y :: l' =>
      if getTime (md_updatedAt y) <=? getTime (md_updatedAt x) then x :: l
      else y :: insertByUpdate getTime x l'
  end.

(** The comparator's key of a project, NaN when its [updatedAt] is no
    date. *)
Definition updateTime (env : Env) (m : ProjectMetadata) : option Z :=
  getTime env (md_updatedAt m).

(** The order the comparator of [listAllProjects] asks for: [a] may
    stand before [b], both carry a date and [b]'s is not the later
    one. *)
Definition newerFirst (env : Env) (a b : ProjectMetadata) : Prop :=
  exists ta tb,
    updateTime env a = Some ta /\ updateTime env b = Some tb /\ tb <= ta.

Definition dated (env : Env) (m : ProjectMetadata) : bool :=
  match updateTime env m with
  | Some _ => true
  | None => false
  end.

(** The time of a date string. *)
Definition timeOf (env : Env) (s : string) : Z := default 0 (getTime env s).

(** [projects.sort((a, b) => new Date(b.updatedAt).getTime() -
    new Date(a.updatedAt).getTime())]: the stable sort when every
    [updatedAt] is a date, and otherwise what the engine makes of it. *)
Definition sortByUpdate (env : Env) (projects : list ProjectMetadata)
    : list ProjectMetadata :=
  if forallb (dated env) projects
  then foldr (insertByUpdate (timeOf env)) [] projects
  else omap (fun i => projects !! i) (engineOrder env (updateTime env <$> projects)).

(** utils/metadata.ts: the loop of [listAllProjects] over the entries of
    APPS_DIR. *)
Fixpoint loadEach (env : Env) (entries : list string) : M (list ProjectMetadata) :=
  match entries with
  | [] => ret []
  | entry :: rest =>
      do isDir <- liftResult (isDirectory env entry);
      do metadata <- (if isDir then Metadata.loadMetadata entry else ret None);
      do projects <- loadEach env rest;
      ret (match metadata with
           | Some m => m :: projects
           | None => projects
           end)
  end.

(** utils/metadata.ts *)
Definition listAllProjects (env : Env) : M (list ProjectMetadata) :=
  match appsEntries env with
  | None => ret []
  | Some entries =>
      do entries <- liftResult entries;
      do projects <- loadEach env entries;
      ret (sortByUpdate env projects)
  end.

(** The entries of APPS_DIR that are directories. *)
Definition directoriesOf (env : Env) (entries : list string) : list string :=
  List.filter (fun entry => match isDirectory env entry with
                            | Ok isDir => isDir
                            | Throw _ => false
                            end) entries.

(** [fs.stat] succeeds on [entry]. *)
Definition statOk (env : Env) (entry : string) : bool :=
  match isDirectory env entry with
  | Ok _ => true
  | Throw _ => false
  end.

Definition sameRepo (repoUrl : string) (p : ProjectMetadata) : bool :=
  String.eqb (md_repoUrl p) repoUrl
  || String.eqb (md_repoUrl p) (replaceFirst ".git" repoUrl)
  || String.eqb (replaceFirst ".git" (md_repoUrl p)) repoUrl.

Definition respond (code : Z) (text : string) : M Response :=
  ret {| status := code; content := text |}.

(** The part of the handler after the signature check. *)
Definition handlePush (env : Env) (req : Request) (body : string) : M Response :=
  if negb (bool_decide (req_event req = Some "push")) then respond 200 "Event ignored"
  else
    match parseJson env body with
    | None => throw "JSON.parse failed"
    | Some payload =>
        let repoUrl := orElseOpt (push_clone_url payload) (push_html_url payload) in
        if negb (truthyStr repoUrl) then respond 400 "Invalid payload"
        else
          let ref := orElse (push_ref payload) "refs/heads/main" in
          let branch := replaceFirst "refs/heads/" ref in
          do projects <- listAllProjects env;
          match List.find (sameRepo (default "" repoUrl)) projects with
          | None => respond 404 "Project not found"
          | Some project =>
              if String.eqb (md_branch project) branch then
                (* [node dist/index.js update --name ... --branch ...] *)
                do exit <- Pipeline.updateCommand (world env) (md_name project) (Some branch);
                match exit with
                | Pipeline.ExitOk => respond 200 "Project updated"
                | Pipeline.ExitError message => respond 500 message
                end
              else respond 200 "Branch mismatch, ignored"
          end
    end.

(** The request listener of [startWebhookServer]. *)
Definition handleRequest (config : WebhookConfig) (env : Env) (req : Request)
    : M Response :=
  let webhookPath := default "/webhook" (wh_path config) in
  if String.eqb (req_method req) "OPTIONS" then respond 200 ""
  else if negb (String.eqb (req_method req) "POST")
          || negb (String.eqb (req_url req) webhookPath)
  then respond 404 "Not Found"
  else
    tryCatch
      (do body <- liftResult (readRequestBody req);
       do authorized <-
         (if truthyStr (wh_secret config) then
            if negb (truthyStr (req_signature req)) then ret false
            else liftResult (verifySignature body (default "" (req_signature req))
                                             (default "" (wh_secret config)))
          else ret true);
       if negb authorized then respond 401 "Unauthorized"
       else handlePush env req body)
      (fun message => respond 500 message).

(** The string [s] with its character at index [i] replaced by [c]. *)
Fixpoint setChar (i : nat) (c : ascii) (s : string) : string :=
  match s with
  | EmptyString => EmptyString
  | String d s' =>
      match i with
      | O => String c s'
      | S i' => String d (setChar i' c s')
      end
  end.

(** The request [req] with another [x-hub-signature-256] header. *)
Definition withSignature (signature : option string) (req : Request) : Request :=
  {| req_method := req_method req;
     req_url := req_url req;
     req_signature := signature;
     req_event := req_event req;
     req_chunks := req_chunks req |}.

(** The record [m] with another [webhookEnabled] field. *)
Definition withWebhookFlag (flag : option bool) (m : ProjectMetadata)
    : ProjectMetadata :=
  {| md_name := md_name m;
     md_repoUrl := md_repoUrl m;
     md_branch := md_branch m;
     md_type := md_type m;
     md_port := md_port m;
     md_basePath := md_basePath m;
     md_createdAt := md_createdAt m;
     md_updatedAt := md_updatedAt m;
     md_pm2ProcessName := md_pm2ProcessName m;
     md_nginxConfigPath := md_nginxConfigPath m;
     md_environment := md_environment m;
     md_webhookEnabled := flag |}.

Definition eraseFileFlag (f : MetaFile) : MetaFile :=
  match f with
  | ValidJson m => ValidJson (withWebhookFlag None m)
  | CorruptJson => CorruptJson
  end.

(** The state [st] with the [webhookEnabled] field dropped from every
    stored record. *)
Definition eraseWebhookFlags (st : State) : State :=
  {| metadataFiles := eraseFileFlag <$> metadataFiles st;
     nginxFiles := nginxFiles st;
     effects := effects st |}.

Definition knownStatus (code : Z) : bool :=
  bool_decide (code ∈ [200; 400; 401; 404; 500]).

(** [c] does not look at the [webhookEnabled] fields: run on the store
    without them, it returns the same and leaves the state it would have
    left, without them. *)
Definition flagBlind {A} (c : M A) : Prop :=
  forall st,
    c (eraseWebhookFlags st) = (fst (c st), eraseWebhookFlags (snd (c st))).

End Webhook.

(** ** health/healthCheck.ts *)
Module Health.

(** An entry of the [pm2 jlist] output, with the fields the check
    reads. *)
Record Pm2Process : Type := {
  proc_name : string;
  proc_status : option string;      (* [pm2_env?.status] *)
  proc_uptime : option Z;           (* [pm2_env?.pm_uptime] *)
  proc_restarts : option Z;         (* [pm2_env?.restart_time] *)
  proc_memory : option Z;           (* [monit?.memory] *)
  proc_cpu : option Z               (* [monit?.cpu] *)
}.

Record Env : Type := {
  pm2Jlist : option (list Pm2Process);   (* [None]: the command or [JSON.parse] throws *)
  clock : string;                        (* [new Date().toISOString()] *)
  listing : Webhook.Env
}.

Record HealthStatus : Type := {
  hs_healthy : bool;
  hs_projectName : string;
  hs_pm2Status : option string;
  hs_port : option Z;
  hs_lastCheck : string;
  hs_uptime : option Z;
  hs_restarts : option Z;
  hs_memory : option Z;
  hs_cpu : option Z
}.

(** The status before the supervisor is asked. *)
Definition initialStatus (env : Env) (projectName : string) (port : option Z)
    : HealthStatus :=
  {| hs_healthy := false;
     hs_projectName := projectName;
     hs_pm2Status := None;
     hs_port := port;
     hs_lastCheck := clock env;
     hs_uptime := None;
     hs_restarts := None;
     hs_memory := None;
     hs_cpu := None |}.

Definition withPm2Status (s : HealthStatus) (pm2Status : string) : HealthStatus :=
  {| hs_healthy := hs_healthy s;
     hs_projectName := hs_projectName s;
     hs_pm2Status := Some pm2Status;
     hs_port := hs_port s;
     hs_lastCheck := hs_lastCheck s;
     hs_uptime := hs_uptime s;
     hs_restarts := hs_restarts s;
     hs_memory := hs_memory s;
     hs_cpu := hs_cpu s |}.

(** The status filled in from the process found in the list. *)
Definition observed (s : HealthStatus) (process : Pm2Process) : HealthStatus :=
  let pm2Status := orElse (proc_status process) "unknown" in
  {| hs_healthy := String.eqb pm2Status "online";
     hs_projectName := hs_projectName s;
     hs_pm2Status := Some pm2Status;
     hs_port := hs_port s;
     hs_lastCheck := hs_lastCheck s;
     hs_uptime := proc_uptime process;
     hs_restarts :=
       Some (if truthyNum (proc_restarts process)
             then default 0 (proc_restarts process) else 0);
     hs_memory := proc_memory process;
     hs_cpu := proc_cpu process |}.

Definition namedBy (processName : string) (p : Pm2Process) : bool :=
  String.eqb (proc_name p) processName.

Definition checkHealth (env : Env) (projectName : string) : M HealthStatus :=
  do metadata <- Metadata.loadMetadata projectName;
  match metadata with
  | None => ret (initialStatus env projectName None)
  | Some metadata =>
      let status := initialStatus env projectName (md_port metadata) in
      if truthyStr (md_pm2ProcessName metadata) then
        match pm2Jlist env with
        | Some processes =>
            match List.find (namedBy (default "" (md_pm2ProcessName metadata)))
                            processes with
            | Some process => ret (observed status process)
            | None => ret (withPm2Status status "stopped")
            end
        | None => ret (withPm2Status status "unknown")
        end
      else ret status
  end.

(** [Promise.all(projects.map(project => checkHealth(project.name)))] *)
Fixpoint checkEach (env : Env) (projects : list ProjectMetadata)
    : M (list HealthStatus) :=
  match projects with
  | [] => ret []
  | project :: rest =>
      do status <- checkHealth env (md_name project);
      do statuses <- checkEach env rest;
      ret (status :: statuses)
  end.

Definition checkAllHealth (env : Env) : M (list HealthStatus) :=
  do projects <- Webhook.listAllProjects (listing env);
  checkEach env projects.

End Health.

(** ** utils/migrateMetadata.ts *)
Module Migrate.

(** What the inspection blocks of one iteration find for a directory.
    Each block catches its own errors, so each yields its variables
    whatever the tools and files do. *)
Record Probe : Type := {
  findPm2Process : string -> option string;              (* [pm2ProcessName] *)
  findNginxConfig : string -> option string * string;    (* [nginxConfigPath], [basePath] *)
  findPort : string -> option string -> option string -> option Z;
  findGit : string -> string * string;                   (* [repoUrl], [branch] *)
  findType : string -> string                            (* [projectType] *)
}.

Record Env : Type := {
  appsEntries : option (list string);   (* [fs.readdir(APPS_DIR)]; [None]: no APPS_DIR *)
  isDirectory : string -> option bool;  (* [None]: [fs.stat] throws *)
  probe : Probe;
  store : Metadata.Env
}.

(** The record written for a directory without [metadata.json]. *)
Definition discovered (env : Env) (entry : string) : ProjectMetadata :=
  let pm2ProcessName := findPm2Process (probe env) entry in
  let nginx := findNginxConfig (probe env) entry in
  let port := findPort (probe env) entry pm2ProcessName (fst nginx) in
  let git := findGit (probe env) entry in
  {| md_name := entry;
     md_repoUrl := if nonEmpty (fst git) then fst git else "unknown-" +:+ entry;
     md_branch := snd git;
     md_type := findType (probe env) entry;
     md_port := port;
     md_basePath := snd nginx;
     md_createdAt := Metadata.now (store env);
     md_updatedAt := Metadata.now (store env);
     md_pm2ProcessName := pm2ProcessName;
     md_nginxConfigPath := fst nginx;
     md_environment := Some "production"%string;
     md_webhookEnabled := Some false |}.

(** [repoUrl || pm2ProcessName] *)
Definition identified (env : Env) (entry : string) : bool :=
  nonEmpty (fst (findGit (probe env) entry))
  || truthyStr (findPm2Process (probe env) entry).

(** One iteration of the loop over the entries of APPS_DIR. *)
Definition migrateEntry (env : Env) (entry : string) : M unit :=
  fun st =>
    match isDirectory env entry with
    | None => (Throw "stat failed", st)
    | Some false => (Ok tt, st)
    | Some true =>
        match metadataFiles st !! entry with
        | Some _ => (Ok tt, st)
        | None =>
            if identified env entry
            then Metadata.saveMetadata (store env) (discovered env entry) st
            else (Ok tt, st)
        end
    end.

Fixpoint migrateEntries (env : Env) (entries : list string) : M unit :=
  match entries with
  | [] => ret tt
  | entry :: rest => migrateEntry env entry ;; migrateEntries env rest
  end.

Definition migrateExistingProjects (env : Env) : M unit :=
  match appsEntries env with
  | None => ret tt
  | Some entries => migrateEntries env entries
  end.

End Migrate.

(** ** index.ts: how the commands read their options *)
Module Cli.

(** [s.split(sep)] for a one-character separator. *)
Fixpoint split (sep : ascii) (s : string) : list string :=
  match s with
  | EmptyString => [EmptyString]
  | String c s' =>
      if Ascii.eqb c sep then EmptyString :: split sep s'
      else
        match split sep s' with
        | first :: rest => String c first :: rest
        | [] => [String c EmptyString]
        end
  end.

(** [parts.join(sep)] *)
Fixpoint join (sep : ascii) (parts : list string) : string :=
  match parts with
  | [] => EmptyString
  | [part] => part
  | part :: rest => part +:+ String sep (join sep rest)
  end.

(** [c] does not occur in [s]. *)
Fixpoint lacks (c : ascii) (s : string) : bool :=
  match s with
  | EmptyString => true
  | String d s' => negb (Ascii.eqb d c) && lacks c s'
  end.

(** [env --set <key=value>]:
    [const [key, ...valueParts] = options.set.split('=')], the value is
    [valueParts.join('=')], and an empty key or value is refused. *)
Definition parseSetOption (setOption : string) : option (string * string) :=
  match split "=" setOption with
  | key :: valueParts =>
      if nonEmpty key && nonEmpty (join "=" valueParts)
      then Some (key, join "=" valueParts)
      else None
  | [] => None
  end.

Section EnvOption.
Variable trim : string -> string.   (* [String.prototype.trim] *)

(** One pair of [deploy --env]: [const [key, value] = pair.split('=')],
    and [envVars[key.trim()] = value.trim()] if both are non-empty. *)
Definition envAssignment (pair : string) : option (string * string) :=
  match split "=" pair with
  | key :: value :: _ =>
      if nonEmpty key && nonEmpty value then Some (trim key, trim value) else None
  | _ => None
  end.

(** The assignments to [envVars] that [deploy --env <vars>] makes, in
    order. *)
Definition envAssignments (vars : string) : list (string * string) :=
  omap envAssignment (split "," vars).

End EnvOption.

(** The project name the deploy command goes on with. *)
Definition deriveProjectName (repoUrl : string) (nameOption : option string)
    (branchOption : string) : string :=
  let projectName :=
    if truthyStr nameOption then default "" nameOption
    else
      let repoName :=
        Webhook.replaceFirst ".git" (List.last (split "/" repoUrl) "") in
      let branch := if nonEmpty branchOption then branchOption else "main" in
      if negb (String.eqb branch "main") && negb (String.eqb branch "master")
      then repoName +:+ "-" +:+ branch
      else repoName in
  Security.sanitizeProjectName projectName.

End Cli.

(** ** Sample inputs, used to run the embedding on concrete data *)
Module Samples.
Import Analyzer.

Definition stamp : string := "2024-05-01T10:00:00.000Z".

Definition emptyState : State :=
  {| metadataFiles := ∅; nginxFiles := ∅; effects := [] |}.

Definition toolsOk : Nginx.Tools :=
  {| Nginx.writeTemp := fun _ => true;
     Nginx.sudoCp := fun _ _ => true;
     Nginx.removeTemp := fun _ => true;
     Nginx.whichNginx := Some "/usr/sbin/nginx"%string;
     Nginx.testF := fun _ => true;
     Nginx.sudoNginxT := fun _ => true;
     Nginx.sudoNginxReload := fun _ => true;
     Nginx.nginxReload := fun _ => true |}.

(** A checkout with nothing in it. *)
Definition emptyCheckout : FileSystem :=
  {| pathExists := fun _ => false;
     readJson := fun _ => UnreadableManifest;
     readdir := fun _ => Some [] |}.

(** A world in which every tool works and no port is taken; [cloned]
    says whether the project directory exists already, [currentBranch] is
    the branch checked out there. *)
Definition worldWith (fs : FileSystem) (cloned : bool) (currentBranch : string)
    : Pipeline.World :=
  {| Pipeline.probes := PortFinder.ssOnly (fun _ => false);
     Pipeline.checkout := fs;
     Pipeline.validateRepoUrl := fun _ => true;
     Pipeline.dirExists := fun _ => cloned;
     Pipeline.removeDirOk := fun _ => true;
     Pipeline.ensureDirOk := fun _ => true;
     Pipeline.gitCloneOk := fun _ _ _ => true;
     Pipeline.gitCurrentBranch := fun _ => Some currentBranch;
     Pipeline.gitCheckoutOk := fun _ _ => true;
     Pipeline.gitPullOk := fun _ _ => true;
     Pipeline.installOk := fun _ => true;
     Pipeline.buildOk := fun _ => true;
     Pipeline.pm2StartOk := fun _ => true;
     Pipeline.pm2RestartOk := fun _ => true;
     Pipeline.nginxTools := toolsOk;
     Pipeline.metadataEnv := {| Metadata.canWrite := fun _ => true;
                                Metadata.now := stamp |} |}.

(** The world before the first deploy of a project. *)
Definition calmWorld (fs : FileSystem) : Pipeline.World :=
  worldWith fs false "main".

(** As [calmWorld], but the install command fails. *)
Definition brokenInstall (fs : FileSystem) : Pipeline.World :=
  {| Pipeline.probes := Pipeline.probes (calmWorld fs);
     Pipeline.checkout := fs;
     Pipeline.validateRepoUrl := fun _ => true;
     Pipeline.dirExists := fun _ => false;
     Pipeline.removeDirOk := fun _ => true;
     Pipeline.ensureDirOk := fun _ => true;
     Pipeline.gitCloneOk := fun _ _ _ => true;
     Pipeline.gitCurrentBranch := fun _ => Some "main"%string;
     Pipeline.gitCheckoutOk := fun _ _ => true;
     Pipeline.gitPullOk := fun _ _ => true;
     Pipeline.installOk := fun _ => false;
     Pipeline.buildOk := fun _ => true;
     Pipeline.pm2StartOk := fun _ => true;
     Pipeline.pm2RestartOk := fun _ => true;
     Pipeline.nginxTools := toolsOk;
     Pipeline.metadataEnv := Pipeline.metadataEnv (calmWorld fs) |}.

(** A project deployed from its [develop] branch. *)
Definition developRecord : ProjectMetadata :=
  {| md_name := "demo";
     md_repoUrl := "https://github.com/user/demo";
     md_branch := "develop";
     md_type := "backend";
     md_port := Some 3000;
     md_basePath := "/";
     md_createdAt := "2024-04-01T09:00:00.000Z";
     md_updatedAt := "2024-04-01T09:00:00.000Z";
     md_pm2ProcessName := Some "demo"%string;
     md_nginxConfigPath := Some "/etc/nginx/conf.d/demo.conf"%string;
     md_environment := Some "staging"%string;
     md_webhookEnabled := Some false |}.

Definition deployedState : State :=
  {| metadataFiles := {[ "demo"%string := ValidJson developRecord ]};
     nginxFiles := ∅;
     effects := [] |}.

Definition deployedWorld : Pipeline.World :=
  worldWith emptyCheckout true "develop".

(** [raillmy deploy --repo https://github.com/user/demo --port 3000] *)
Definition demoConfig : Pipeline.DeployConfig :=
  {| Pipeline.cfg_repoUrl := "https://github.com/user/demo";
     Pipeline.cfg_branch := "main";
     Pipeline.cfg_projectType := UNKNOWN;
     Pipeline.cfg_port := Some 3000;
     Pipeline.cfg_envVars := None;
     Pipeline.cfg_projectName := "demo";
     Pipeline.cfg_basePath := Some "/"%string;
     Pipeline.cfg_environment := Some "production"%string;
     Pipeline.cfg_webhookEnabled := Some false |}.

Definition hookConfig : Webhook.WebhookConfig :=
  {| Webhook.wh_port := 3003;
     Webhook.wh_secret := Some "s3cret"%string;
     Webhook.wh_path := Some "/webhook"%string |}.

(** [new Date(s).getTime()] for the dates of the samples. *)
Definition sampleTime (s : string) : option Z :=
  if String.eqb s "2024-04-01T09:00:00.000Z" then Some 1711962000000
  else if String.eqb s "2024-05-01T10:00:00.000Z" then Some 1714557600000
  else None.

(** An engine that leaves an array it cannot order as it is. *)
Definition keepOrder (keys : list (option Z)) : list nat := seq 0 (length keys).

Definition hookEnv : Webhook.Env :=
  {| Webhook.parseJson := fun _ => None;
     Webhook.appsEntries := Some (Ok []);
     Webhook.isDirectory := fun _ => Ok true;
     Webhook.getTime := sampleTime;
     Webhook.engineOrder := keepOrder;
     Webhook.world := calmWorld emptyCheckout |}.

Definition pushBody : string := "push refs/heads/main".

Definition signedPush (signature : string) : Webhook.Request :=
  {| Webhook.req_method := "POST";
     Webhook.req_url := "/webhook";
     Webhook.req_signature := Some signature;
     Webhook.req_event := Some "push"%string;
     Webhook.req_chunks := Ok [pushBody] |}.

Definition demoPath : string := "/var/apps/demo".

Definition noScripts (deps : gmap string string) : PackageJson :=
  {| workspaces := None;
     dependencies := deps;
     devDependencies := ∅;
     scriptsBuild := None;
     scriptsStart := None |}.

(** A checkout whose only manifest is the root [package.json]. *)
Definition rootManifestOnly (pkg : PackageJson) : FileSystem :=
  {| pathExists := fun p => String.eqb p "/var/apps/demo/package.json";
     readJson := fun p =>
       if String.eqb p "/var/apps/demo/package.json"
       then Manifest pkg else UnreadableManifest;
     readdir := fun _ => Some [] |}.

(** No root manifest; one first-level directory [svc] whose manifest
    declares no framework the analyzer knows. *)
Definition lonelyService : FileSystem :=
  {| pathExists := fun p =>
       String.eqb p "/var/apps/demo/svc"
       || String.eqb p "/var/apps/demo/svc/package.json";
     readJson := fun p =>
       if String.eqb p "/var/apps/demo/svc/package.json"
       then Manifest (noScripts {[ "lodash"%string := "^4.17.21"%string ]})
       else UnreadableManifest;
     readdir := fun p =>
       if String.eqb p "/var/apps/demo"
       then Some [ {| entryName := "svc"; entryIsDirectory := true |} ]
       else Some [] |}.

Definition expressWithTurbo : PackageJson :=
  noScripts {[ "express"%string := "^4.18.2"%string;
               "turbo"%string := "^1.10.0"%string ]}.

Definition nextApp : PackageJson :=
  noScripts {[ "next"%string := "14.1.0"%string;
               "react"%string := "^18.2.0"%string ]}.

Definition expressApi : PackageJson :=
  {| workspaces := None;
     dependencies := {[ "express"%string := "^4.18.2"%string ]};
     devDependencies := ∅;
     scriptsBuild := None;
     scriptsStart := Some "node server.js"%string |}.

Definition workspaceRoot : PackageJson :=
  {| workspaces := Some (JArray [JString "packages/*"]);
     dependencies := {[ "express"%string := "^4.18.2"%string ]};
     devDependencies := ∅;
     scriptsBuild := None;
     scriptsStart := None |}.

End Samples.

(** ** More sample inputs *)
Module Cases.
Import Analyzer.

(** A single-page app built with Vite; it has no start script. *)
Definition viteApp : PackageJson :=
  {| workspaces := None;
     dependencies := {[ "react"%string := "^18.2.0"%string ]};
     devDependencies := {[ "vite"%string := "^5.0.0"%string ]};
     scriptsBuild := Some "vite build"%string;
     scriptsStart := None |}.

(** [raillmy deploy --repo https://github.com/user/demo] *)
Definition portlessConfig : Pipeline.DeployConfig :=
  {| Pipeline.cfg_repoUrl := "https://github.com/user/demo";
     Pipeline.cfg_branch := "main";
     Pipeline.cfg_projectType := UNKNOWN;
     Pipeline.cfg_port := None;
     Pipeline.cfg_envVars := None;
     Pipeline.cfg_projectName := "demo";
     Pipeline.cfg_basePath := Some "/"%string;
     Pipeline.cfg_environment := Some "production"%string;
     Pipeline.cfg_webhookEnabled := Some false |}.

(** Tools that work, except that the temporary config cannot be removed
    once it has been copied. *)
Definition stickyTemp : Nginx.Tools :=
  {| Nginx.writeTemp := fun _ => true;
     Nginx.sudoCp := fun _ _ => true;
     Nginx.removeTemp := fun _ => false;
     Nginx.whichNginx := Some "/usr/sbin/nginx"%string;
     Nginx.testF := fun _ => true;
     Nginx.sudoNginxT := fun _ => true;
     Nginx.sudoNginxReload := fun _ => true;
     Nginx.nginxReload := fun _ => true |}.

(** [Samples.developRecord], deployed with [--webhook]. *)
Definition hookedRecord : ProjectMetadata :=
  {| md_name := "demo";
     md_repoUrl := "https://github.com/user/demo";
     md_branch := "develop";
     md_type := "backend";
     md_port := Some 3000;
     md_basePath := "/";
     md_createdAt := "2024-04-01T09:00:00.000Z";
     md_updatedAt := "2024-04-01T09:00:00.000Z";
     md_pm2ProcessName := Some "demo"%string;
     md_nginxConfigPath := Some "/etc/nginx/conf.d/demo.conf"%string;
     md_environment := Some "staging"%string;
     md_webhookEnabled := Some true |}.

Definition hookedState : State :=
  {| metadataFiles := {[ "demo"%string := ValidJson hookedRecord ]};
     nginxFiles := ∅;
     effects := [] |}.

(** A listener without secret, over the one project [demo]; every
    payload parses to a push to [develop] of the project's repository. *)
Definition openConfig : Webhook.WebhookConfig :=
  {| Webhook.wh_port := 3003;
     Webhook.wh_secret := None;
     Webhook.wh_path := None |}.

Definition developPushEnv : Webhook.Env :=
  {| Webhook.parseJson := fun _ =>
       Some {| Webhook.push_ref := Some "refs/heads/develop"%string;
               Webhook.push_clone_url := Some "https://github.com/user/demo.git"%string;
               Webhook.push_html_url := Some "https://github.com/user/demo"%string |};
     Webhook.appsEntries := Some (Ok ["demo"%string]);
     Webhook.isDirectory := fun _ => Ok true;
     Webhook.getTime := Samples.sampleTime;
     Webhook.engineOrder := Samples.keepOrder;
     Webhook.world := Samples.deployedWorld |}.

Definition unsignedPush : Webhook.Request :=
  {| Webhook.req_method := "POST";
     Webhook.req_url := "/webhook";
     Webhook.req_signature := None;
     Webhook.req_event := Some "push"%string;
     Webhook.req_chunks := Ok [Samples.pushBody] |}.

(** An apps directory with the recorded project [demo], an unrecorded
    checkout [legacy] whose git config names its repository, and a stray
    file. *)
Definition legacyApps : Migrate.Env :=
  {| Migrate.appsEntries := Some ["demo"; "legacy"; "notes.txt"]%string;
     Migrate.isDirectory := fun entry => Some (negb (String.eqb entry "notes.txt"));
     Migrate.probe :=
       {| Migrate.findPm2Process := fun _ => None;
          Migrate.findNginxConfig := fun _ => (None, "/"%string);
          Migrate.findPort := fun _ _ _ => None;
          Migrate.findGit := fun entry =>
            (("https://github.com/user/" +:+ entry)%string, "main"%string);
          Migrate.findType := fun _ => "backend"%string |};
     Migrate.store := {| Metadata.canWrite := fun _ => true;
                         Metadata.now := Samples.stamp |} |}.

(** A checkout without root manifest whose [backend] directory holds
    an Express service. *)
Definition backendOnly : FileSystem :=
  {| pathExists := fun p =>
       String.eqb p "/var/apps/demo/backend"
       || String.eqb p "/var/apps/demo/backend/package.json";
     readJson := fun p =>
       if String.eqb p "/var/apps/demo/backend/package.json"
       then Manifest Samples.expressApi else UnreadableManifest;
     readdir := fun _ => Some [] |}.

(** A re-clone of [Demo] that discards the existing directory. *)
Definition forcedClone : Pipeline.CloneOptions :=
  {| Pipeline.co_repoUrl := "https://github.com/user/demo";
     Pipeline.co_branch := "main";
     Pipeline.co_projectName := "Demo";
     Pipeline.co_force := true |}.

(** The double quote. *)
Definition dq : string := String "034"%char EmptyString.

(** A push payload for the [develop] branch of the recorded project.
    Its commit message holds the character ü, two bytes in UTF-8;
    [commitPrefix] is what stands before it, [commitSuffix] what
    follows. *)
Definition commitPrefix : string :=
  "{" +:+ dq +:+ "ref" +:+ dq +:+ ":" +:+ dq +:+ "refs/heads/develop" +:+ dq
  +:+ "," +:+ dq +:+ "repository" +:+ dq +:+ ":{" +:+ dq +:+ "clone_url" +:+ dq
  +:+ ":" +:+ dq +:+ "https://github.com/user/demo.git" +:+ dq +:+ "},"
  +:+ dq +:+ "head_commit" +:+ dq +:+ ":{" +:+ dq +:+ "message" +:+ dq +:+ ":"
  +:+ dq +:+ "d".

Definition commitSuffix : string := "zeltme" +:+ dq +:+ "}}".

Definition commitBody : string := commitPrefix +:+ "ü" +:+ commitSuffix.

(** The payload cut between the two bytes of ü. *)
Definition commitChunk1 : string := commitPrefix +:+ String "195"%char EmptyString.

Definition commitChunk2 : string := String "188"%char commitSuffix.

(** The signature of [commitBody] under the secret [s3cret]. *)
Definition commitSignature : string :=
  "sha256=a2afe6f9dc5fda0d1b48ac36cc93a2cec7c40e5204408a66965044749417dafb".

(** A listener over the one project [demo] that parses [commitBody]. *)
Definition commitPushEnv : Webhook.Env :=
  {| Webhook.parseJson := fun body =>
       if String.eqb body commitBody
       then Some {| Webhook.push_ref := Some "refs/heads/develop"%string;
                    Webhook.push_clone_url :=
                      Some "https://github.com/user/demo.git"%string;
                    Webhook.push_html_url := None |}
       else None;
     Webhook.appsEntries := Some (Ok ["demo"%string]);
     Webhook.isDirectory := fun _ => Ok true;
     Webhook.getTime := Samples.sampleTime;
     Webhook.engineOrder := Samples.keepOrder;
     Webhook.world := Samples.deployedWorld |}.

(** A push event posted to the webhook path, its body in [chunks]. *)
Definition delivery (chunks : list string) (signature : string) : Webhook.Request :=
  {| Webhook.req_method := "POST";
     Webhook.req_url := "/webhook";
     Webhook.req_signature := Some signature;
     Webhook.req_event := Some "push"%string;
     Webhook.req_chunks := Ok chunks |}.

(** Two recorded projects, [beta] updated after [alpha], and a stray
    file in the apps directory. *)
Definition alphaRecord : ProjectMetadata :=
  {| md_name := "alpha";
     md_repoUrl := "https://github.com/user/alpha";
     md_branch := "main";
     md_type := "backend";
     md_port := Some 3000;
     md_basePath := "/";
     md_createdAt := "2024-04-01T09:00:00.000Z";
     md_updatedAt := "2024-04-01T09:00:00.000Z";
     md_pm2ProcessName := Some "alpha"%string;
     md_nginxConfigPath := None;
     md_environment := None;
     md_webhookEnabled := None |}.

Definition betaRecord : ProjectMetadata :=
  {| md_name := "beta";
     md_repoUrl := "https://github.com/user/beta";
     md_branch := "main";
     md_type := "frontend";
     md_port := None;
     md_basePath := "/";
     md_createdAt := "2024-04-01T09:00:00.000Z";
     md_updatedAt := "2024-05-01T10:00:00.000Z";
     md_pm2ProcessName := None;
     md_nginxConfigPath := None;
     md_environment := None;
     md_webhookEnabled := None |}.

Definition twoProjects : State :=
  {| metadataFiles := {[ "alpha"%string := ValidJson alphaRecord;
                         "beta"%string := ValidJson betaRecord ]};
     nginxFiles := ∅;
     effects := [] |}.

Definition appsListing : Webhook.Env :=
  {| Webhook.parseJson := fun _ => None;
     Webhook.appsEntries := Some (Ok ["alpha"; "beta"; "notes.txt"]%string);
     Webhook.isDirectory := fun entry => Ok (negb (String.eqb entry "notes.txt"));
     Webhook.getTime := Samples.sampleTime;
     Webhook.engineOrder := Samples.keepOrder;
     Webhook.world := Samples.deployedWorld |}.

(** A checkout whose only file is a root [package.json] holding
    [null]. *)
Definition nullManifest : FileSystem :=
  {| pathExists := fun p => String.eqb p "/var/apps/demo/package.json";
     readJson := fun _ => FalsyManifest;
     readdir := fun _ => Some [] |}.

(** The operator confirms; PM2 and nginx refuse, the file system
    obeys. *)
Definition stubbornTools : Pipeline.RemoveTools :=
  {| Pipeline.confirmation := "Yes";
     Pipeline.pm2DeleteOk := fun _ => false;
     Pipeline.sudoRmOk := fun _ => false;
     Pipeline.sudoReloadOk := false;
     Pipeline.removeWorkspaceOk := fun _ => true;
     Pipeline.removeMetadataOk := fun _ => true |}.

Definition apiOptions : Nginx.NginxConfigOptions :=
  {| Nginx.ng_projectName := "demo";
     Nginx.ng_projectPath := "/var/apps/demo";
     Nginx.ng_projectType := BACKEND;
     Nginx.ng_analysis := baseAnalysis BACKEND NPM Samples.expressApi;
     Nginx.ng_port := Some 3000;
     Nginx.ng_basePath := None;
     Nginx.ng_domain := None |}.

End Cases.

(** * Part II: properties *)

Section SanitizeFacts.
Import Security.

Lemma toLowerChar_safe c : isSafeChar c = true -> toLowerChar c = c.
Proof.
  unfold toLowerChar. intros H. destruct (isUpper c) eqn:E; [|done].
  exfalso. unfold isSafeChar, isUpper, isLower, isDigit, isHyphen, hyphen in *.
  apply andb_prop in E as [E1 E2].
  apply Nat.leb_le in E1, E2.
  apply orb_prop in H as [H|H]; [apply orb_prop in H as [H|H]|].
  - apply andb_prop in H as [H1 H2]. apply Nat.leb_le in H1, H2. lia.
  - apply andb_prop in H as [H1 H2]. apply Nat.leb_le in H1, H2. lia.
  - apply Ascii.eqb_eq in H. subst c.
    change (nat_of_ascii "-") with 45%nat in E1. lia.
Qed.

Lemma toLowerCase_allSafe s : allSafe s = true -> toLowerCase s = s.
Proof.
  induction s as [|c s IH]; simpl; [done|].
  intros [Hc Hs]%andb_prop. by rewrite toLowerChar_safe, IH.
Qed.

Lemma replaceUnsafe_allSafe s : allSafe (replaceUnsafe s) = true.
Proof.
  induction s as [|c s IH]; simpl; [done|].
  rewrite IH, andb_true_r. destruct (isSafeChar c) eqn:E; [done|reflexivity].
Qed.

Lemma replaceUnsafe_id s : allSafe s = true -> replaceUnsafe s = s.
Proof.
  induction s as [|c s IH]; simpl; [done|].
  intros [Hc Hs]%andb_prop. by rewrite Hc, IH.
Qed.

Lemma collapseHyphens_cons2 c c' s :
  collapseHyphens (String c (String c' s)) =
  if isHyphen c && isHyphen c' then collapseHyphens (String c' s)
  else String c (collapseHyphens (String c' s)).
Proof. reflexivity. Qed.

Lemma allSafe_cons c s : allSafe (String c s) = isSafeChar c && allSafe s.
Proof. reflexivity. Qed.

Lemma noDoubleHyphen_cons2 c c' s :
  noDoubleHyphen (String c (String c' s)) =
  negb (isHyphen c && isHyphen c') && noDoubleHyphen (String c' s).
Proof. reflexivity. Qed.

Lemma collapseHyphens_allSafe s :
  allSafe s = true -> allSafe (collapseHyphens s) = true.
Proof.
  induction s as [|c s IH]; [done|].
  rewrite allSafe_cons. intros [Hc Hs]%andb_prop.
  destruct s as [|c' s'].
  - simpl. by rewrite Hc.
  - rewrite collapseHyphens_cons2.
    destruct (isHyphen c && isHyphen c'); [by apply IH|].
    rewrite allSafe_cons, Hc. by apply IH.
Qed.

(** The first character of a collapsed string is the first character of
    the string. *)
Lemma collapseHyphens_head c s :
  exists t, collapseHyphens (String c s) = String c t.
Proof.
  revert c. induction s as [|c' s IH]; intros c.
  - by exists EmptyString.
  - rewrite collapseHyphens_cons2.
    destruct (isHyphen c && isHyphen c') eqn:E.
    + destruct (IH c') as [t Ht]. exists t. rewrite Ht.
      apply andb_prop in E as [E1 E2].
      apply Ascii.eqb_eq in E1, E2. congruence.
    + by eexists.
Qed.

Lemma collapseHyphens_noDouble s : noDoubleHyphen (collapseHyphens s) = true.
Proof.
  induction s as [|c s IH]; [done|].
  destruct s as [|c' s']; [done|].
  rewrite collapseHyphens_cons2.
  destruct (isHyphen c && isHyphen c') eqn:E; [done|].
  destruct (collapseHyphens_head c' s') as [t Ht].
  rewrite Ht in *. rewrite noDoubleHyphen_cons2, E. exact IH.
Qed.

Lemma collapseHyphens_id s : noDoubleHyphen s = true -> collapseHyphens s = s.
Proof.
  induction s as [|c s IH]; [done|].
  destruct s as [|c' s']; [done|].
  rewrite noDoubleHyphen_cons2, collapseHyphens_cons2.
  intros [E Hs]%andb_prop. apply negb_true_iff in E. rewrite E.
  by rewrite IH.
Qed.

Lemma noDoubleHyphen_tail c s :
  noDoubleHyphen (String c s) = true -> noDoubleHyphen s = true.
Proof.
  destruct s as [|c' s']; [done|].
  rewrite noDoubleHyphen_cons2. by intros [_ ?]%andb_prop.
Qed.

Lemma stripTrailingHyphen_cons2 c c' s :
  stripTrailingHyphen (String c (String c' s)) =
  String c (stripTrailingHyphen (String c' s)).
Proof. reflexivity. Qed.

Lemma noTrailingHyphen_cons2 c c' s :
  noTrailingHyphen (String c (String c' s)) = noTrailingHyphen (String c' s).
Proof. reflexivity. Qed.

Lemma stripTrailingHyphen_allSafe s :
  allSafe s = true -> allSafe (stripTrailingHyphen s) = true.
Proof.
  induction s as [|c s IH]; [done|].
  rewrite allSafe_cons. intros [Hc Hs]%andb_prop.
  destruct s as [|c' s'].
  - simpl. destruct (isHyphen c); [done|]. by rewrite allSafe_cons, Hc.
  - rewrite stripTrailingHyphen_cons2, allSafe_cons, Hc. by apply IH.
Qed.

Lemma stripTrailingHyphen_noDouble s :
  noDoubleHyphen s = true -> noDoubleHyphen (stripTrailingHyphen s) = true.
Proof.
  induction s as [|c s IH]; [done|].
  destruct s as [|c' s'].
  - simpl. by destruct (isHyphen c).
  - rewrite noDoubleHyphen_cons2, stripTrailingHyphen_cons2.
    intros [E Hs]%andb_prop. specialize (IH Hs).
    destruct s' as [|c'' s''].
    + simpl. destruct (isHyphen c') eqn:E'; [done|].
      by rewrite E', E.
    + rewrite stripTrailingHyphen_cons2 in *.
      rewrite noDoubleHyphen_cons2, E. exact IH.
Qed.

Lemma stripTrailingHyphen_noLeading s :
  noLeadingHyphen s = true -> noLeadingHyphen (stripTrailingHyphen s) = true.
Proof.
  destruct s as [|c [|c' s']]; [done| |].
  - simpl. destruct (isHyphen c) eqn:E; simpl; by rewrite ?E.
  - by rewrite stripTrailingHyphen_cons2.
Qed.

(** With no two hyphens in a row, removing one trailing hyphen leaves
    none. *)
Lemma stripTrailingHyphen_noTrailing s :
  noDoubleHyphen s = true -> noTrailingHyphen (stripTrailingHyphen s) = true.
Proof.
  induction s as [|c s IH]; [done|].
  destruct s as [|c' s'].
  - simpl. destruct (isHyphen c) eqn:E; [done|]. simpl. by rewrite E.
  - rewrite noDoubleHyphen_cons2, stripTrailingHyphen_cons2.
    intros [E Hs]%andb_prop. specialize (IH Hs).
    destruct s' as [|c'' s''].
    + simpl in *. destruct (isHyphen c') eqn:E'.
      * simpl. by rewrite andb_true_r in E.
      * simpl. by rewrite E'.
    + rewrite stripTrailingHyphen_cons2 in *.
      by rewrite noTrailingHyphen_cons2.
Qed.

Lemma stripTrailingHyphen_id s :
  noTrailingHyphen s = true -> stripTrailingHyphen s = s.
Proof.
  induction s as [|c s IH]; [done|].
  destruct s as [|c' s'].
  - simpl. intros E. apply negb_true_iff in E. by rewrite E.
  - rewrite noTrailingHyphen_cons2, stripTrailingHyphen_cons2.
    intros H. by rewrite IH.
Qed.

Lemma stripLeadingHyphen_allSafe s :
  allSafe s = true -> allSafe (stripLeadingHyphen s) = true.
Proof.
  destruct s as [|c s]; [done|]. simpl.
  intros [Hc Hs]%andb_prop. destruct (isHyphen c); [done|].
  by rewrite allSafe_cons, Hc.
Qed.

Lemma stripLeadingHyphen_noDouble s :
  noDoubleHyphen s = true -> noDoubleHyphen (stripLeadingHyphen s) = true.
Proof.
  destruct s as [|c s]; [done|]. intros H. simpl.
  destruct (isHyphen c); [by eapply noDoubleHyphen_tail|done].
Qed.

Lemma stripLeadingHyphen_noLeading s :
  noDoubleHyphen s = true -> noLeadingHyphen (stripLeadingHyphen s) = true.
Proof.
  destruct s as [|c s]; [done|]. unfold stripLeadingHyphen.
  destruct (isHyphen c) eqn:E.
  - destruct s as [|c' s']; [done|].
    rewrite noDoubleHyphen_cons2, E. simpl.
    by intros [? _]%andb_prop.
  - intros _. simpl. by rewrite E.
Qed.

Lemma stripLeadingHyphen_id s :
  noLeadingHyphen s = true -> stripLeadingHyphen s = s.
Proof.
  destruct s as [|c s]; [done|]. simpl.
  intros E. apply negb_true_iff in E. by rewrite E.
Qed.

Lemma sanitizeProjectName_wellFormed x : wellFormedName (sanitizeProjectName x).
Proof.
  unfold wellFormedName, sanitizeProjectName, stripEdgeHyphens.
  set (u := collapseHyphens (replaceUnsafe (toLowerCase x))).
  assert (Hs : allSafe u = true)
    by apply collapseHyphens_allSafe, replaceUnsafe_allSafe.
  assert (Hd : noDoubleHyphen u = true) by apply collapseHyphens_noDouble.
  repeat split.
  - by apply stripTrailingHyphen_allSafe, stripLeadingHyphen_allSafe.
  - by apply stripTrailingHyphen_noLeading, stripLeadingHyphen_noLeading.
  - by apply stripTrailingHyphen_noTrailing, stripLeadingHyphen_noDouble.
  - by apply stripTrailingHyphen_noDouble, stripLeadingHyphen_noDouble.
Qed.

Lemma sanitizeProjectName_fixes_wellFormed s :
  wellFormedName s -> sanitizeProjectName s = s.
Proof.
  intros (Hs & Hl & Ht & Hd).
  unfold sanitizeProjectName, stripEdgeHyphens.
  rewrite toLowerCase_allSafe, replaceUnsafe_id, collapseHyphens_id by done.
  by rewrite stripLeadingHyphen_id, stripTrailingHyphen_id.
Qed.

(** C9: [sanitizeProjectName] is idempotent, and its output consists of
    lowercase letters, digits and hyphens only, does not start with a
    hyphen, does not end with one, and has no two hyphens in a row. *)
Theorem sanitizeProjectName_idempotent_and_clean (x : string) :
  sanitizeProjectName (sanitizeProjectName x) = sanitizeProjectName x /\
  allSafe (sanitizeProjectName x) = true /\
  noLeadingHyphen (sanitizeProjectName x) = true /\
  noTrailingHyphen (sanitizeProjectName x) = true /\
  noDoubleHyphen (sanitizeProjectName x) = true.
Proof.
  pose proof (sanitizeProjectName_wellFormed x) as H.
  split; [by apply sanitizeProjectName_fixes_wellFormed|exact H].
Qed.

Example sanitize_example :
  sanitizeProjectName "--My_App..v2--" = "my-app-v2".
Proof. reflexivity. Qed.

End SanitizeFacts.

Section PortFinderFacts.
Import PortFinder.

Lemma scanPorts_skip env startPort (m : nat) : forall port r,
  (forall j : nat, (j < m)%nat -> isPortInUse env (port + Z.of_nat j) = true) ->
  scanPorts env startPort port (m + r) =
  scanPorts env startPort (port + Z.of_nat m) r.
Proof.
  induction m as [|m IH]; intros port r Hocc.
  - simpl. by rewrite Z.add_0_r.
  - change (S m + r)%nat with (S (m + r)). simpl scanPorts.
    pose proof (Hocc O ltac:(lia)) as H0. simpl in H0.
    rewrite Z.add_0_r in H0. rewrite H0.
    rewrite IH.
    + f_equal. lia.
    + intros j Hj. specialize (Hocc (S j) ltac:(lia)).
      rewrite <- Hocc. f_equal. lia.
Qed.

Lemma findAvailablePort_free env P n :
  (1 <= n)%nat -> isPortInUse env P = false -> findAvailablePort env P n = P.
Proof.
  intros Hn Hfree. destruct n as [|n]; [lia|].
  unfold findAvailablePort. simpl. by rewrite Hfree.
Qed.

Lemma findAvailablePort_next_free env P (k n : nat) :
  (forall j : nat, (j <= k)%nat -> isPortInUse env (P + Z.of_nat j) = true) ->
  isPortInUse env (P + Z.of_nat k + 1) = false ->
  (k + 1 < n)%nat ->
  findAvailablePort env P n = P + Z.of_nat k + 1.
Proof.
  intros Hocc Hfree Hlt. unfold findAvailablePort.
  replace n with (S k + S (n - k - 2))%nat by lia.
  rewrite scanPorts_skip by (intros j Hj; apply Hocc; lia).
  replace (P + Z.of_nat (S k)) with (P + Z.of_nat k + 1) by lia.
  simpl. by rewrite Hfree.
Qed.

Lemma findAvailablePort_all_occupied env P (n : nat) :
  (forall j : nat, (j < n)%nat -> isPortInUse env (P + Z.of_nat j) = true) ->
  findAvailablePort env P n = P.
Proof.
  intros Hocc. unfold findAvailablePort.
  replace n with (n + 0)%nat by lia.
  by rewrite scanPorts_skip.
Qed.

(** C4, as stated, fails at the boundary [k + 1 = maxAttempts]: with
    port 3000 occupied, port 3001 free and one attempt allowed ([k = 0]),
    the port finder probes 3000 only and gives back 3000, not 3001. *)
Lemma findAvailablePort_boundary_counterexample :
  (forall j : nat, (j <= 0)%nat ->
     isPortInUse (ssOnly (Z.eqb 3000)) (3000 + Z.of_nat j) = true) /\
  isPortInUse (ssOnly (Z.eqb 3000)) (3000 + Z.of_nat 0 + 1) = false /\
  (0 + 1 <= 1)%nat /\
  findAvailablePort (ssOnly (Z.eqb 3000)) 3000 1 = 3000 /\
  findAvailablePort (ssOnly (Z.eqb 3000)) 3000 1 <> 3000 + Z.of_nat 0 + 1.
Proof.
  split; [|split; [reflexivity|split; [lia|split; [reflexivity|]]]].
  - intros j Hj. assert (j = 0%nat) as -> by lia. reflexivity.
  - change (findAvailablePort (ssOnly (Z.eqb 3000)) 3000 1) with 3000. lia.
Qed.

(** C4 (amended): a free start port is returned for any [maxAttempts >= 1];
    if [P .. P+k] are occupied, [P+k+1] is free and [k + 1 < maxAttempts],
    the result is [P+k+1]; if all [maxAttempts] probed ports
    [P .. P+maxAttempts-1] are occupied, the result is [P]. *)
Theorem findAvailablePort_spec (env : Probes) (P : Z) (n : nat) :
  ((1 <= n)%nat -> isPortInUse env P = false -> findAvailablePort env P n = P) /\
  (forall k : nat,
     (forall j : nat, (j <= k)%nat -> isPortInUse env (P + Z.of_nat j) = true) ->
     isPortInUse env (P + Z.of_nat k + 1) = false ->
     (k + 1 < n)%nat ->
     findAvailablePort env P n = P + Z.of_nat k + 1) /\
  ((forall j : nat, (j < n)%nat -> isPortInUse env (P + Z.of_nat j) = true) ->
   findAvailablePort env P n = P).
Proof.
  split; [apply findAvailablePort_free|].
  split; [intros k; apply findAvailablePort_next_free|].
  apply findAvailablePort_all_occupied.
Qed.

Lemma findAvailablePort_spec_witness :
  findAvailablePort (ssOnly (fun p => p <? 3002)) 3003 10 = 3003 /\
  findAvailablePort (ssOnly (fun p => p <? 3002)) 3000 10 = 3000 + Z.of_nat 1 + 1 /\
  findAvailablePort (ssOnly (fun p => p <? 3002)) 2000 2 = 2000.
Proof.
  destruct (findAvailablePort_spec (ssOnly (fun p => p <? 3002)) 3003 10) as (A & _ & _).
  destruct (findAvailablePort_spec (ssOnly (fun p => p <? 3002)) 3000 10) as (_ & B & _).
  destruct (findAvailablePort_spec (ssOnly (fun p => p <? 3002)) 2000 2) as (_ & _ & C).
  split; [apply A; [lia|reflexivity]|].
  split.
  - apply (B 1%nat); [|reflexivity|lia].
    intros j Hj. destruct j as [|[|j]]; [reflexivity|reflexivity|lia].
  - apply C. intros j Hj. destruct j as [|[|j]]; [reflexivity|reflexivity|lia].
Defined.

End PortFinderFacts.

Section CryptoFacts.
Import Crypto.

Example sha256_abc :
  hex (sha256 (bytesOf "abc")) =
  "ba7816bf8f01cfea414140de5dae2223b00361a396177a9cb410ff61f20015ad".
Proof. vm_compute. reflexivity. Qed.

Example sha256_two_blocks :
  hex (sha256 (repeat 97 70)) =
  "6bd5e5034855a11241f0dee8fc72850ffd9955b28347a86428b5fa19119f6ad0".
Proof. vm_compute. reflexivity. Qed.

Example hmac_fox :
  hmacSha256Hex "key" "The quick brown fox jumps over the lazy dog" =
  "f7bc83f430538424b13298e6aa6fb143ef4d59a14946175997479dbc2d1a3cd8".
Proof. vm_compute. reflexivity. Qed.

Example hmac_long_key :
  hex (hmacSha256 (repeat 107 70) (bytesOf "hello")) =
  "73473f937d4c181ed6aa87ce97d6db7dc732e19dd43e60c8ab7ee3aed2d9f4b0".
Proof. vm_compute. reflexivity. Qed.

Lemma hex_length bs : String.length (hex bs) = (2 * length bs)%nat.
Proof.
  induction bs as [|b bs IH]; [reflexivity|].
  unfold hex in *. simpl. rewrite IH. lia.
Qed.

Lemma hashBytes_length h : length (hashBytes h) = 32%nat.
Proof. reflexivity. Qed.

Lemma sha256_length msg : length (sha256 msg) = 32%nat.
Proof. unfold sha256. apply hashBytes_length. Qed.

Lemma hmacSha256Hex_length secret body :
  String.length (hmacSha256Hex secret body) = 64%nat.
Proof.
  unfold hmacSha256Hex, hmacSha256. by rewrite hex_length, sha256_length.
Qed.

End CryptoFacts.

Section MetadataFacts.
Import Metadata.

(** C8: on a name with no metadata record, [updateMetadata] throws the
    not-found error and leaves every file as it was. *)
Theorem updateMetadata_missing_no_write (env : Env) (projectName : string)
    (updates : PartialMetadata) (st : State) :
  metadataFiles st !! projectName = None ->
  updateMetadata env projectName updates st =
    (Throw (notFoundMessage projectName), st).
Proof.
  intros Hnone. unfold updateMetadata, bind, loadMetadata.
  by rewrite Hnone.
Qed.

Lemma updateMetadata_missing_no_write_witness :
  updateMetadata (Pipeline.metadataEnv Samples.deployedWorld) "ghost"
    (Pipeline.branchAndStamp "main" Samples.stamp) Samples.deployedState =
    (Throw (notFoundMessage "ghost"), Samples.deployedState).
Proof.
  apply (updateMetadata_missing_no_write
           (Pipeline.metadataEnv Samples.deployedWorld) "ghost"
           (Pipeline.branchAndStamp "main" Samples.stamp) Samples.deployedState).
  by vm_compute.
Defined.

(** Round trip: a record that [saveMetadata] wrote is what
    [loadMetadata] returns for its name; a refused write throws and
    changes nothing. *)
Theorem saveMetadata_loadMetadata_roundtrip (env : Env) (m : ProjectMetadata)
    (st : State) :
  (canWrite env (md_name m) = true ->
   exists st', saveMetadata env m st = (Ok tt, st') /\
               loadMetadata (md_name m) st' = (Ok (Some m), st')) /\
  (canWrite env (md_name m) = false ->
   exists message, saveMetadata env m st = (Throw message, st)).
Proof.
  unfold saveMetadata. split; intros ->; [|by eexists].
  eexists. split; [reflexivity|].
  unfold loadMetadata, writeFile. simpl. by rewrite lookup_insert_eq.
Qed.

End MetadataFacts.

Section WebhookFacts.
Import Webhook.

Lemma bufferFrom_length s : length (bufferFrom s) = String.length s.
Proof. induction s as [|c s IH]; simpl; [done|]. by rewrite IH. Qed.

Lemma bufferFrom_inj s t : bufferFrom s = bufferFrom t -> s = t.
Proof.
  revert t. induction s as [|c s IH]; intros [|d t]; simpl; try done.
  intros [= -> H]. f_equal. by apply IH.
Qed.

Lemma append_length s t :
  String.length (s +:+ t) = (String.length s + String.length t)%nat.
Proof.
  induction s as [|c s IH]; [done|].
  change (String c s +:+ t) with (String c (s +:+ t)). simpl. by rewrite IH.
Qed.

Lemma expectedSignature_length body secret :
  String.length (expectedSignature body secret) = 71%nat.
Proof.
  unfold expectedSignature. by rewrite append_length, hmacSha256Hex_length.
Qed.

Lemma setChar_length i c s : String.length (setChar i c s) = String.length s.
Proof.
  revert i. induction s as [|d s IH]; intros [|i]; simpl; try done.
  by rewrite IH.
Qed.

Lemma setChar_differs i c s :
  (i < String.length s)%nat -> String.get i s <> Some c -> setChar i c s <> s.
Proof.
  revert i. induction s as [|d s IH]; intros [|i]; simpl; try lia.
  - intros _ Hne [= ->]. by apply Hne.
  - intros Hlt Hne [= Heq]. apply (IH i); [lia|done|done].
Qed.

Lemma verifySignature_same_length body signature secret :
  String.length signature = 71%nat ->
  verifySignature body signature secret =
    Ok (bool_decide (signature = expectedSignature body secret)).
Proof.
  intros Hlen. unfold verifySignature, timingSafeEqual.
  rewrite !bufferFrom_length, Hlen, expectedSignature_length, Nat.eqb_refl.
  f_equal. apply bool_decide_ext. split; [apply bufferFrom_inj|by intros ->].
Qed.

Lemma verifySignature_other_length body signature secret :
  String.length signature <> 71%nat ->
  verifySignature body signature secret = Throw rangeErrorMessage.
Proof.
  intros Hlen. unfold verifySignature, timingSafeEqual.
  rewrite !bufferFrom_length, expectedSignature_length.
  destruct (Nat.eqb_spec (String.length signature) 71); [done|reflexivity].
Qed.

(** What the listener does with a POST on the webhook path whose body was
    read, when a secret is configured and the signature header is
    non-empty. *)
Lemma handleRequest_checks_signature config env req st secret signature body :
  wh_secret config = Some secret -> nonEmpty secret = true ->
  req_method req = "POST"%string ->
  req_url req = default "/webhook"%string (wh_path config) ->
  readRequestBody req = Ok body ->
  req_signature req = Some signature -> nonEmpty signature = true ->
  handleRequest config env req st =
    match verifySignature body signature secret with
    | Ok true => tryCatch (handlePush env req body) (fun m => respond 500 m) st
    | Ok false => (Ok {| status := 401; content := "Unauthorized" |}, st)
    | Throw message => (Ok {| status := 500; content := message |}, st)
    end.
Proof.
  intros Hsec Hne Hm Hu Hb Hsig Hsne. unfold handleRequest.
  rewrite Hm, Hu, Hsec, Hb, Hsig.
  simpl. rewrite Hne, Hsne, String.eqb_refl. simpl.
  unfold tryCatch, bind, liftResult. simpl.
  by destruct (verifySignature body signature secret) as [[|]|].
Qed.

Lemma nonEmpty_of_length s n : String.length s = S n -> nonEmpty s = true.
Proof. by destruct s. Qed.

(** The digest the listener compares with is the sender's signature of
    the text that was read. *)
Lemma expectedSignature_github body secret :
  expectedSignature body secret = githubSignature secret body.
Proof. reflexivity. Qed.

(** [verifySignature] returns [true] for one header value only. *)
Lemma verifySignature_accepts_iff body signature secret :
  verifySignature body signature secret = Ok true <->
  signature = githubSignature secret body.
Proof.
  rewrite <- expectedSignature_github.
  destruct (Nat.eq_dec (String.length signature) 71%nat) as [Hlen|Hlen].
  - rewrite verifySignature_same_length by done.
    split; [intros [= H]; by apply bool_decide_eq_true in H|].
    intros ->. by rewrite bool_decide_eq_true_2.
  - rewrite verifySignature_other_length by done.
    split; [done|]. intros ->. by rewrite expectedSignature_length in Hlen.
Qed.

(** A header that differs from the digest of the text that was read in
    one character of one byte is answered 401, and no state changes. *)
Lemma handleRequest_rejects_flipped_byte config env req st secret body i c :
  wh_secret config = Some secret -> nonEmpty secret = true ->
  req_method req = "POST"%string ->
  req_url req = default "/webhook"%string (wh_path config) ->
  readRequestBody req = Ok body ->
  (i < 71)%nat -> byteIn 0 127 c = true ->
  String.get i (githubSignature secret body) <> Some c ->
  req_signature req = Some (setChar i c (githubSignature secret body)) ->
  handleRequest config env req st =
    (Ok {| status := 401; content := "Unauthorized" |}, st).
Proof.
  rewrite <- expectedSignature_github.
  intros Hsec Hne Hm Hu Hb Hi _ Hc Hsig.
  rewrite (handleRequest_checks_signature config env req st secret
             (setChar i c (expectedSignature body secret)) body)
    by first [done | eapply nonEmpty_of_length; rewrite setChar_length;
                     apply expectedSignature_length].
  rewrite verifySignature_same_length
    by (rewrite setChar_length; apply expectedSignature_length).
  rewrite bool_decide_eq_false_2; [done|].
  apply setChar_differs; [|done]. by rewrite expectedSignature_length.
Qed.

(** C7, at an input where the code departs from it. A push is delivered
    with the signature of its raw body, the hex HMAC-SHA256 under the
    secret. Received in one chunk, it passes the check and the project is
    updated. Received in two chunks that part the two bytes of a
    character of the commit message, it is answered 401 Unauthorized and
    nothing happens: each chunk is decoded on its own, the two halves of
    the character become two U+FFFD, and the listener computes the HMAC
    of that text. *)
Theorem handleRequest_rejects_signed_split_body :
  rawBody [Cases.commitChunk1; Cases.commitChunk2] = Cases.commitBody /\
  githubSignature "s3cret" Cases.commitBody = Cases.commitSignature /\
  fst (handleRequest Samples.hookConfig Cases.commitPushEnv
         (Cases.delivery [Cases.commitBody] Cases.commitSignature)
         Samples.deployedState)
    = Ok {| status := 200; content := "Project updated" |} /\
  readRequestBody
    (Cases.delivery [Cases.commitChunk1; Cases.commitChunk2] Cases.commitSignature)
    = Ok (Cases.commitPrefix +:+ replacementChar +:+ replacementChar
          +:+ Cases.commitSuffix) /\
  handleRequest Samples.hookConfig Cases.commitPushEnv
    (Cases.delivery [Cases.commitChunk1; Cases.commitChunk2] Cases.commitSignature)
    Samples.deployedState
    = (Ok {| status := 401; content := "Unauthorized" |}, Samples.deployedState).
Proof. vm_compute. repeat split. Qed.

(** The same delivery in one chunk, with one character of the signature
    replaced: by another hex digit, the answer is 401; by a character
    that takes two bytes, the header is 72 bytes long and the answer is
    500. *)
Example handleRequest_flipped_signature :
  handleRequest Samples.hookConfig Cases.commitPushEnv
    (Cases.delivery [Cases.commitBody]
       "sha256=b2afe6f9dc5fda0d1b48ac36cc93a2cec7c40e5204408a66965044749417dafb")
    Samples.deployedState
    = (Ok {| status := 401; content := "Unauthorized" |}, Samples.deployedState) /\
  handleRequest Samples.hookConfig Cases.commitPushEnv
    (Cases.delivery [Cases.commitBody]
       "sha256=é2afe6f9dc5fda0d1b48ac36cc93a2cec7c40e5204408a66965044749417dafb")
    Samples.deployedState
    = (Ok {| status := 500; content := rangeErrorMessage |}, Samples.deployedState).
Proof. vm_compute. repeat split. Qed.

(** C10: with a secret configured and a non-empty signature header whose
    byte length is not the 71 of [sha256=] plus 64 hex digits,
    [timingSafeEqual] throws inside [verifySignature] and the listener
    answers 500 with the error's message; a wrong signature of length 71
    is answered with 401. *)
Theorem handleRequest_signature_length_mismatch_is_500
    config env req st (secret signature body : string) :
  wh_secret config = Some secret -> nonEmpty secret = true ->
  req_method req = "POST"%string ->
  req_url req = default "/webhook"%string (wh_path config) ->
  readRequestBody req = Ok body ->
  req_signature req = Some signature -> nonEmpty signature = true ->
  (String.length signature <> 71%nat ->
   verifySignature body signature secret = Throw rangeErrorMessage /\
   handleRequest config env req st =
     (Ok {| status := 500; content := rangeErrorMessage |}, st)) /\
  (String.length signature = 71%nat ->
   signature <> expectedSignature body secret ->
   verifySignature body signature secret = Ok false /\
   handleRequest config env req st =
     (Ok {| status := 401; content := "Unauthorized" |}, st)).
Proof.
  intros Hsec Hne Hm Hu Hb Hsig Hsne.
  rewrite (handleRequest_checks_signature config env req st secret signature body)
    by done.
  split.
  - intros Hlen. by rewrite verifySignature_other_length.
  - intros Hlen Hdiff. rewrite verifySignature_same_length by done.
    by rewrite bool_decide_eq_false_2.
Qed.

Lemma handleRequest_short_signature_witness :
  handleRequest Samples.hookConfig Samples.hookEnv
    (Samples.signedPush "sha256=abc") Samples.emptyState =
    (Ok {| status := 500; content := rangeErrorMessage |}, Samples.emptyState) /\
  handleRequest Samples.hookConfig Samples.hookEnv
    (Samples.signedPush
       "sha256=0000000000000000000000000000000000000000000000000000000000000000")
    Samples.emptyState =
    (Ok {| status := 401; content := "Unauthorized" |}, Samples.emptyState).
Proof.
  split.
  - apply (handleRequest_signature_length_mismatch_is_500
             Samples.hookConfig Samples.hookEnv (Samples.signedPush "sha256=abc")
             Samples.emptyState "s3cret" "sha256=abc" Samples.pushBody);
      try reflexivity.
    vm_compute; lia.
  - apply (handleRequest_signature_length_mismatch_is_500
             Samples.hookConfig Samples.hookEnv
             (Samples.signedPush
                "sha256=0000000000000000000000000000000000000000000000000000000000000000")
             Samples.emptyState "s3cret"
             "sha256=0000000000000000000000000000000000000000000000000000000000000000"
             Samples.pushBody);
      try reflexivity.
    vm_compute; discriminate.
Defined.

Lemma handleRequest_no_secret config env req st body :
  wh_secret config = None ->
  req_method req = "POST"%string ->
  req_url req = default "/webhook"%string (wh_path config) ->
  readRequestBody req = Ok body ->
  handleRequest config env req st =
    tryCatch (handlePush env req body) (fun m => respond 500 m) st.
Proof.
  intros Hsec Hm Hu Hb. unfold handleRequest.
  rewrite Hm, Hu, Hsec, Hb. simpl. by rewrite String.eqb_refl.
Qed.

(** Requests the listener acknowledges or rejects without touching any
    state (no secret configured): an event other than push is answered
    200; a push for a repository that matches no stored project is
    answered 404; a push for another branch than the project's is
    answered 200. *)
Theorem handleRequest_without_side_effects
    (config : WebhookConfig) (env : Env) (req : Request) (st : State)
    (body : string) :
  wh_secret config = None ->
  req_method req = "POST"%string ->
  req_url req = default "/webhook"%string (wh_path config) ->
  readRequestBody req = Ok body ->
  (req_event req <> Some "push"%string ->
   handleRequest config env req st =
     (Ok {| status := 200; content := "Event ignored" |}, st)) /\
  (forall payload repoUrl projects,
     req_event req = Some "push"%string ->
     parseJson env body = Some payload ->
     orElseOpt (push_clone_url payload) (push_html_url payload) = Some repoUrl ->
     nonEmpty repoUrl = true ->
     listAllProjects env st = (Ok projects, st) ->
     (List.find (sameRepo repoUrl) projects = None ->
      handleRequest config env req st =
        (Ok {| status := 404; content := "Project not found" |}, st)) /\
     (forall project,
        List.find (sameRepo repoUrl) projects = Some project ->
        md_branch project <>
          replaceFirst "refs/heads/" (orElse (push_ref payload) "refs/heads/main") ->
        handleRequest config env req st =
          (Ok {| status := 200; content := "Branch mismatch, ignored" |}, st))).
Proof.
  intros Hsec Hm Hu Hb.
  rewrite (handleRequest_no_secret config env req st body) by done.
  unfold handlePush, tryCatch. split.
  - intros Hev. by rewrite bool_decide_eq_false_2.
  - intros payload repoUrl projects Hev Hparse Hurl Hne Hlist.
    rewrite bool_decide_eq_true_2 by done. simpl.
    rewrite Hparse, Hurl. simpl. rewrite Hne. simpl.
    unfold bind. rewrite Hlist. split.
    + by intros ->.
    + intros project -> Hbranch.
      destruct (String.eqb_spec (md_branch project)
                  (replaceFirst "refs/heads/"
                     (orElse (push_ref payload) "refs/heads/main")));
        [done|reflexivity].
Qed.

Lemma handleRequest_without_side_effects_witness :
  handleRequest
    {| wh_port := 3003; wh_secret := None; wh_path := None |}
    Samples.hookEnv
    {| req_method := "POST"; req_url := "/webhook"; req_signature := None;
       req_event := Some "ping"%string;
       req_chunks := Ok [Samples.pushBody] |}
    Samples.deployedState =
    (Ok {| status := 200; content := "Event ignored" |}, Samples.deployedState).
Proof.
  apply (handleRequest_without_side_effects
           {| wh_port := 3003; wh_secret := None; wh_path := None |}
           Samples.hookEnv
           {| req_method := "POST"; req_url := "/webhook"; req_signature := None;
              req_event := Some "ping"%string;
       req_chunks := Ok [Samples.pushBody] |}
           Samples.deployedState Samples.pushBody); try reflexivity.
  discriminate.
Defined.

End WebhookFacts.

Section AnalyzerFacts.
Import Analyzer.

Lemma readPackageJson_present fs projectPath pkg :
  readPackageJson fs projectPath = Ok (Some pkg) ->
  pathExists fs (manifestPath projectPath) = true.
Proof.
  unfold readPackageJson. by destruct (pathExists fs (manifestPath projectPath)).
Qed.

(** [readPackageJson] returns a falsy value when there is no file and
    when the file holds one. *)
Lemma readPackageJson_absent fs projectPath :
  readPackageJson fs projectPath = Ok None <->
  pathExists fs (manifestPath projectPath) = false \/
  readJson fs (manifestPath projectPath) = FalsyManifest.
Proof.
  unfold readPackageJson.
  destruct (pathExists fs (manifestPath projectPath));
    destruct (readJson fs (manifestPath projectPath)); split; try done;
    try (by intros [?|?]); by auto.
Qed.

(** With a manifest at the root that holds a truthy value the analysis
    returns an analysis or fails on reading the manifest; it never
    reports a missing manifest. *)
Lemma detectProjectType_root_manifest fs projectPath t :
  pathExists fs (manifestPath projectPath) = true ->
  readJson fs (manifestPath projectPath) <> FalsyManifest ->
  detectProjectType fs projectPath t = Throw unreadableManifestMessage \/
  exists a, detectProjectType fs projectPath t = Ok a.
Proof.
  intros Hroot Htruthy. unfold detectProjectType, readPackageJson. rewrite Hroot.
  destruct (readJson fs (manifestPath projectPath)) as [pkg| |];
    [right|done|by left].
  destruct (explicitType t) as [t'|]; [by eexists|].
  destruct (isMonorepo fs pkg projectPath); [by eexists|].
  destruct (existsb _ backendFrameworks); [by eexists|].
  destruct (existsb _ frontendFrameworks); by eexists.
Qed.

(** Without a manifest at the root the user's type is not consulted. *)
Lemma detectProjectType_no_root_manifest fs projectPath t :
  readPackageJson fs projectPath = Ok None ->
  (detectProjectType fs projectPath t = Throw noManifestMessage <->
   truthyStr (fst (analyzeMonorepo fs projectPath)) = false /\
   truthyStr (snd (analyzeMonorepo fs projectPath)) = false).
Proof.
  intros Hroot. unfold detectProjectType. rewrite Hroot.
  destruct (truthyStr (fst (analyzeMonorepo fs projectPath)));
    destruct (truthyStr (snd (analyzeMonorepo fs projectPath))); simpl;
    split; try done; by intros [? ?].
Qed.

Lemma scanEntry_frontend fs projectPath found entry :
  truthyStr (fst (scanEntry fs projectPath found entry)) =
  truthyStr (fst found)
  || (nonEmpty (entryName entry)
      && entryDeclares fs projectPath scanFrontendFrameworks entry).
Proof.
  unfold scanEntry, entryDeclares. cbv zeta.
  destruct (scanned entry); [|simpl; by rewrite andb_false_r, orb_false_r].
  destruct (pathExists fs _); [|simpl; by rewrite andb_false_r, orb_false_r].
  destruct (readJson fs _) as [pkg| |];
    [|simpl; by rewrite andb_false_r, orb_false_r..].
  set (front := existsb (declares (mergedDependencies pkg)) scanFrontendFrameworks).
  set (back := existsb (declares (mergedDependencies pkg)) scanBackendFrameworks).
  simpl. destruct front, back, (truthyStr (fst found)) eqn:Ef,
    (truthyStr (snd found)) eqn:Eb; simpl;
    rewrite ?Ef, ?Eb, ?andb_true_r, ?andb_false_r, ?orb_false_r; done.
Qed.

Lemma scanEntry_backend fs projectPath found entry :
  truthyStr (snd (scanEntry fs projectPath found entry)) =
  truthyStr (snd found)
  || (nonEmpty (entryName entry)
      && entryDeclares fs projectPath scanBackendFrameworks entry).
Proof.
  unfold scanEntry, entryDeclares. cbv zeta.
  destruct (scanned entry); [|simpl; by rewrite andb_false_r, orb_false_r].
  destruct (pathExists fs _); [|simpl; by rewrite andb_false_r, orb_false_r].
  destruct (readJson fs _) as [pkg| |];
    [|simpl; by rewrite andb_false_r, orb_false_r..].
  set (front := existsb (declares (mergedDependencies pkg)) scanFrontendFrameworks).
  set (back := existsb (declares (mergedDependencies pkg)) scanBackendFrameworks).
  simpl. destruct front, back, (truthyStr (fst found)) eqn:Ef,
    (truthyStr (snd found)) eqn:Eb; simpl;
    rewrite ?Ef, ?Eb, ?andb_true_r, ?andb_false_r, ?orb_false_r; done.
Qed.

(** What the fallback loop has found after all entries. *)
Lemma scan_fold fs projectPath entries : forall found,
  truthyStr (fst (fold_left (scanEntry fs projectPath) entries found))
  || truthyStr (snd (fold_left (scanEntry fs projectPath) entries found)) =
  truthyStr (fst found) || truthyStr (snd found)
  || existsb (fun entry =>
                nonEmpty (entryName entry)
                && (entryDeclares fs projectPath scanFrontendFrameworks entry
                    || entryDeclares fs projectPath scanBackendFrameworks entry))
             entries.
Proof.
  induction entries as [|entry entries IH]; intros found; simpl.
  - by rewrite orb_false_r.
  - rewrite IH, scanEntry_frontend, scanEntry_backend.
    destruct (truthyStr (fst found)), (truthyStr (snd found)),
      (nonEmpty (entryName entry)),
      (entryDeclares fs projectPath scanFrontendFrameworks entry),
      (entryDeclares fs projectPath scanBackendFrameworks entry); done.
Qed.

Lemma find_truthy (f : string -> bool) (l : list string) :
  forallb nonEmpty l = true -> truthyStr (List.find f l) = existsb f l.
Proof.
  induction l as [|d l IH]; simpl; [done|].
  intros [Hd Hl]%andb_prop. destruct (f d); simpl; [done|by apply IH].
Qed.

(** The sub-directory search finds a frontend or a backend path exactly
    when [subPackageFound] says so. *)
Lemma analyzeMonorepo_found fs projectPath :
  truthyStr (fst (analyzeMonorepo fs projectPath))
  || truthyStr (snd (analyzeMonorepo fs projectPath)) =
  subPackageFound fs projectPath.
Proof.
  unfold analyzeMonorepo, subPackageFound. cbv zeta. rewrite existsb_app.
  rewrite <- (find_truthy (hasManifestAt fs projectPath) commonFrontendPaths)
    by reflexivity.
  rewrite <- (find_truthy (hasManifestAt fs projectPath) commonBackendPaths)
    by reflexivity.
  set (front := List.find (hasManifestAt fs projectPath) commonFrontendPaths).
  set (back := List.find (hasManifestAt fs projectPath) commonBackendPaths).
  destruct (truthyStr front) eqn:Ef, (truthyStr back) eqn:Eb;
    cbn [negb andb orb fst snd]; rewrite ?Ef, ?Eb; try done.
  destruct (readdir fs projectPath) as [entries|];
    cbn [fst snd]; [|by rewrite Ef, Eb].
  rewrite scan_fold. cbn [fst snd]. by rewrite Ef, Eb.
Qed.

(** C3, as stated, fails: here a manifest is found in a searched
    sub-directory ([svc], reached by the fallback scan), no explicit type
    is given, and the analysis still ends in the classification error. *)
Lemma detectProjectType_unclassified_manifest_counterexample :
  In "svc"%string (searchedDirs Samples.lonelyService Samples.demoPath) /\
  hasManifestAt Samples.lonelyService Samples.demoPath "svc" = true /\
  detectProjectType Samples.lonelyService Samples.demoPath None
    = Throw noManifestMessage.
Proof.
  split; [|split; reflexivity].
  unfold searchedDirs. apply in_or_app. right. apply in_or_app. right.
  left. reflexivity.
Qed.

(** The same error with an explicit type, on a checkout without any
    manifest. *)
Example detectProjectType_explicit_type_empty_checkout :
  detectProjectType Samples.emptyCheckout Samples.demoPath (Some BACKEND)
    = Throw noManifestMessage.
Proof. reflexivity. Qed.

(** A root [package.json] that holds [null] counts as no manifest: the
    analysis of a checkout with nothing else in it ends in the
    classification error. *)
Example detectProjectType_null_root_manifest :
  pathExists Cases.nullManifest (manifestPath Samples.demoPath) = true /\
  detectProjectType Cases.nullManifest Samples.demoPath None
    = Throw noManifestMessage.
Proof. split; reflexivity. Qed.

(** C3 (amended): with a manifest at the workspace root that holds a
    truthy value, [detectProjectType] never fails with the classification
    error, whatever type the user gave. When no explicit type is given,
    it fails with the classification error exactly when the root has no
    manifest (no [package.json], or one that holds [null], [false], [0]
    or the empty string) and the sub-directory search comes back empty: no
    conventional sub-path holds a manifest and no scanned first-level
    entry has a manifest declaring a framework the scan knows. *)
Theorem detectProjectType_classification_error (fs : FileSystem)
    (projectPath : string) (t : option ProjectType) :
  (pathExists fs (manifestPath projectPath) = true ->
   readJson fs (manifestPath projectPath) <> FalsyManifest ->
   detectProjectType fs projectPath t <> Throw noManifestMessage) /\
  (explicitType t = None ->
   (detectProjectType fs projectPath t = Throw noManifestMessage <->
    (pathExists fs (manifestPath projectPath) = false \/
     readJson fs (manifestPath projectPath) = FalsyManifest) /\
    subPackageFound fs projectPath = false)).
Proof.
  rewrite <- analyzeMonorepo_found, orb_false_iff.
  split.
  - intros Hroot Htruthy.
    destruct (detectProjectType_root_manifest fs projectPath t Hroot Htruthy)
      as [-> | [a ->]]; [|done].
    intros [=].
  - intros _. rewrite <- readPackageJson_absent.
    destruct (readPackageJson fs projectPath) as [[pkg|]|e] eqn:Hread.
    + split; [|by intros [[=] _]].
      unfold detectProjectType. rewrite Hread. cbv zeta.
      repeat match goal with
             | |- context [match explicitType ?x with _ => _ end] =>
                 destruct (explicitType x)
             | |- context [if ?b then _ else _] => destruct b
             end; done.
    + rewrite detectProjectType_no_root_manifest by done. tauto.
    + split; [|by intros [[=] _]].
      unfold detectProjectType. rewrite Hread. intros [= ->].
      unfold readPackageJson in Hread.
      destruct (pathExists fs _); [|done].
      by destruct (readJson fs _).
Qed.

Lemma detectProjectType_classification_error_witness :
  detectProjectType (Samples.rootManifestOnly Samples.expressApi) Samples.demoPath
    (Some FRONTEND) <> Throw noManifestMessage /\
  (detectProjectType Samples.lonelyService Samples.demoPath (Some UNKNOWN)
     = Throw noManifestMessage <->
   (pathExists Samples.lonelyService (manifestPath Samples.demoPath) = false \/
    readJson Samples.lonelyService (manifestPath Samples.demoPath) = FalsyManifest) /\
   subPackageFound Samples.lonelyService Samples.demoPath = false).
Proof.
  split.
  - apply (detectProjectType_classification_error
             (Samples.rootManifestOnly Samples.expressApi) Samples.demoPath
             (Some FRONTEND)); [reflexivity|discriminate].
  - apply (detectProjectType_classification_error
             Samples.lonelyService Samples.demoPath (Some UNKNOWN)).
    reflexivity.
Defined.

Lemma isMonorepo_workspaces fs pkg projectPath :
  truthy (workspaces pkg) = true -> isMonorepo fs pkg projectPath = true.
Proof. intros H. unfold isMonorepo. by rewrite H. Qed.

Lemma existsb_declares deps names :
  existsb (declares deps) names = true <->
  exists fw, In fw names /\ declares deps fw = true.
Proof. apply existsb_exists. Qed.

Lemma existsb_declares_none deps names :
  (forall fw, In fw names -> declares deps fw = false) ->
  existsb (declares deps) names = false.
Proof.
  intros H. destruct (existsb (declares deps) names) eqn:E; [|done].
  apply existsb_declares in E as (fw & Hin & Hfw). by rewrite H in Hfw.
Qed.

(** C6, as stated, fails: this root manifest depends on the backend
    framework express, yet (no explicit type given) it classifies as a
    monorepo, because it also depends on turbo. *)
Lemma detectProjectType_backend_dependency_counterexample :
  readPackageJson (Samples.rootManifestOnly Samples.expressWithTurbo) Samples.demoPath
    = Ok (Some Samples.expressWithTurbo) /\
  In "express"%string backendFrameworks /\
  dependencies Samples.expressWithTurbo !! "express"%string = Some "^4.18.2"%string /\
  workspaces Samples.expressWithTurbo = None /\
  exists a,
    detectProjectType (Samples.rootManifestOnly Samples.expressWithTurbo)
      Samples.demoPath None = Ok a /\
    an_type a = MONOREPO.
Proof.
  split; [reflexivity|]. split; [by left|]. split; [by vm_compute|].
  split; [reflexivity|]. eexists. split; [by vm_compute|reflexivity].
Qed.

(** C6 (amended): for a workspace with a readable root manifest,
    - a truthy [workspaces] field gives a monorepo, whatever the
      dependencies and whatever type the user gave;
    and when no explicit type is given and [isMonorepo] finds no monorepo
    marker (workspaces, a turbo or lerna dependency, nx.json),
    - a backend-framework dependency (with a non-empty version) gives
      backend;
    - a frontend-framework dependency without any backend-framework one
      gives frontend, with the rendering mode and static output directory
      [detectFrontendType] maps the manifest to. *)
Theorem detectProjectType_root_classification (fs : FileSystem)
    (projectPath : string) (pkg : PackageJson) (t : option ProjectType) :
  readPackageJson fs projectPath = Ok (Some pkg) ->
  (truthy (workspaces pkg) = true ->
   exists a, detectProjectType fs projectPath t = Ok a /\ an_type a = MONOREPO) /\
  (explicitType t = None -> isMonorepo fs pkg projectPath = false ->
   ((exists fw, In fw backendFrameworks /\
                declares (mergedDependencies pkg) fw = true) ->
    exists a, detectProjectType fs projectPath t = Ok a /\ an_type a = BACKEND) /\
   ((forall fw, In fw backendFrameworks ->
                declares (mergedDependencies pkg) fw = false) ->
    (exists fw, In fw frontendFrameworks /\
                declares (mergedDependencies pkg) fw = true) ->
    exists a, detectProjectType fs projectPath t = Ok a /\
              an_type a = FRONTEND /\
              an_isSSR a = fst (detectFrontendType pkg) /\
              an_staticOutputDir a = snd (detectFrontendType pkg))).
Proof.
  intros Hroot. unfold detectProjectType. rewrite Hroot. split.
  - intros Hws. rewrite (isMonorepo_workspaces fs pkg projectPath Hws).
    destruct (explicitType t) as [t'|]; [|by eexists].
    rewrite orb_true_r. destruct (bool_decide (t' = FRONTEND)); by eexists.
  - intros -> ->. split.
    + intros Hback. apply existsb_declares in Hback. rewrite Hback. by eexists.
    + intros Hnoback Hfront. rewrite (existsb_declares_none _ _ Hnoback).
      apply existsb_declares in Hfront. rewrite Hfront. by eexists.
Qed.

Lemma detectProjectType_root_classification_witness :
  (exists a, detectProjectType (Samples.rootManifestOnly Samples.workspaceRoot)
               Samples.demoPath (Some BACKEND) = Ok a /\ an_type a = MONOREPO) /\
  (exists a, detectProjectType (Samples.rootManifestOnly Samples.expressApi)
               Samples.demoPath None = Ok a /\ an_type a = BACKEND) /\
  (exists a, detectProjectType (Samples.rootManifestOnly Samples.nextApp)
               Samples.demoPath (Some UNKNOWN) = Ok a /\
             an_type a = FRONTEND /\
             an_isSSR a = true /\
             an_staticOutputDir a = Some ".next"%string).
Proof.
  split; [|split].
  - apply (detectProjectType_root_classification
             (Samples.rootManifestOnly Samples.workspaceRoot) Samples.demoPath
             Samples.workspaceRoot (Some BACKEND)); reflexivity.
  - apply (detectProjectType_root_classification
             (Samples.rootManifestOnly Samples.expressApi) Samples.demoPath
             Samples.expressApi None); try reflexivity.
    exists "express"%string. split; [by left|by vm_compute].
  - destruct (detectProjectType_root_classification
                (Samples.rootManifestOnly Samples.nextApp) Samples.demoPath
                Samples.nextApp (Some UNKNOWN) eq_refl) as [_ Hauto].
    destruct (Hauto eq_refl eq_refl) as [_ Hfront].
    destruct Hfront as (a & Ha & Ht & Hssr & Hout).
    + intros fw Hin. simpl in Hin.
      repeat (destruct Hin as [<-|Hin]; [by vm_compute|]). done.
    + exists "next"%string. split; [simpl; tauto|by vm_compute].
    + exists a. rewrite Hssr, Hout. repeat split; try done; by vm_compute.
Defined.

End AnalyzerFacts.

Section FrameFacts.

Lemma preserves_ret {A} (a : A) : preservesMetadata (ret a).
Proof. by intros st. Qed.

Lemma preserves_throw {A} message : preservesMetadata (@throw A message).
Proof. by intros st. Qed.

Lemma preserves_liftResult {A} (r : Result A) : preservesMetadata (liftResult r).
Proof. by intros st. Qed.

Lemma preserves_emit e : preservesMetadata (emit e).
Proof. by intros st. Qed.

Lemma preserves_warn scope message : preservesMetadata (warn scope message).
Proof. by intros st. Qed.

Lemma preserves_exec b e message : preservesMetadata (exec b e message).
Proof. intros st. by destruct b. Qed.

Lemma preserves_bind {A B} (c : M A) (k : A -> M B) :
  preservesMetadata c -> (forall a, preservesMetadata (k a)) ->
  preservesMetadata (bind c k).
Proof.
  intros Hc Hk st. unfold bind. specialize (Hc st).
  destruct (c st) as [[a|e] st1]; simpl in *; [|done].
  by rewrite Hk.
Qed.

Lemma preserves_tryCatch {A} (c : M A) (h : string -> M A) :
  preservesMetadata c -> (forall e, preservesMetadata (h e)) ->
  preservesMetadata (tryCatch c h).
Proof.
  intros Hc Hh st. unfold tryCatch. specialize (Hc st).
  destruct (c st) as [[a|e] st1]; simpl in *; [done|].
  by rewrite Hh.
Qed.

Lemma preserves_attempt {A} (c : M A) :
  preservesMetadata c -> preservesMetadata (attempt c).
Proof. intros Hc st. apply Hc. Qed.

Lemma preserves_installConfig path config :
  preservesMetadata (Nginx.installConfig path config).
Proof. by intros st. Qed.

Lemma preserves_loadMetadata name : preservesMetadata (Metadata.loadMetadata name).
Proof.
  intros st. unfold Metadata.loadMetadata.
  by destruct (metadataFiles st !! name) as [[m|]|].
Qed.

End FrameFacts.

(** Decomposes a computation into its primitive steps to show that it
    writes no metadata file. *)
Ltac frame_step :=
  lazymatch goal with
  | |- preservesMetadata (ret _) => apply preserves_ret
  | |- preservesMetadata (throw _) => apply preserves_throw
  | |- preservesMetadata (liftResult _) => apply preserves_liftResult
  | |- preservesMetadata (emit _) => apply preserves_emit
  | |- preservesMetadata (warn _ _) => apply preserves_warn
  | |- preservesMetadata (exec _ _ _) => apply preserves_exec
  | |- preservesMetadata (Nginx.installConfig _ _) => apply preserves_installConfig
  | |- preservesMetadata (Metadata.loadMetadata _) => apply preserves_loadMetadata
  | |- preservesMetadata (attempt _) => apply preserves_attempt
  | |- preservesMetadata (bind _ _) => apply preserves_bind; [|intros ?]
  | |- preservesMetadata (tryCatch _ _) => apply preserves_tryCatch; [|intros ?]
  | |- preservesMetadata (if ?b then _ else _) => destruct b
  | |- preservesMetadata (match ?x with _ => _ end) => destruct x
  end.

Ltac frame := cbv zeta; repeat frame_step.

Section AgreeFacts.

Lemma sameFiles_refl st : sameFiles st st.
Proof. by split. Qed.

Lemma agree_ret {A} (a : A) : agree (ret a) (ret a).
Proof. by intros st st' H. Qed.

Lemma agree_throw {A} message : agree (@throw A message) (throw message).
Proof. by intros st st' H. Qed.

Lemma agree_liftResult {A} (r : Result A) : agree (liftResult r) (liftResult r).
Proof. by intros st st' H. Qed.

Lemma agree_emit e e' : agree (emit e) (emit e').
Proof. by intros st st' H. Qed.

Lemma agree_warn scope message scope' message' :
  agree (warn scope message) (warn scope' message').
Proof. apply agree_emit. Qed.

Lemma agree_exec b e message : agree (exec b e message) (exec b e message).
Proof. intros st st' H. by destruct b. Qed.

Lemma agree_bind {A B} (c c' : M A) (k k' : A -> M B) :
  agree c c' -> (forall a, agree (k a) (k' a)) -> agree (bind c k) (bind c' k').
Proof.
  intros Hc Hk st st' H. unfold bind. destruct (Hc st st' H) as [Hr Hs].
  destruct (c st) as [r s], (c' st') as [r' s']. simpl in *. subst r'.
  destruct r as [a|e]; [by apply Hk|done].
Qed.

Lemma agree_tryCatch {A} (c c' : M A) (h h' : string -> M A) :
  agree c c' -> (forall e, agree (h e) (h' e)) ->
  agree (tryCatch c h) (tryCatch c' h').
Proof.
  intros Hc Hh st st' H. unfold tryCatch. destruct (Hc st st' H) as [Hr Hs].
  destruct (c st) as [r s], (c' st') as [r' s']. simpl in *. subst r'.
  destruct r as [a|e]; [done|by apply Hh].
Qed.

Lemma agree_attempt {A} (c c' : M A) : agree c c' -> agree (attempt c) (attempt c').
Proof.
  intros Hc st st' H. unfold attempt. destruct (Hc st st' H) as [Hr Hs].
  simpl. by rewrite Hr.
Qed.

Lemma agree_removeCheckout safeName :
  agree (Pipeline.removeCheckout safeName) (Pipeline.removeCheckout safeName).
Proof. intros st st' [Hm Hn]. split; [done|]. split; simpl; [by rewrite Hm|done]. Qed.

Lemma agree_installConfig path config :
  agree (Nginx.installConfig path config) (Nginx.installConfig path config).
Proof. intros st st' [Hm Hn]. split; [done|]. split; simpl; [done|by rewrite Hn]. Qed.

Lemma agree_saveMetadata env metadata :
  agree (Metadata.saveMetadata env metadata) (Metadata.saveMetadata env metadata).
Proof.
  intros st st' [Hm Hn]. unfold Metadata.saveMetadata.
  destruct (Metadata.canWrite env _); [|done].
  split; [done|]. split; simpl; [by rewrite Hm|done].
Qed.

(** A check whose failure is only logged gives the same outcome whether
    it passes or not. *)
Lemma agree_logged_check (b b' : bool) message scope text :
  agree (tryCatch (if b then ret tt else throw message) (fun _ => warn scope text))
        (tryCatch (if b' then ret tt else throw message) (fun _ => warn scope text)).
Proof. intros st st' H. by destruct b, b'. Qed.

Lemma reloadNginx_returns tools st :
  exists st', Nginx.reloadNginx tools st = (Ok tt, st') /\ sameFiles st st'.
Proof.
  unfold Nginx.reloadNginx, tryCatch, exec.
  destruct (Nginx.sudoNginxReload _ _); [by eexists|].
  destruct (Nginx.nginxReload _ _); by eexists.
Qed.

Lemma agree_reloadNginx tools tools' :
  agree (Nginx.reloadNginx tools) (Nginx.reloadNginx tools').
Proof.
  intros st st' [Hm Hn].
  destruct (reloadNginx_returns tools st) as (s & -> & Hs1 & Hs2).
  destruct (reloadNginx_returns tools' st') as (s' & -> & Hs1' & Hs2').
  split; [done|]. split; simpl; congruence.
Qed.

End AgreeFacts.

(** Decomposes two computations of the same shape into their primitive
    steps to show that they agree. *)
Ltac agree_step :=
  lazymatch goal with
  | |- agree (ret _) (ret _) => apply agree_ret
  | |- agree (throw _) (throw _) => apply agree_throw
  | |- agree (liftResult _) (liftResult _) => apply agree_liftResult
  | |- agree (emit _) (emit _) => apply agree_emit
  | |- agree (Pipeline.removeCheckout _) (Pipeline.removeCheckout _) =>
      apply agree_removeCheckout
  | |- agree (warn _ _) (warn _ _) => apply agree_warn
  | |- agree (exec _ _ _) (exec _ _ _) => apply agree_exec
  | |- agree (Nginx.installConfig _ _) (Nginx.installConfig _ _) =>
      apply agree_installConfig
  | |- agree (Metadata.saveMetadata _ _) (Metadata.saveMetadata _ _) =>
      apply agree_saveMetadata
  | |- agree (Nginx.reloadNginx _) (Nginx.reloadNginx _) => apply agree_reloadNginx
  | |- agree (attempt _) (attempt _) => apply agree_attempt
  | |- agree (tryCatch (if _ then ret tt else throw _) (fun _ => warn _ _))
             (tryCatch (if _ then ret tt else throw _) (fun _ => warn _ _)) =>
      apply agree_logged_check
  | |- agree (bind _ _) (bind _ _) => apply agree_bind; [|intros ?]
  | |- agree (tryCatch _ _) (tryCatch _ _) => apply agree_tryCatch; [|intros ?]
  | |- agree (if ?b then _ else _) (if ?b then _ else _) => destruct b
  | |- agree (match ?x with _ => _ end) (match ?x with _ => _ end) => destruct x
  end.

Ltac agreement := cbv zeta; repeat agree_step.

Section EmitFacts.
Context (allowed : Effect -> bool).

Lemma emits_ret {A} (a : A) : emitsOnly allowed (ret a).
Proof. intros st. split; [done|]. exists []. by rewrite app_nil_r. Qed.

Lemma emits_throw {A} message : emitsOnly allowed (@throw A message).
Proof. intros st. split; [done|]. exists []. by rewrite app_nil_r. Qed.

Lemma emits_liftResult {A} (r : Result A) : emitsOnly allowed (liftResult r).
Proof. intros st. split; [done|]. exists []. by rewrite app_nil_r. Qed.

Lemma emits_emit e : allowed e = true -> emitsOnly allowed (emit e).
Proof. intros He st. split; [done|]. exists [e]. simpl. by rewrite He. Qed.

Lemma emits_exec b e message :
  allowed e = true -> emitsOnly allowed (exec b e message).
Proof.
  intros He. destruct b; [by apply emits_emit|apply emits_throw].
Qed.

Lemma emits_bind {A B} (c : M A) (k : A -> M B) :
  emitsOnly allowed c -> (forall a, emitsOnly allowed (k a)) ->
  emitsOnly allowed (bind c k).
Proof.
  intros Hc Hk st. unfold bind. destruct (Hc st) as (Hn & l & He & Hl).
  destruct (c st) as [[a|e] s]; simpl in *; [|by eauto].
  destruct (Hk a s) as (Hn' & l' & He' & Hl'). split; [congruence|].
  exists (l ++ l'). rewrite He', He, forallb_app, Hl, Hl'. by rewrite app_assoc.
Qed.

Lemma emits_tryCatch {A} (c : M A) (h : string -> M A) :
  emitsOnly allowed c -> (forall e, emitsOnly allowed (h e)) ->
  emitsOnly allowed (tryCatch c h).
Proof.
  intros Hc Hh st. unfold tryCatch. destruct (Hc st) as (Hn & l & He & Hl).
  destruct (c st) as [[a|e] s]; simpl in *; [by eauto|].
  destruct (Hh e s) as (Hn' & l' & He' & Hl'). split; [congruence|].
  exists (l ++ l'). rewrite He', He, forallb_app, Hl, Hl'. by rewrite app_assoc.
Qed.

Lemma emits_removeCheckout safeName :
  allowed (RemoveDir (pathJoin Pipeline.APPS_DIR safeName)) = true ->
  emitsOnly allowed (Pipeline.removeCheckout safeName).
Proof.
  intros He st. split; [done|].
  exists [RemoveDir (pathJoin Pipeline.APPS_DIR safeName)]. simpl. by rewrite He.
Qed.

Lemma emits_loadMetadata name : emitsOnly allowed (Metadata.loadMetadata name).
Proof.
  intros st. unfold Metadata.loadMetadata.
  destruct (metadataFiles st !! name) as [[m|]|]; (split; [done|]);
    exists []; by rewrite app_nil_r.
Qed.

Lemma emits_saveMetadata env metadata :
  emitsOnly allowed (Metadata.saveMetadata env metadata).
Proof.
  intros st. unfold Metadata.saveMetadata.
  destruct (Metadata.canWrite env _); (split; [done|]);
    exists []; by rewrite app_nil_r.
Qed.

End EmitFacts.

(** Decomposes a computation into its primitive steps to bound the
    effects it records. *)
Ltac emit_step :=
  lazymatch goal with
  | |- emitsOnly _ (ret _) => apply emits_ret
  | |- emitsOnly _ (throw _) => apply emits_throw
  | |- emitsOnly _ (liftResult _) => apply emits_liftResult
  | |- emitsOnly _ (exec _ _ _) => apply emits_exec; reflexivity
  | |- emitsOnly _ (Pipeline.removeCheckout _) => apply emits_removeCheckout; reflexivity
  | |- emitsOnly _ (Metadata.loadMetadata _) => apply emits_loadMetadata
  | |- emitsOnly _ (Metadata.saveMetadata _ _) => apply emits_saveMetadata
  | |- emitsOnly _ (bind _ _) => apply emits_bind; [|intros ?]
  | |- emitsOnly _ (tryCatch _ _) => apply emits_tryCatch; [|intros ?]
  | |- emitsOnly _ (if ?b then _ else _) => destruct b
  | |- emitsOnly _ (match ?x with _ => _ end) => destruct x
  end.

Ltac emits := cbv zeta; repeat emit_step.

Section PipelineFacts.
Import Analyzer Pipeline.

Lemma agree_cloneRepo w options : agree (cloneRepo w options) (cloneRepo w options).
Proof. unfold cloneRepo, updateRepo. agreement. Qed.

Lemma agree_generateNginxConfig w options :
  agree (Nginx.generateNginxConfig (nginxTools w) options)
        (Nginx.generateNginxConfig (nginxTools (withFailingNginx w)) options).
Proof.
  unfold Nginx.generateNginxConfig, withFailingNginx.
  cbn [nginxTools Nginx.writeTemp Nginx.sudoCp Nginx.removeTemp].
  agreement.
Qed.

Lemma agree_deploy w config :
  agree (deploy w config) (deploy (withFailingNginx w) config).
Proof.
  unfold deploy, portNotice, stageFetch, provision, stageAnalyze, stageInstall,
    stageBuild, stageRun, stageNginx, analyze, installDependencies, buildProject,
    runWithPM2.
  change (resolvePort (withFailingNginx w) config) with (resolvePort w config).
  change (checkout (withFailingNginx w)) with (checkout w).
  change (installOk (withFailingNginx w)) with (installOk w).
  change (buildOk (withFailingNginx w)) with (buildOk w).
  change (pm2StartOk (withFailingNginx w)) with (pm2StartOk w).
  change (metadataEnv (withFailingNginx w)) with (metadataEnv w).
  change (cloneRepo (withFailingNginx w)) with (cloneRepo w).
  agreement;
    first [apply agree_cloneRepo | apply agree_generateNginxConfig].
Qed.


(** A fetch with [force] off removes nothing. *)
Lemma preserves_cloneRepo w options :
  co_force options = false -> preservesMetadata (cloneRepo w options).
Proof.
  intros Hforce. unfold cloneRepo, updateRepo. rewrite Hforce.
  destruct (negb (validateRepoUrl w (co_repoUrl options))); [apply preserves_throw|].
  cbv zeta.
  destruct (dirExists w (getProjectPath (co_projectName options)));
    cbn [andb negb]; frame.
Qed.

Lemma preserves_stageFetch w config : preservesMetadata (stageFetch w config).
Proof. by apply preserves_cloneRepo. Qed.

Lemma preserves_generateNginxConfig tools options :
  preservesMetadata (Nginx.generateNginxConfig tools options).
Proof. unfold Nginx.generateNginxConfig. frame. Qed.

Lemma preserves_reloadNginx tools : preservesMetadata (Nginx.reloadNginx tools).
Proof. unfold Nginx.reloadNginx. frame. Qed.

Lemma preserves_provision w config finalPort projectPath :
  preservesMetadata (provision w config finalPort projectPath).
Proof.
  unfold provision, stageAnalyze, stageInstall, stageBuild, stageRun, stageNginx,
    analyze, installDependencies, buildProject, runWithPM2.
  frame; first [apply preserves_generateNginxConfig | apply preserves_reloadNginx].
Qed.

Lemma bind_ok_inv {A B} (c : M A) (k : A -> M B) st b st' :
  bind c k st = (Ok b, st') ->
  exists a s, c st = (Ok a, s) /\ k a s = (Ok b, st').
Proof.
  unfold bind. destruct (c st) as [[a|e] s]; [|done]. by exists a, s.
Qed.

Lemma portNotice_ok w config st :
  exists s0, portNotice w config st = (Ok tt, s0) /\
             metadataFiles s0 = metadataFiles st.
Proof.
  unfold portNotice. destruct (bool_decide _); by eexists.
Qed.

Lemma preserved_at {A} (c : M A) st r st' :
  preservesMetadata c -> c st = (r, st') -> metadataFiles st' = metadataFiles st.
Proof. intros Hc Heq. specialize (Hc st). by rewrite Heq in Hc. Qed.

(** A successful [provision] is a successful run of each of its stages,
    one after the other. *)
Lemma provision_ok_inv w config finalPort projectPath s1 p s7 :
  provision w config finalPort projectPath s1 = (Ok p, s7) ->
  exists s2 s3 s4 s5 s6,
    stageAnalyze w config projectPath s1 = (Ok (pv_analysis p), s2) /\
    stageInstall w projectPath (pv_analysis p) s2 = (Ok tt, s3) /\
    stageBuild w projectPath (pv_analysis p) s3 = (Ok tt, s4) /\
    stageRun w config finalPort projectPath (pv_analysis p) s4
      = (Ok (pv_pm2ProcessName p), s5) /\
    stageNginx w config finalPort projectPath (pv_analysis p) s5
      = (Ok (pv_nginxConfigPath p), s6) /\
    Nginx.reloadNginx (nginxTools w) s6 = (Ok tt, s7).
Proof.
  unfold provision. intros H.
  apply bind_ok_inv in H as (analysis & s2 & Ha & H).
  apply bind_ok_inv in H as ([] & s3 & Hi & H).
  apply bind_ok_inv in H as ([] & s4 & Hb & H).
  apply bind_ok_inv in H as (pm2 & s5 & Hr & H).
  apply bind_ok_inv in H as (ng & s6 & Hn & H).
  apply bind_ok_inv in H as ([] & s7' & Hl & H).
  injection H as <- <-. simpl. by exists s2, s3, s4, s5, s6.
Qed.

(** C1: [deploy] always returns a result; an unsuccessful one leaves the
    metadata files as they were; a successful one means that fetch,
    analyze, install, build, supervisor registration, proxy config
    generation and reload each returned normally, in this order, that no
    metadata file was written up to then, and that the run ended by
    writing the project's record. *)
Theorem deploy_saves_record_only_after_all_stages
    (w : World) (config : DeployConfig) (st : State) :
  exists r st',
    deploy w config st = (Ok r, st') /\
    (success r = false -> metadataFiles st' = metadataFiles st) /\
    (success r = true ->
     exists projectPath p s0 s1 s2 s3 s4 s5 s6 s7,
       portNotice w config st = (Ok tt, s0) /\
       stageFetch w config s0 = (Ok projectPath, s1) /\
       stageAnalyze w config projectPath s1 = (Ok (pv_analysis p), s2) /\
       stageInstall w projectPath (pv_analysis p) s2 = (Ok tt, s3) /\
       stageBuild w projectPath (pv_analysis p) s3 = (Ok tt, s4) /\
       stageRun w config (resolvePort w config) projectPath (pv_analysis p) s4
         = (Ok (pv_pm2ProcessName p), s5) /\
       stageNginx w config (resolvePort w config) projectPath (pv_analysis p) s5
         = (Ok (pv_nginxConfigPath p), s6) /\
       Nginx.reloadNginx (nginxTools w) s6 = (Ok tt, s7) /\
       metadataFiles s7 = metadataFiles st /\
       r = succeeded (resolvePort w config) projectPath p /\
       metadataFiles st' =
         <[cfg_projectName config :=
             ValidJson (recordOf w config (resolvePort w config) p)]>
           (metadataFiles st)).
Proof.
  destruct (portNotice_ok w config st) as (s0 & Hnotice & Hs0).
  unfold deploy. cbv zeta. unfold bind at 1. rewrite Hnotice.
  unfold bind at 1. unfold attempt.
  destruct (stageFetch w config s0) as [[projectPath|e] s1] eqn:Hfetch; simpl.
  2:{ eexists _, _. split; [reflexivity|]. split; [|done].
      intros _. rewrite <- Hs0.
      by eapply (preserved_at _ _ _ _ (preserves_stageFetch _ _)). }
  assert (Hs1 : metadataFiles s1 = metadataFiles st).
  { rewrite <- Hs0. by eapply (preserved_at _ _ _ _ (preserves_stageFetch _ _)). }
  unfold tryCatch, bind.
  destruct (provision w config (resolvePort w config) projectPath s1)
    as [[p|e] s7] eqn:Hprov.
  2:{ eexists _, _. split; [reflexivity|]. split; [|done].
      intros _. rewrite <- Hs1.
      by eapply (preserved_at _ _ _ _ (preserves_provision _ _ _ _)). }
  assert (Hs7 : metadataFiles s7 = metadataFiles st).
  { rewrite <- Hs1. by eapply (preserved_at _ _ _ _ (preserves_provision _ _ _ _)). }
  unfold Metadata.saveMetadata.
  destruct (Metadata.canWrite (metadataEnv w) _) eqn:Hwrite; simpl.
  - eexists _, _. split; [reflexivity|]. split; [done|]. intros _.
    destruct (provision_ok_inv _ _ _ _ _ _ _ Hprov)
      as (s2 & s3 & s4 & s5 & s6 & Ha & Hi & Hb & Hr & Hn & Hl).
    exists projectPath, p, s0, s1, s2, s3, s4, s5, s6, s7.
    repeat (split; [done|]). simpl. by rewrite Hs7.
  - eexists _, _. split; [reflexivity|]. split; [|done]. by intros _.
Qed.

Lemma generateNginxConfig_syntax_failure tools options st content :
  Nginx.chooseConfig options = Ok content ->
  Nginx.writeTemp tools (Nginx.tempConfigPath (Nginx.ng_projectName options)) = true ->
  Nginx.sudoCp tools (Nginx.tempConfigPath (Nginx.ng_projectName options))
                     (Nginx.getNginxConfigPath (Nginx.ng_projectName options)) = true ->
  Nginx.removeTemp tools (Nginx.tempConfigPath (Nginx.ng_projectName options)) = true ->
  Nginx.sudoNginxT tools (Nginx.locateNginx tools) = false ->
  Nginx.generateNginxConfig tools options st =
    (Ok (Nginx.getNginxConfigPath (Nginx.ng_projectName options)),
     {| metadataFiles := metadataFiles st;
        nginxFiles :=
          <[Nginx.getNginxConfigPath (Nginx.ng_projectName options) := content]>
            (nginxFiles st);
        effects :=
          (effects st
             ++ [NginxInstall (Nginx.getNginxConfigPath (Nginx.ng_projectName options))])
             ++ [Warn "nginx" Nginx.syntaxWarning] |}).
Proof.
  intros Hc Hw Hcp Hrm Ht. unfold Nginx.generateNginxConfig. cbv zeta.
  rewrite Hc, Hw, Hcp, Hrm, Ht. reflexivity.
Qed.

Lemma reloadNginx_failure tools st :
  Nginx.sudoNginxReload tools (Nginx.locateNginx tools) = false ->
  Nginx.nginxReload tools (Nginx.locateNginx tools) = false ->
  Nginx.reloadNginx tools st =
    (Ok tt, {| metadataFiles := metadataFiles st;
               nginxFiles := nginxFiles st;
               effects := effects st ++ [Warn "nginx" Nginx.reloadWarning] |}).
Proof.
  intros Hs Hn. unfold Nginx.reloadNginx. cbv zeta. rewrite Hs, Hn. reflexivity.
Qed.

(** The older copy of the generator, by contrast, turns a failed
    [nginx -t] into a thrown error. *)
Example legacy_generateNginxConfig_syntax_failure :
  fst (Legacy.generateNginxConfig
         {| Legacy.writeConfig := fun _ => true; Legacy.nginxT := false |}
         {| Nginx.ng_projectName := "demo";
            Nginx.ng_projectPath := "/var/apps/demo";
            Nginx.ng_projectType := BACKEND;
            Nginx.ng_analysis :=
              baseAnalysis BACKEND NPM Samples.expressApi;
            Nginx.ng_port := Some 3000;
            Nginx.ng_basePath := None;
            Nginx.ng_domain := None |}
         Samples.emptyState) =
    Throw "Nginx config invalid: nginx -t failed".
Proof. vm_compute. reflexivity. Qed.

(** C2: a failed [nginx -t] is logged as a warning and
    [generateNginxConfig] still returns the path of the installed config;
    a failed reload is logged as a warning and [reloadNginx] returns; and
    the result of [deploy], and the files it leaves, are the same in a
    world where the syntax check and both reloads fail as in the world
    where they behave otherwise. *)
Theorem nginx_check_and_reload_failures_are_warnings :
  (forall tools options st content,
     Nginx.chooseConfig options = Ok content ->
     Nginx.writeTemp tools (Nginx.tempConfigPath (Nginx.ng_projectName options)) = true ->
     Nginx.sudoCp tools (Nginx.tempConfigPath (Nginx.ng_projectName options))
                  (Nginx.getNginxConfigPath (Nginx.ng_projectName options)) = true ->
     Nginx.removeTemp tools (Nginx.tempConfigPath (Nginx.ng_projectName options)) = true ->
     Nginx.sudoNginxT tools (Nginx.locateNginx tools) = false ->
     exists st',
       Nginx.generateNginxConfig tools options st =
         (Ok (Nginx.getNginxConfigPath (Nginx.ng_projectName options)), st') /\
       nginxFiles st' !! Nginx.getNginxConfigPath (Nginx.ng_projectName options)
         = Some content /\
       In (Warn "nginx" Nginx.syntaxWarning) (effects st')) /\
  (forall tools st,
     Nginx.sudoNginxReload tools (Nginx.locateNginx tools) = false ->
     Nginx.nginxReload tools (Nginx.locateNginx tools) = false ->
     exists st',
       Nginx.reloadNginx tools st = (Ok tt, st') /\
       In (Warn "nginx" Nginx.reloadWarning) (effects st')) /\
  (forall w config st,
     fst (deploy (withFailingNginx w) config st) = fst (deploy w config st) /\
     sameFiles (snd (deploy (withFailingNginx w) config st))
               (snd (deploy w config st))).
Proof.
  split; [|split].
  - intros tools options st content Hc Hw Hcp Hrm Ht. eexists. split.
    + by apply generateNginxConfig_syntax_failure.
    + simpl. split; [by rewrite lookup_insert_eq|].
      apply in_or_app. right. by left.
  - intros tools st Hs Hn. eexists. split; [by apply reloadNginx_failure|].
    simpl. apply in_or_app. right. by left.
  - intros w config st.
    destruct (agree_deploy w config st st (sameFiles_refl st)) as [Hr [Hm Hn]].
    split; [done|]. by split.
Qed.

Lemma deploy_with_failing_nginx_witness :
  fst (deploy (withFailingNginx (Samples.calmWorld
                                   (Samples.rootManifestOnly Samples.expressApi)))
              Samples.demoConfig Samples.emptyState) =
    Ok {| success := true;
          res_projectPath := "/var/apps/demo";
          res_port := Some 3000;
          res_nginxConfigPath := Some "/etc/nginx/conf.d/demo.conf"%string;
          res_pm2ProcessName := Some "demo"%string;
          res_error := None |}.
Proof.
  destruct nginx_check_and_reload_failures_are_warnings as (_ & _ & Hdeploy).
  destruct (Hdeploy (Samples.calmWorld (Samples.rootManifestOnly Samples.expressApi))
                    Samples.demoConfig Samples.emptyState) as [-> _].
  vm_compute. reflexivity.
Defined.

Example deploy_with_failing_nginx_effects :
  effects (snd (deploy (withFailingNginx
                          (Samples.calmWorld
                             (Samples.rootManifestOnly Samples.expressApi)))
                       Samples.demoConfig Samples.emptyState)) =
    [ GitClone "https://github.com/user/demo" "main" "/var/apps/demo";
      Install "/var/apps/demo";
      Warn "builder" "Build script bulunamadı, build atlanıyor";
      Pm2Start "demo" "/var/apps/demo" (Some 3000);
      NginxInstall "/etc/nginx/conf.d/demo.conf";
      Warn "nginx" Nginx.syntaxWarning;
      Warn "nginx" Nginx.reloadWarning ].
Proof. vm_compute. reflexivity. Qed.

Example deploy_install_failure_writes_nothing :
  deploy (Samples.brokenInstall (Samples.rootManifestOnly Samples.expressApi))
         Samples.demoConfig Samples.emptyState =
    (Ok (failed "/var/apps/demo"
                "Dependency installation failed: install command failed"),
     {| metadataFiles := ∅;
        nginxFiles := ∅;
        effects := [GitClone "https://github.com/user/demo" "main" "/var/apps/demo"] |}).
Proof. vm_compute. reflexivity. Qed.

Example deploy_record_saved :
  metadataFiles
    (snd (deploy (Samples.calmWorld (Samples.rootManifestOnly Samples.expressApi))
                 Samples.demoConfig Samples.emptyState)) !! "demo"%string =
    Some (ValidJson
            {| md_name := "demo";
               md_repoUrl := "https://github.com/user/demo";
               md_branch := "main";
               md_type := "backend";
               md_port := Some 3000;
               md_basePath := "/";
               md_createdAt := Samples.stamp;
               md_updatedAt := Samples.stamp;
               md_pm2ProcessName := Some "demo"%string;
               md_nginxConfigPath := Some "/etc/nginx/conf.d/demo.conf"%string;
               md_environment := Some "production"%string;
               md_webhookEnabled := Some false |}).
Proof. vm_compute. reflexivity. Qed.

(** When [update] is run without [--branch], commander hands the action
    the option's default, so the branch that is pulled and stored is main,
    whatever branch the record holds. *)
Lemma branchToPull_without_flag name metadata :
  branchToPull (parseUpdateOptions name None) metadata = "main"%string.
Proof. reflexivity. Qed.

(** C5, at the input where the code departs from it: the record holds
    branch develop, [update] is run without [--branch], and the command
    checks out and pulls main, restarts the process and stores main as
    the record's branch. *)
Example update_without_branch_flag_pulls_main :
  md_branch Samples.developRecord = "develop"%string /\
  fst (updateCommand Samples.deployedWorld "demo" None Samples.deployedState)
    = Ok ExitOk /\
  effects (snd (updateCommand Samples.deployedWorld "demo" None Samples.deployedState))
    = [ GitCheckout "/var/apps/demo" "main";
        GitPull "/var/apps/demo" "main";
        Pm2Restart "demo" ] /\
  metadataFiles
    (snd (updateCommand Samples.deployedWorld "demo" None Samples.deployedState))
    !! "demo"%string
    = Some (ValidJson
              {| md_name := "demo";
                 md_repoUrl := "https://github.com/user/demo";
                 md_branch := "main";
                 md_type := "backend";
                 md_port := Some 3000;
                 md_basePath := "/";
                 md_createdAt := "2024-04-01T09:00:00.000Z";
                 md_updatedAt := Samples.stamp;
                 md_pm2ProcessName := Some "demo"%string;
                 md_nginxConfigPath := Some "/etc/nginx/conf.d/demo.conf"%string;
                 md_environment := Some "staging"%string;
                 md_webhookEnabled := Some false |}).
Proof. vm_compute. repeat split. Qed.

Lemma emits_cloneRepo w options :
  emitsOnly fetchOrRestart (cloneRepo w options).
Proof. unfold cloneRepo, updateRepo. emits. Qed.

(** The [update] command is a reduced pipeline: whatever its outcome, it
    records only git and [pm2 restart] effects (nothing is installed,
    built or started anew) and writes no nginx config; and when it exits
    with success, an existing record was found and rewritten with the
    pulled branch and the current time as [updatedAt]. *)
Theorem updateAction_is_reduced_pipeline (w : World) (options : UpdateOptions)
    (st : State) :
  nginxFiles (snd (updateAction w options st)) = nginxFiles st /\
  (exists l, effects (snd (updateAction w options st)) = effects st ++ l /\
             forallb fetchOrRestart l = true) /\
  (fst (updateAction w options st) = Ok ExitOk ->
   exists m,
     metadataFiles st !! opt_name options = Some (ValidJson m) /\
     metadataFiles (snd (updateAction w options st)) =
       <[md_name m :=
           ValidJson (Metadata.mergeMetadata m
                        (branchAndStamp (branchToPull options m)
                                        (Metadata.now (metadataEnv w)))
                        (Metadata.now (metadataEnv w)))]>
         (metadataFiles st)).
Proof.
  assert (Hemit : emitsOnly fetchOrRestart (updateAction w options)).
  { unfold updateAction, Metadata.updateMetadata. emits.
    apply emits_cloneRepo. }
  destruct (Hemit st) as [Hn Hl]. split; [done|]. split; [done|].
  destruct (updateAction w options st) as [r st'] eqn:Hrun. simpl.
  intros ->. unfold updateAction, tryCatch in Hrun.
  match type of Hrun with
  | (let (_, _) := ?c st in _) = _ =>
      destruct (c st) as [[x|e] sx] eqn:Hbody; [|by unfold ret in Hrun]
  end.
  injection Hrun as Hx Hsx. subst x sx.
  apply bind_ok_inv in Hbody as (metadata & s0 & Hload & Hbody).
  unfold Metadata.loadMetadata in Hload.
  destruct (metadataFiles st !! opt_name options) as [[m|]|] eqn:Hm;
    injection Hload as <- <-; [|done|done].
  exists m. split; [done|].
  apply bind_ok_inv in Hbody as (path & s1 & Hclone & Hbody).
  apply bind_ok_inv in Hbody as ([] & s2 & Hrestart & Hbody).
  apply bind_ok_inv in Hbody as ([] & s3 & Hupdate & Hbody).
  injection Hbody as <-.
  assert (Hs1 : metadataFiles s1 = metadataFiles st)
    by (eapply preserved_at; [|exact Hclone]; by apply preserves_cloneRepo).
  assert (Hs2 : metadataFiles s2 = metadataFiles s1).
  { eapply preserved_at; [|exact Hrestart]. frame. }
  unfold Metadata.updateMetadata, bind, Metadata.loadMetadata in Hupdate.
  rewrite Hs2, Hs1, Hm in Hupdate. unfold Metadata.saveMetadata in Hupdate.
  destruct (Metadata.canWrite _ _); [|done].
  injection Hupdate as <-. simpl. by rewrite Hs2, Hs1.
Qed.

(** A proxy or combined config without a port is refused with a
    configuration error before anything is written. *)
Theorem generateNginxConfig_requires_port (tools : Nginx.Tools)
    (options : Nginx.NginxConfigOptions) (st : State) :
  Nginx.needsUpstream options = true ->
  truthyNum (Nginx.ng_port options) = false ->
  exists message,
    Nginx.generateNginxConfig tools options st = (Throw message, st).
Proof.
  unfold Nginx.needsUpstream, Nginx.generateNginxConfig, Nginx.chooseConfig.
  cbv zeta. intros Hup Hport. rewrite Hport.
  destruct (bool_decide (Nginx.ng_projectType options = FRONTEND)
            && negb (an_isSSR (Nginx.ng_analysis options))); [done|].
  destruct (bool_decide (Nginx.ng_projectType options = BACKEND)
            || an_isSSR (Nginx.ng_analysis options)); [by eexists|].
  destruct (bool_decide (Nginx.ng_projectType options = MONOREPO));
    [by eexists|done].
Qed.

Lemma generateNginxConfig_requires_port_witness :
  exists message,
    Nginx.generateNginxConfig Samples.toolsOk
      {| Nginx.ng_projectName := "demo";
         Nginx.ng_projectPath := "/var/apps/demo";
         Nginx.ng_projectType := BACKEND;
         Nginx.ng_analysis := baseAnalysis BACKEND NPM Samples.expressApi;
         Nginx.ng_port := None;
         Nginx.ng_basePath := None;
         Nginx.ng_domain := None |}
      Samples.emptyState = (Throw message, Samples.emptyState).
Proof.
  apply (generateNginxConfig_requires_port Samples.toolsOk
           {| Nginx.ng_projectName := "demo";
              Nginx.ng_projectPath := "/var/apps/demo";
              Nginx.ng_projectType := BACKEND;
              Nginx.ng_analysis := baseAnalysis BACKEND NPM Samples.expressApi;
              Nginx.ng_port := None;
              Nginx.ng_basePath := None;
              Nginx.ng_domain := None |}
           Samples.emptyState); reflexivity.
Defined.

(** The result [deploy] reports when a stage throws: the thrown message,
    with an empty project path if the fetch itself failed and the
    workspace path otherwise; the state is the one the failed stage
    left. *)
Theorem deploy_reports_failed_stage (w : World) (config : DeployConfig)
    (st : State) :
  (forall message s1,
     stageFetch w config (snd (portNotice w config st)) = (Throw message, s1) ->
     deploy w config st = (Ok (failed "" message), s1)) /\
  (forall projectPath s1 message s2,
     stageFetch w config (snd (portNotice w config st)) = (Ok projectPath, s1) ->
     provision w config (resolvePort w config) projectPath s1 = (Throw message, s2) ->
     deploy w config st = (Ok (failed projectPath message), s2)).
Proof.
  destruct (portNotice_ok w config st) as (s0 & Hnotice & _).
  rewrite Hnotice. simpl. split.
  - intros message s1 Hfetch. unfold deploy. cbv zeta.
    unfold bind at 1. rewrite Hnotice. unfold bind at 1, attempt.
    by rewrite Hfetch.
  - intros projectPath s1 message s2 Hfetch Hprov. unfold deploy. cbv zeta.
    unfold bind at 1. rewrite Hnotice. unfold bind at 1, attempt.
    rewrite Hfetch. simpl. unfold tryCatch, bind. by rewrite Hprov.
Qed.

End PipelineFacts.

Section StringFacts.

Lemma append_cons c (a b : string) : String c a +:+ b = String c (a +:+ b).
Proof. reflexivity. Qed.

Lemma append_nil_l (b : string) : "" +:+ b = b.
Proof. reflexivity. Qed.

Lemma append_nil_r (a : string) : a +:+ "" = a.
Proof. induction a as [|c a IH]; [done|]. by rewrite append_cons, IH. Qed.

Lemma append_assoc (a b c : string) : (a +:+ b) +:+ c = a +:+ (b +:+ c).
Proof. induction a as [|x a IH]; [done|]. by rewrite !append_cons, IH. Qed.

Lemma nonEmpty_false s : nonEmpty s = false -> s = ""%string.
Proof. by destruct s. Qed.

Lemma nonEmpty_true s : s <> ""%string -> nonEmpty s = true.
Proof. by destruct s. Qed.

End StringFacts.

Section DeliveryFacts.
Import Webhook.

(** Decoding leaves well-formed UTF-8 as it is. *)
Lemma bufferToString_wellFormed_upto (n : nat) : forall bytes,
  (String.length bytes <= n)%nat ->
  wellFormedUtf8 bytes = true -> bufferToString bytes = bytes.
Proof.
  unfold bufferToString.
  induction n as [|n IH]; intros bytes Hlen Hwf.
  { destruct bytes; [done|simpl in Hlen; lia]. }
  destruct bytes as [|b1 rest]; [done|].
  cbn [decodeUtf8 wellFormedUtf8] in *. simpl String.length in Hlen.
  destruct (byteIn 0 127 b1).
  { f_equal. apply IH; [lia|done]. }
  destruct (byteIn 194 223 b1).
  { destruct rest as [|b2 rest2]; [done|].
    apply andb_prop in Hwf as [H2 Hwf]. simpl String.length in Hlen.
    cbn [decodeUtf8]. rewrite H2, append_cons, append_nil_l.
    do 2 f_equal. apply IH; [lia|done]. }
  destruct (byteIn 224 239 b1).
  { destruct rest as [|b2 [|b3 rest3]]; [done|done|].
    apply andb_prop in Hwf as [Hwf Hrest].
    apply andb_prop in Hwf as [H2 H3]. simpl String.length in Hlen.
    cbn [decodeUtf8]. rewrite H2, H3.
    repeat (rewrite append_cons || rewrite append_nil_l).
    do 3 f_equal. apply IH; [lia|done]. }
  destruct (byteIn 240 244 b1); [|done].
  destruct rest as [|b2 [|b3 [|b4 rest4]]]; [done|done|done|].
  apply andb_prop in Hwf as [Hwf Hrest].
  apply andb_prop in Hwf as [Hwf H4].
  apply andb_prop in Hwf as [H2 H3]. simpl String.length in Hlen.
  cbn [decodeUtf8]. rewrite H2, H3, H4.
  repeat (rewrite append_cons || rewrite append_nil_l).
  do 4 f_equal. apply IH; [lia|done].
Qed.

Lemma bufferToString_wellFormed bytes :
  wellFormedUtf8 bytes = true -> bufferToString bytes = bytes.
Proof. by apply (bufferToString_wellFormed_upto (String.length bytes)). Qed.

(** When every chunk is well-formed on its own, the text the listener
    reads is the raw body. *)
Lemma readRequestBody_wellFormed req chunks :
  req_chunks req = Ok chunks ->
  forallb wellFormedUtf8 chunks = true ->
  readRequestBody req = Ok (rawBody chunks).
Proof.
  intros Hc Hwf. unfold readRequestBody, rawBody. rewrite Hc. f_equal.
  clear Hc. generalize EmptyString.
  induction chunks as [|chunk chunks IH]; intros body; [done|].
  cbn [forallb] in Hwf. apply andb_prop in Hwf as [Hchunk Hwf].
  cbn [fold_left]. rewrite (bufferToString_wellFormed chunk Hchunk).
  by apply IH.
Qed.

(** A request whose chunks are each well-formed UTF-8 is checked
    against the signature of its raw body: with that signature in the
    header it passes the check and goes on to the push handling; with any
    one character of the signature replaced by another character of one
    byte, it is answered 401 and no state changes. *)
Theorem handleRequest_checks_wellFormed_delivery
    config env req st (secret : string) (chunks : list string) :
  wh_secret config = Some secret -> nonEmpty secret = true ->
  req_method req = "POST"%string ->
  req_url req = default "/webhook"%string (wh_path config) ->
  req_chunks req = Ok chunks ->
  forallb wellFormedUtf8 chunks = true ->
  (req_signature req = Some (githubSignature secret (rawBody chunks)) ->
   handleRequest config env req st =
     tryCatch (handlePush env req (rawBody chunks)) (fun m => respond 500 m) st) /\
  (forall (i : nat) (c : ascii),
     (i < 71)%nat -> byteIn 0 127 c = true ->
     String.get i (githubSignature secret (rawBody chunks)) <> Some c ->
     req_signature req =
       Some (setChar i c (githubSignature secret (rawBody chunks))) ->
     handleRequest config env req st =
       (Ok {| status := 401; content := "Unauthorized" |}, st)).
Proof.
  intros Hsec Hne Hm Hu Hc Hwf.
  pose proof (readRequestBody_wellFormed req chunks Hc Hwf) as Hb.
  split.
  - intros Hsig.
    rewrite (handleRequest_checks_signature config env req st secret
               (githubSignature secret (rawBody chunks)) (rawBody chunks))
      by first [done | eapply nonEmpty_of_length;
                       rewrite <- expectedSignature_github;
                       apply expectedSignature_length].
    by rewrite (proj2 (verifySignature_accepts_iff _ _ _) eq_refl).
  - intros i c Hi Hascii Hget Hsig.
    by apply (handleRequest_rejects_flipped_byte config env req st secret
                (rawBody chunks) i c).
Qed.

Lemma handleRequest_checks_wellFormed_delivery_witness :
  wellFormedUtf8 Cases.commitBody = true /\
  handleRequest Samples.hookConfig Cases.commitPushEnv
    (Cases.delivery [Cases.commitBody] Cases.commitSignature)
    Samples.deployedState =
    tryCatch (handlePush Cases.commitPushEnv
                (Cases.delivery [Cases.commitBody] Cases.commitSignature)
                Cases.commitBody)
             (fun m => respond 500 m) Samples.deployedState.
Proof.
  split; [reflexivity|].
  destruct (handleRequest_checks_wellFormed_delivery
              Samples.hookConfig Cases.commitPushEnv
              (Cases.delivery [Cases.commitBody] Cases.commitSignature)
              Samples.deployedState "s3cret" [Cases.commitBody]
              eq_refl eq_refl eq_refl eq_refl eq_refl eq_refl) as [H _].
  apply H. by vm_compute.
Defined.

End DeliveryFacts.

Section SanitizePathFacts.
Import Security.

Lemma removeDotDot_cons2 c c' rest :
  removeDotDot (String c (String c' rest)) =
  if isDot c && isDot c' then removeDotDot rest
  else String c (removeDotDot (String c' rest)).
Proof. reflexivity. Qed.

Lemma hasDotDot_cons2 c c' s :
  hasDotDot (String c (String c' s)) =
  isDot c && isDot c' || hasDotDot (String c' s).
Proof. reflexivity. Qed.

Lemma hasDotDot_cons_other c s : isDot c = false -> hasDotDot (String c s) = hasDotDot s.
Proof.
  intros H. destruct s as [|c' s]; [done|]. by rewrite hasDotDot_cons2, H.
Qed.

Lemma hasDotDot_tail c s : hasDotDot (String c s) = false -> hasDotDot s = false.
Proof.
  destruct s as [|c' s]; [done|]. rewrite hasDotDot_cons2.
  by intros [_ H]%orb_false_elim.
Qed.

Lemma removeDotDot_head c s :
  isDot c = false -> exists t, removeDotDot (String c s) = String c t.
Proof.
  intros H. destruct s as [|c' rest]; [by eexists|].
  rewrite removeDotDot_cons2, H. by eexists.
Qed.

Lemma removeDotDot_clean_upto (n : nat) : forall s,
  (String.length s < n)%nat -> hasDotDot (removeDotDot s) = false.
Proof.
  induction n as [|n IH]; intros s Hlen; [lia|].
  destruct s as [|c [|c' rest]]; [done|done|].
  rewrite removeDotDot_cons2.
  destruct (isDot c && isDot c') eqn:E.
  - apply IH. simpl in Hlen. lia.
  - assert (IH' : hasDotDot (removeDotDot (String c' rest)) = false)
      by (apply IH; simpl in *; lia).
    destruct (isDot c') eqn:Ec'.
    + rewrite andb_true_r in E. by rewrite hasDotDot_cons_other.
    + destruct (removeDotDot_head c' rest Ec') as [t Ht]. rewrite Ht in *.
      by rewrite hasDotDot_cons2, Ec', andb_false_r.
Qed.

Lemma removeDotDot_clean s : hasDotDot (removeDotDot s) = false.
Proof. apply (removeDotDot_clean_upto (S (String.length s))). lia. Qed.

Lemma halveSlashes_cons2 c c' rest :
  halveSlashes (String c (String c' rest)) =
  if isSlash c && isSlash c' then String "/" (halveSlashes rest)
  else String c (halveSlashes (String c' rest)).
Proof. reflexivity. Qed.

Lemma halveSlashes_head c s : exists t, halveSlashes (String c s) = String c t.
Proof.
  destruct s as [|c' rest]; [by eexists|]. rewrite halveSlashes_cons2.
  destruct (isSlash c && isSlash c') eqn:E; [|by eexists].
  apply andb_prop in E as [->%Ascii.eqb_eq _]. by eexists.
Qed.

Lemma isSlash_not_dot c : isSlash c = true -> isDot c = false.
Proof. by intros ->%Ascii.eqb_eq. Qed.

Lemma halveSlashes_clean_upto (n : nat) : forall s,
  (String.length s < n)%nat -> hasDotDot s = false ->
  hasDotDot (halveSlashes s) = false.
Proof.
  induction n as [|n IH]; intros s Hlen Hs; [lia|].
  destruct s as [|c [|c' rest]]; [done|done|].
  rewrite halveSlashes_cons2.
  destruct (isSlash c && isSlash c') eqn:E.
  - rewrite hasDotDot_cons_other by done.
    apply IH; [simpl in *; lia|]. by apply hasDotDot_tail, hasDotDot_tail in Hs.
  - assert (IH' : hasDotDot (halveSlashes (String c' rest)) = false).
    { apply IH; [simpl in *; lia|]. by apply hasDotDot_tail in Hs. }
    destruct (halveSlashes_head c' rest) as [t Ht]. rewrite Ht in *.
    rewrite hasDotDot_cons2 in Hs |- *.
    apply orb_false_elim in Hs as [-> _]. done.
Qed.

Lemma stripLeadingSlashes_clean s :
  hasDotDot s = false -> hasDotDot (stripLeadingSlashes s) = false.
Proof.
  induction s as [|c s IH]; [done|]. intros Hs. simpl.
  destruct (isSlash c); [|done]. by apply IH, (hasDotDot_tail c).
Qed.

Lemma stripTrailingSlashes_head c s :
  stripTrailingSlashes (String c s) = ""%string \/
  exists t, stripTrailingSlashes (String c s) = String c t.
Proof.
  simpl. destruct (isSlash c && allSlashes s); [by left|right; by eexists].
Qed.

Lemma stripTrailingSlashes_clean s :
  hasDotDot s = false -> hasDotDot (stripTrailingSlashes s) = false.
Proof.
  induction s as [|c s IH]; [done|]. intros Hs.
  change (stripTrailingSlashes (String c s)) with
    (if isSlash c && allSlashes s then ""%string
     else String c (stripTrailingSlashes s)).
  destruct (isSlash c && allSlashes s); [done|].
  destruct s as [|c' s]; [done|].
  specialize (IH (hasDotDot_tail _ _ Hs)).
  destruct (stripTrailingSlashes_head c' s) as [->|[t Ht]]; [done|].
  rewrite Ht in *. rewrite hasDotDot_cons2 in Hs |- *.
  apply orb_false_elim in Hs as [-> _]. done.
Qed.

Lemma hasDotDot_infix (a b : string) : hasDotDot (a +:+ ".." +:+ b) = true.
Proof.
  induction a as [|c a IH]; [done|].
  rewrite append_cons.
  destruct (a +:+ ".." +:+ b) as [|c' t] eqn:E; [done|].
  by rewrite hasDotDot_cons2, IH, orb_true_r.
Qed.

Lemma stripLeadingSlashes_start s r : stripLeadingSlashes s <> String "/" r.
Proof.
  induction s as [|c s IH]; [done|]. simpl.
  destruct (isSlash c) eqn:E; [done|].
  intros [= -> _]. done.
Qed.

Lemma stripTrailingSlashes_start s r :
  (forall r', s <> String "/" r') -> stripTrailingSlashes s <> String "/" r.
Proof.
  intros Hs. destruct s as [|c s]; [done|]. simpl.
  destruct (isSlash c && allSlashes s); [done|].
  intros [= -> _]. by apply (Hs s).
Qed.

Lemma stripTrailingSlashes_empty s :
  stripTrailingSlashes s = ""%string -> allSlashes s = true.
Proof.
  destruct s as [|c s]; [done|]. simpl.
  by destruct (isSlash c && allSlashes s).
Qed.

Lemma stripTrailingSlashes_end s : forall r, stripTrailingSlashes s <> r +:+ "/".
Proof.
  induction s as [|c s IH]; intros r.
  - by destruct r.
  - change (stripTrailingSlashes (String c s)) with
      (if isSlash c && allSlashes s then ""%string
       else String c (stripTrailingSlashes s)).
    destruct (isSlash c && allSlashes s) eqn:E; [by destruct r|].
    destruct r as [|d r].
    + intros [= -> Hrest]. apply stripTrailingSlashes_empty in Hrest.
      by rewrite Hrest in E.
    + rewrite append_cons. intros [= _ Hrest]. by apply (IH r).
Qed.

(** [sanitizePath] never returns a path that contains two dots in a row,
    starts with a slash or ends with one. *)
Theorem sanitizePath_no_traversal (path : string) :
  (forall a b, sanitizePath path <> a +:+ ".." +:+ b) /\
  (forall r, sanitizePath path <> "/" +:+ r) /\
  (forall r, sanitizePath path <> r +:+ "/").
Proof.
  unfold sanitizePath. split; [|split].
  - intros a b Heq.
    assert (H : hasDotDot
                  (stripTrailingSlashes
                     (stripLeadingSlashes (halveSlashes (removeDotDot path)))) = false).
    { apply stripTrailingSlashes_clean, stripLeadingSlashes_clean.
      apply (halveSlashes_clean_upto (S (String.length (removeDotDot path))));
        [lia|apply removeDotDot_clean]. }
    by rewrite Heq, hasDotDot_infix in H.
  - intros r. apply stripTrailingSlashes_start. intros r'.
    apply stripLeadingSlashes_start.
  - apply stripTrailingSlashes_end.
Qed.

(** The slash replacement is a single pass: three slashes in a row leave
    two, so the result can still hold an empty segment and a second call
    changes it again. *)
Example sanitizePath_single_pass :
  sanitizePath "a///b" = "a//b"%string /\ sanitizePath "a//b" = "a/b"%string.
Proof. by split. Qed.

Example sanitizePath_example :
  sanitizePath "/../etc//nginx/../conf.d/" = "etc/nginx/conf.d"%string.
Proof. reflexivity. Qed.

Lemma sanitizeInput_app (s1 s2 : string) :
  sanitizeInput (s1 +:+ s2) = sanitizeInput s1 +:+ sanitizeInput s2.
Proof.
  induction s1 as [|c s1 IH]; [done|]. rewrite append_cons. simpl.
  destruct (isDangerous c); [done|]. by rewrite append_cons, IH.
Qed.

Lemma sanitizeInput_clean s c :
  In c (list_ascii_of_string (sanitizeInput s)) -> isDangerous c = false.
Proof.
  induction s as [|d s IH]; simpl; [done|].
  destruct (isDangerous d) eqn:E; [done|]. simpl. intros [<-|H]; [done|by apply IH].
Qed.

Lemma sanitizeInput_id s :
  (forall c, In c (list_ascii_of_string s) -> isDangerous c = false) ->
  sanitizeInput s = s.
Proof.
  induction s as [|d s IH]; simpl; [done|]. intros H.
  rewrite (H d) by by left. rewrite IH; [done|]. intros c Hc. apply H. by right.
Qed.

Lemma isKeyChar_not_dangerous c :
  isKeyChar c || isUnderscore c = true -> isDangerous c = false.
Proof.
  destruct c as [[] [] [] [] [] [] [] []]; vm_compute; done.
Qed.

Lemma allKeyChars_not_dangerous s c :
  allKeyChars s = true -> In c (list_ascii_of_string s) -> isDangerous c = false.
Proof.
  induction s as [|d s IH]; simpl; [done|].
  intros [Hd Hs]%andb_prop [<-|Hc]; [|by apply IH].
  apply isKeyChar_not_dangerous. by rewrite Hd.
Qed.

(** [sanitizeInput] leaves none of the characters [;&|`$(){}[]<>] in its
    output, changes nothing else (it distributes over concatenation and a
    second call is the identity), and passes every key that
    [validateEnvKey] accepts through unchanged. *)
Theorem sanitizeInput_strips_metacharacters (input : string) :
  (forall c, In c (list_ascii_of_string (sanitizeInput input)) ->
             In c dangerousChars -> False) /\
  sanitizeInput (sanitizeInput input) = sanitizeInput input /\
  (forall rest, sanitizeInput (input +:+ rest) =
                sanitizeInput input +:+ sanitizeInput rest) /\
  (validateEnvKey input = true -> sanitizeInput input = input).
Proof.
  split; [|split; [|split]].
  - intros c Hc Hd. apply sanitizeInput_clean in Hc.
    unfold isDangerous in Hc.
    assert (existsb (Ascii.eqb c) dangerousChars = true); [|congruence].
    apply existsb_exists. exists c. split; [done|apply Ascii.eqb_refl].
  - apply sanitizeInput_id, sanitizeInput_clean.
  - apply sanitizeInput_app.
  - intros Hkey. apply sanitizeInput_id. intros c Hc.
    destruct input as [|d s]; [done|]. simpl in Hkey.
    apply andb_prop in Hkey as [Hd Hs]. destruct Hc as [<-|Hc].
    + apply isKeyChar_not_dangerous. unfold isKeyChar.
      destruct (isUpper d); [done|]. simpl in *. by rewrite Hd, orb_true_r.
    + by apply (allKeyChars_not_dangerous s).
Qed.

End SanitizePathFacts.

Section ProjectPathFacts.
Import Security Pipeline.

Lemma isSafeChar_not_slash c : isSafeChar c = true -> Ascii.eqb c "/" = false.
Proof. destruct c as [[] [] [] [] [] [] [] []]; vm_compute; done. Qed.

Lemma basenameFrom_segment s : forall acc,
  allSafe s = true -> basenameFrom s acc = acc +:+ s.
Proof.
  induction s as [|c s IH]; intros acc Hs; simpl.
  - by rewrite append_nil_r.
  - apply andb_prop in Hs as [Hc Hs].
    rewrite (isSafeChar_not_slash c Hc), IH by done.
    by rewrite append_assoc.
Qed.

Lemma basenameFrom_after_slash (a s : string) : forall acc,
  basenameFrom (a +:+ "/" +:+ s) acc = basenameFrom s "".
Proof.
  induction a as [|c a IH]; intros acc; [done|].
  rewrite append_cons. simpl. by destruct (Ascii.eqb c "/").
Qed.

Lemma basename_child (a s : string) :
  allSafe s = true -> basename (a +:+ "/" +:+ s) = s.
Proof.
  intros Hs. unfold basename.
  by rewrite basenameFrom_after_slash, basenameFrom_segment.
Qed.

(** Whatever the project name, its workspace is the apps directory itself
    (when nothing of the name survives the sanitizer) or a direct child of
    it named by the sanitized name; sanitizing the name first makes no
    difference; and the build log that the installer and the builder
    locate through [path.basename] of the workspace lies in the
    workspace. *)
Theorem getProjectPath_stays_in_apps_dir (projectName : string) :
  getProjectPath (sanitizeProjectName projectName) = getProjectPath projectName /\
  (sanitizeProjectName projectName = ""%string ->
   getProjectPath projectName = APPS_DIR) /\
  (sanitizeProjectName projectName <> ""%string ->
   getProjectPath projectName = APPS_DIR +:+ "/" +:+ sanitizeProjectName projectName /\
   basename (getProjectPath projectName) = sanitizeProjectName projectName /\
   getBuildLogPath (basename (getProjectPath projectName)) =
     getProjectPath projectName +:+ "/build.log").
Proof.
  pose proof (sanitizeProjectName_wellFormed projectName) as Hwf.
  pose proof (sanitizeProjectName_fixes_wellFormed _ Hwf) as Hfix.
  unfold getProjectPath, getBuildLogPath. rewrite Hfix.
  split; [done|]. split; [by intros ->|]. intros Hne.
  assert (Hpath : pathJoin APPS_DIR (sanitizeProjectName projectName) =
                  APPS_DIR +:+ "/" +:+ sanitizeProjectName projectName).
  { unfold pathJoin. by rewrite (nonEmpty_true _ Hne). }
  rewrite Hpath. split; [done|].
  rewrite basename_child by apply Hwf. split; [done|].
  rewrite Hfix, Hpath. reflexivity.
Qed.

Lemma getProjectPath_stays_in_apps_dir_witness :
  getProjectPath "My_App" = "/var/apps/my-app"%string /\
  basename (getProjectPath "My_App") = "my-app"%string /\
  getBuildLogPath (basename (getProjectPath "My_App")) =
    "/var/apps/my-app/build.log"%string.
Proof.
  destruct (getProjectPath_stays_in_apps_dir "My_App") as (_ & _ & H).
  destruct H as (H1 & H2 & H3); [by vm_compute|].
  split; [exact H1|]. split; [exact H2|]. rewrite H3, H1. reflexivity.
Defined.

End ProjectPathFacts.

Section PortFinderSoundness.
Import PortFinder.

Lemma scanPorts_sound env startPort : forall (n : nat) port,
  (scanPorts env startPort port n = startPort /\
   forall j : nat, (j < n)%nat -> isPortInUse env (port + Z.of_nat j) = true) \/
  (port <= scanPorts env startPort port n < port + Z.of_nat n /\
   isPortInUse env (scanPorts env startPort port n) = false /\
   forall q, port <= q < scanPorts env startPort port n -> isPortInUse env q = true).
Proof.
  induction n as [|n IH]; intros port.
  - left. split; [done|]. intros j Hj. lia.
  - simpl scanPorts. destruct (isPortInUse env port) eqn:Hport.
    + destruct (IH (port + 1)) as [[Hr Hall]|(Hr & Hfree & Hbusy)].
      * left. split; [done|]. intros j Hj. destruct j as [|j].
        -- by rewrite Z.add_0_r.
        -- replace (port + Z.of_nat (S j)) with (port + 1 + Z.of_nat j) by lia.
           apply Hall. lia.
      * right. split; [lia|]. split; [done|]. intros q Hq.
        destruct (decide (q = port)) as [->|Hne]; [done|]. apply Hbusy. lia.
    + right. split; [lia|]. split; [done|]. intros q Hq. lia.
Qed.

(** What [findAvailablePort] returns, whatever the ports' state: a port
    from [P] up to [P + maxAttempts - 1] (or [P] itself), with every port
    from [P] up to the result occupied; and the result is itself occupied
    only if it is [P] and all [maxAttempts] probed ports are occupied. *)
Theorem findAvailablePort_result_sound (env : Probes) (P : Z) (n : nat) :
  P <= findAvailablePort env P n /\
  (findAvailablePort env P n = P \/ findAvailablePort env P n < P + Z.of_nat n) /\
  (forall q, P <= q < findAvailablePort env P n -> isPortInUse env q = true) /\
  (isPortInUse env (findAvailablePort env P n) = true ->
   findAvailablePort env P n = P /\
   forall j : nat, (j < n)%nat -> isPortInUse env (P + Z.of_nat j) = true).
Proof.
  unfold findAvailablePort.
  destruct (scanPorts_sound env P n P) as [[Hr Hall]|(Hr & Hfree & Hbusy)].
  - rewrite Hr. split; [lia|]. split; [by left|]. split; [intros q Hq; lia|done].
  - split; [lia|]. split; [right; lia|]. split; [done|]. intros Hbad. congruence.
Qed.

End PortFinderSoundness.

Section MetadataStoreFacts.
Import Metadata.

Lemma loadMetadata_stored name st :
  loadMetadata name st = (Ok (storedRecord st name), st).
Proof.
  unfold loadMetadata, storedRecord.
  by destruct (metadataFiles st !! name) as [[m|]|].
Qed.

(** On a stored record, [updateMetadata] writes the merge of the record
    and the updates under the merged record's name, stamps it with the
    current time whatever [updatedAt] the updates carry, keeps [createdAt]
    unless the updates set it, and touches no other record; a refused
    write throws and changes nothing. *)
Theorem updateMetadata_merges_and_stamps (env : Env) (projectName : string)
    (updates : PartialMetadata) (m : ProjectMetadata) (st : State) :
  metadataFiles st !! projectName = Some (ValidJson m) ->
  (canWrite env (md_name (mergeMetadata m updates (now env))) = true ->
   exists st',
     updateMetadata env projectName updates st = (Ok tt, st') /\
     loadMetadata (md_name (mergeMetadata m updates (now env))) st' =
       (Ok (Some (mergeMetadata m updates (now env))), st') /\
     md_updatedAt (mergeMetadata m updates (now env)) = now env /\
     (pm_createdAt updates = None ->
      md_createdAt (mergeMetadata m updates (now env)) = md_createdAt m) /\
     (forall other, other <> md_name (mergeMetadata m updates (now env)) ->
        metadataFiles st' !! other = metadataFiles st !! other) /\
     nginxFiles st' = nginxFiles st /\ effects st' = effects st) /\
  (canWrite env (md_name (mergeMetadata m updates (now env))) = false ->
   exists message, updateMetadata env projectName updates st = (Throw message, st)).
Proof.
  intros Hm.
  assert (Hload : loadMetadata projectName st = (Ok (Some m), st))
    by (unfold loadMetadata; by rewrite Hm).
  unfold updateMetadata, bind. rewrite Hload.
  unfold saveMetadata. split; intros ->; [|by eexists].
  eexists. split; [reflexivity|]. unfold loadMetadata, writeFile. simpl.
  rewrite lookup_insert_eq. split; [done|]. split; [done|].
  split; [by intros ->|]. split; [|done].
  intros other Hne. by rewrite lookup_insert_ne.
Qed.

Lemma updateMetadata_merges_and_stamps_witness :
  exists st',
    updateMetadata (Pipeline.metadataEnv Samples.deployedWorld) "demo"
      (Pipeline.branchAndStamp "main" "2020-01-01T00:00:00.000Z")
      Samples.deployedState = (Ok tt, st') /\
    storedRecord st' "demo" =
      Some (mergeMetadata Samples.developRecord
              (Pipeline.branchAndStamp "main" "2020-01-01T00:00:00.000Z")
              Samples.stamp).
Proof.
  destruct (updateMetadata_merges_and_stamps
              (Pipeline.metadataEnv Samples.deployedWorld) "demo"
              (Pipeline.branchAndStamp "main" "2020-01-01T00:00:00.000Z")
              Samples.developRecord Samples.deployedState) as [H _];
    [by vm_compute|].
  destruct H as (st' & Hrun & Hload & _); [reflexivity|].
  exists st'. split; [exact Hrun|].
  unfold loadMetadata in Hload. unfold storedRecord.
  change (md_name _) with "demo"%string in Hload.
  by destruct (metadataFiles st' !! "demo"%string) as [[?|]|]; simplify_eq.
Defined.

(** For a project name that names a directory under the apps directory
    (not empty, no slash, neither [.] nor [..]): [deleteMetadata] leaves
    a project without record alone; on a stored record whose removal goes
    through, the project no longer loads and the record of every other
    directory is kept; a refused removal throws and changes nothing. *)
Theorem deleteMetadata_forgets_project (removeOk : string -> bool)
    (projectName : string) (st : State) :
  Pipeline.directoryName projectName = true ->
  (metadataFiles st !! projectName = None ->
   deleteMetadata removeOk projectName st = (Ok tt, st)) /\
  (is_Some (metadataFiles st !! projectName) ->
   (removeOk projectName = true ->
    exists st',
      deleteMetadata removeOk projectName st = (Ok tt, st') /\
      loadMetadata projectName st' = (Ok None, st') /\
      (forall other, Pipeline.directoryName other = true ->
         other <> projectName ->
         metadataFiles st' !! other = metadataFiles st !! other)) /\
   (removeOk projectName = false ->
    exists message, deleteMetadata removeOk projectName st = (Throw message, st))).
Proof.
  intros _. unfold deleteMetadata. split; [by intros ->|]. intros [f ->].
  split; intros ->; [|by eexists].
  eexists. split; [reflexivity|]. unfold loadMetadata. simpl.
  rewrite lookup_delete_eq. split; [done|].
  intros other _ Hne. by rewrite lookup_delete_ne.
Qed.

End MetadataStoreFacts.

Section ListingFacts.
Import Metadata Webhook.

Lemma insertByUpdate_perm getTime x l : insertByUpdate getTime x l ≡ₚ x :: l.
Proof.
  induction l as [|y l IH]; simpl; [done|].
  destruct (getTime (md_updatedAt y) <=? getTime (md_updatedAt x)); [done|].
  rewrite IH. apply Permutation_swap.
Qed.

Lemma sorted_perm getTime (l : list ProjectMetadata) :
  foldr (insertByUpdate getTime) [] l ≡ₚ l.
Proof.
  induction l as [|x l IH]; [done|]. simpl. by rewrite insertByUpdate_perm, IH.
Qed.

Lemma insertByUpdate_sorted getTime x l :
  StronglySorted
    (fun a b => getTime (md_updatedAt b) <= getTime (md_updatedAt a)) l ->
  StronglySorted
    (fun a b => getTime (md_updatedAt b) <= getTime (md_updatedAt a))
    (insertByUpdate getTime x l).
Proof.
  induction 1 as [|y l Hl IH Hy]; simpl.
  - by repeat constructor.
  - destruct (getTime (md_updatedAt y) <=? getTime (md_updatedAt x)) eqn:E.
    + apply Z.leb_le in E. constructor; [by constructor|].
      constructor; [done|].
      eapply Forall_impl; [exact Hy|]. simpl. intros z Hz. lia.
    + apply Z.leb_gt in E. constructor; [done|].
      rewrite insertByUpdate_perm. constructor; [|done]. lia.
Qed.

Lemma sorted_sorted getTime (l : list ProjectMetadata) :
  StronglySorted
    (fun a b => getTime (md_updatedAt b) <= getTime (md_updatedAt a))
    (foldr (insertByUpdate getTime) [] l).
Proof.
  induction l as [|x l IH]; [constructor|]. simpl. by apply insertByUpdate_sorted.
Qed.

(** On dated records the order by [timeOf] is the comparator's. *)
Lemma sorted_newerFirst env (l : list ProjectMetadata) :
  Forall (fun m => dated env m = true) l ->
  StronglySorted
    (fun a b => timeOf env (md_updatedAt b) <= timeOf env (md_updatedAt a)) l ->
  StronglySorted (newerFirst env) l.
Proof.
  intros Hd Hs. induction Hs as [|x l Hs IH Hx]; [constructor|].
  apply Forall_cons in Hd as [Hdx Hd]. constructor; [by apply IH|].
  rewrite Forall_forall in Hx, Hd |- *. intros y Hy.
  specialize (Hx y Hy). specialize (Hd y Hy).
  unfold newerFirst, dated, updateTime, timeOf in *.
  destruct (getTime env (md_updatedAt x)) as [tx|]; [|done].
  destruct (getTime env (md_updatedAt y)) as [ty|]; [|done].
  by exists tx, ty.
Qed.

Lemma sortByUpdate_dated env (l : list ProjectMetadata) :
  forallb (dated env) l = true ->
  sortByUpdate env l ≡ₚ l /\ StronglySorted (newerFirst env) (sortByUpdate env l).
Proof.
  intros Hd. unfold sortByUpdate. rewrite Hd. split; [apply sorted_perm|].
  apply sorted_newerFirst; [|apply sorted_sorted].
  rewrite sorted_perm. rewrite forallb_forall in Hd.
  apply Forall_forall. intros m Hm. by apply Hd, list_elem_of_In.
Qed.

Lemma loadEach_state env entries st : snd (loadEach env entries st) = st.
Proof.
  induction entries as [|entry rest IH]; [done|].
  cbn [loadEach]. unfold bind, liftResult, ret.
  destruct (isDirectory env entry) as [[|]|e]; [| |done].
  - rewrite loadMetadata_stored.
    destruct (loadEach env rest st) as [[l|e] s]; simpl in *; by subst.
  - destruct (loadEach env rest st) as [[l|e] s]; simpl in *; by subst.
Qed.

(** When every [fs.stat] succeeds the loop collects the records that
    load from the directories, in the order of the entries. *)
Lemma loadEach_ok env entries st :
  forallb (statOk env) entries = true ->
  loadEach env entries st =
    (Ok (omap (storedRecord st) (directoriesOf env entries)), st).
Proof.
  induction entries as [|entry rest IH]; [done|].
  cbn [forallb]. intros [Hs Hrest]%andb_prop.
  cbn [loadEach directoriesOf List.filter]. unfold statOk in Hs.
  unfold bind, liftResult, ret.
  destruct (isDirectory env entry) as [[|]|e]; [| |done].
  - rewrite loadMetadata_stored, (IH Hrest).
    change (omap (storedRecord st) (entry :: ?l))
      with (match storedRecord st entry with
            | Some m => m :: omap (storedRecord st) l
            | None => omap (storedRecord st) l
            end).
    done.
  - by rewrite (IH Hrest).
Qed.

(** A failing [fs.stat] makes the loop throw. *)
Lemma loadEach_throw env entries st :
  forallb (statOk env) entries = false ->
  exists message, loadEach env entries st = (Throw message, st).
Proof.
  induction entries as [|entry rest IH]; [done|].
  cbn [forallb loadEach]. unfold statOk at 1, bind, liftResult, ret.
  destruct (isDirectory env entry) as [[|]|e]; cbn [andb];
    [| |by eexists].
  - intros Hrest. destruct (IH Hrest) as (message & Hm).
    rewrite loadMetadata_stored, Hm. by eexists.
  - intros Hrest. destruct (IH Hrest) as (message & Hm).
    rewrite Hm. by eexists.
Qed.

(** [listAllProjects] never changes the store. Without an apps directory
    it returns the empty list; when reading the apps directory or the
    [fs.stat] of one of its entries throws, it throws. Otherwise it
    returns a list; and when every record that loads from a directory
    among the entries has an [updatedAt] that parses as a date, the list
    is made of exactly these records (a directory with no or an
    unreadable [metadata.json] is skipped), most recently updated
    first. *)
Theorem listAllProjects_newest_first (env : Env) (st : State) :
  snd (listAllProjects env st) = st /\
  (appsEntries env = None -> fst (listAllProjects env st) = Ok []) /\
  (forall message,
     appsEntries env = Some (Throw message) ->
     fst (listAllProjects env st) = Throw message) /\
  (forall entries,
     appsEntries env = Some (Ok entries) ->
     (forallb (statOk env) entries = false ->
      exists message, fst (listAllProjects env st) = Throw message) /\
     (forallb (statOk env) entries = true ->
      exists projects,
        fst (listAllProjects env st) = Ok projects /\
        (forallb (dated env)
           (omap (storedRecord st) (directoriesOf env entries)) = true ->
         projects ≡ₚ omap (storedRecord st) (directoriesOf env entries) /\
         StronglySorted (newerFirst env) projects))).
Proof.
  unfold listAllProjects.
  destruct (appsEntries env) as [[entries|e]|]; unfold bind, liftResult, ret.
  - split.
    { pose proof (loadEach_state env entries st) as Hs.
      destruct (loadEach env entries st) as [[l|e] s]; simpl in *; by subst. }
    split; [done|]. split; [done|].
    intros entries' [= <-]. split.
    + intros Hstat. destruct (loadEach_throw env entries st Hstat) as (m & ->).
      by eexists.
    + intros Hstat. rewrite (loadEach_ok env entries st Hstat).
      eexists. split; [reflexivity|]. apply sortByUpdate_dated.
  - split; [done|]. split; [done|]. split; [by intros message [= ->]|done].
  - done.
Qed.

Lemma listAllProjects_newest_first_witness :
  fst (listAllProjects Cases.appsListing Cases.twoProjects) =
    Ok [Cases.betaRecord; Cases.alphaRecord] /\
  StronglySorted (newerFirst Cases.appsListing)
    [Cases.betaRecord; Cases.alphaRecord].
Proof.
  split; [reflexivity|].
  destruct (listAllProjects_newest_first Cases.appsListing Cases.twoProjects)
    as (_ & _ & _ & H).
  destruct (H ["alpha"; "beta"; "notes.txt"]%string eq_refl) as [_ Hok].
  destruct (Hok eq_refl) as (projects & Hrun & Hsorted).
  destruct (Hsorted eq_refl) as [_ Hs].
  vm_compute in Hrun. injection Hrun as <-. exact Hs.
Defined.

End ListingFacts.

Section LogFacts.
Context (allowed : Effect -> bool).

Lemma logs_of_emits {A} (c : M A) : emitsOnly allowed c -> logsOnly allowed c.
Proof. intros H st. by destruct (H st) as [_ Hl]. Qed.

Lemma logs_ret {A} (a : A) : logsOnly allowed (ret a).
Proof. apply logs_of_emits, emits_ret. Qed.

Lemma logs_throw {A} message : logsOnly allowed (@throw A message).
Proof. apply logs_of_emits, emits_throw. Qed.

Lemma logs_liftResult {A} (r : Result A) : logsOnly allowed (liftResult r).
Proof. apply logs_of_emits, emits_liftResult. Qed.

Lemma logs_emit e : allowed e = true -> logsOnly allowed (emit e).
Proof. intros He. by apply logs_of_emits, emits_emit. Qed.

Lemma logs_warn scope message :
  allowed (Warn scope message) = true -> logsOnly allowed (warn scope message).
Proof. apply logs_emit. Qed.

Lemma logs_exec b e message : allowed e = true -> logsOnly allowed (exec b e message).
Proof. intros He. by apply logs_of_emits, emits_exec. Qed.

Lemma logs_removeCheckout safeName :
  allowed (RemoveDir (pathJoin Pipeline.APPS_DIR safeName)) = true ->
  logsOnly allowed (Pipeline.removeCheckout safeName).
Proof. intros He. by apply logs_of_emits, emits_removeCheckout. Qed.

Lemma logs_loadMetadata name : logsOnly allowed (Metadata.loadMetadata name).
Proof. apply logs_of_emits, emits_loadMetadata. Qed.

Lemma logs_saveMetadata env metadata :
  logsOnly allowed (Metadata.saveMetadata env metadata).
Proof. apply logs_of_emits, emits_saveMetadata. Qed.

Lemma logs_installConfig path config :
  allowed (NginxInstall path) = true ->
  logsOnly allowed (Nginx.installConfig path config).
Proof. intros He st. exists [NginxInstall path]. simpl. by rewrite He. Qed.

Lemma logs_bind {A B} (c : M A) (k : A -> M B) :
  logsOnly allowed c -> (forall a, logsOnly allowed (k a)) ->
  logsOnly allowed (bind c k).
Proof.
  intros Hc Hk st. unfold bind. destruct (Hc st) as (l & He & Hl).
  destruct (c st) as [[a|e] s]; simpl in *; [|by eauto].
  destruct (Hk a s) as (l' & He' & Hl').
  exists (l ++ l'). rewrite He', He, forallb_app, Hl, Hl'. by rewrite app_assoc.
Qed.

Lemma logs_tryCatch {A} (c : M A) (h : string -> M A) :
  logsOnly allowed c -> (forall e, logsOnly allowed (h e)) ->
  logsOnly allowed (tryCatch c h).
Proof.
  intros Hc Hh st. unfold tryCatch. destruct (Hc st) as (l & He & Hl).
  destruct (c st) as [[a|e] s]; simpl in *; [by eauto|].
  destruct (Hh e s) as (l' & He' & Hl').
  exists (l ++ l'). rewrite He', He, forallb_app, Hl, Hl'. by rewrite app_assoc.
Qed.

Lemma logs_attempt {A} (c : M A) : logsOnly allowed c -> logsOnly allowed (attempt c).
Proof. intros Hc st. apply Hc. Qed.

Lemma logs_at {A} (c : M A) st r st' :
  logsOnly allowed c -> c st = (r, st') ->
  exists l, effects st' = effects st ++ l /\ forallb allowed l = true.
Proof. intros Hc Heq. specialize (Hc st). by rewrite Heq in Hc. Qed.

End LogFacts.

(** Decomposes a computation into its primitive steps to bound the
    effects it appends to the log. *)
Ltac log_step :=
  lazymatch goal with
  | |- logsOnly _ (ret _) => apply logs_ret
  | |- logsOnly _ (throw _) => apply logs_throw
  | |- logsOnly _ (liftResult _) => apply logs_liftResult
  | |- logsOnly _ (warn _ _) => apply logs_warn; reflexivity
  | |- logsOnly _ (emit _) => apply logs_emit; reflexivity
  | |- logsOnly _ (exec _ _ _) => apply logs_exec; reflexivity
  | |- logsOnly _ (Pipeline.removeCheckout _) => apply logs_removeCheckout; reflexivity
  | |- logsOnly _ (Nginx.installConfig _ _) => apply logs_installConfig; reflexivity
  | |- logsOnly _ (Metadata.loadMetadata _) => apply logs_loadMetadata
  | |- logsOnly _ (Metadata.saveMetadata _ _) => apply logs_saveMetadata
  | |- logsOnly _ (attempt _) => apply logs_attempt
  | |- logsOnly _ (bind _ _) => apply logs_bind; [|intros ?]
  | |- logsOnly _ (tryCatch _ _) => apply logs_tryCatch; [|intros ?]
  | |- logsOnly _ (if ?b then _ else _) => destruct b
  | |- logsOnly _ (match ?x with _ => _ end) => destruct x
  end.

Ltac logs := cbv zeta; repeat log_step.

Section WorkspaceFacts.
Import Analyzer Pipeline.

Lemma tryCatch_ok_inv {A} (c : M A) (h : string -> M A) st a st' :
  (forall e s, fst (h e s) <> Ok a) ->
  tryCatch c h st = (Ok a, st') -> c st = (Ok a, st').
Proof.
  unfold tryCatch. intros Hh. destruct (c st) as [[x|e] s]; [done|].
  intros Heq. specialize (Hh e s). by rewrite Heq in Hh.
Qed.

Lemma exec_ok_inv b e message st u st' :
  exec b e message st = (Ok u, st') ->
  b = true /\ effects st' = effects st ++ [e] /\
  metadataFiles st' = metadataFiles st /\ nginxFiles st' = nginxFiles st.
Proof. unfold exec. destruct b; [|done]. by intros [= <- <-]. Qed.

Lemma updateRepo_ok_inv w projectPath branch st p st' :
  updateRepo w projectPath branch st = (Ok p, st') ->
  p = projectPath /\
  metadataFiles st' = metadataFiles st /\ nginxFiles st' = nginxFiles st /\
  (effects st' = effects st ++ [GitPull projectPath branch] \/
   effects st' = effects st ++ [GitCheckout projectPath branch;
                                GitPull projectPath branch]).
Proof.
  unfold updateRepo. intros H. apply tryCatch_ok_inv in H; [|done].
  destruct (gitCurrentBranch w projectPath) as [current|]; [|done].
  apply bind_ok_inv in H as ([] & s1 & Hco & H).
  apply bind_ok_inv in H as ([] & s2 & Hpull & H).
  injection H as <- <-.
  apply exec_ok_inv in Hpull as (_ & He2 & Hm2 & Hn2).
  destruct (String.eqb current branch).
  - injection Hco as <-. split; [done|]. split; [done|]. split; [done|]. by left.
  - apply exec_ok_inv in Hco as (_ & He1 & Hm1 & Hn1).
    split; [done|]. split; [congruence|]. split; [congruence|]. right.
    rewrite He2, He1. by rewrite <- app_assoc.
Qed.

Example dirname_examples :
  dirname "/var/apps/demo" = "/var/apps"%string /\
  dirname (getProjectPath "") = "/var"%string /\
  dirname "/var" = "/"%string.
Proof. by vm_compute. Qed.

Lemma removeCheckout_ok_inv safeName st u st' :
  removeCheckout safeName st = (Ok u, st') ->
  metadataFiles st' =
    (if nonEmpty safeName then delete safeName (metadataFiles st) else ∅) /\
  nginxFiles st' = nginxFiles st /\
  effects st' = effects st ++ [RemoveDir (pathJoin APPS_DIR safeName)].
Proof. by intros [= <- <-]. Qed.

(** [cloneRepo] refuses a URL that fails validation before it runs
    anything. When it succeeds it returns the sanitized workspace path,
    leaves the nginx configs alone, and has done exactly one of three
    things. The directory exists and [force] is off: a pull of the
    requested branch, after a checkout if another branch was checked out;
    the metadata store is as before. The directory does not exist: a
    clone; the store is as before. The directory exists and [force] is on:
    the removal of the directory, then a clone; the project's metadata
    record is gone with its directory, the records of the other
    directories are kept (if the name sanitizes to the empty string, the
    directory removed is the apps directory and every record is gone). *)
Theorem cloneRepo_outcomes (w : World) (options : CloneOptions) (st : State) :
  (validateRepoUrl w (co_repoUrl options) = false ->
   cloneRepo w options st =
     (Throw ("Geçersiz repo URL: " +:+ co_repoUrl options), st)) /\
  (forall p st',
     cloneRepo w options st = (Ok p, st') ->
     p = getProjectPath (co_projectName options) /\
     nginxFiles st' = nginxFiles st /\
     (dirExists w p = true -> co_force options = false ->
      metadataFiles st' = metadataFiles st /\
      (effects st' = effects st ++ [GitPull p (co_branch options)] \/
       effects st' = effects st ++ [GitCheckout p (co_branch options);
                                    GitPull p (co_branch options)])) /\
     (dirExists w p = false ->
      metadataFiles st' = metadataFiles st /\
      effects st' =
        effects st ++ [GitClone (co_repoUrl options) (co_branch options) p]) /\
     (dirExists w p = true -> co_force options = true ->
      effects st' =
        effects st ++ [RemoveDir p;
                       GitClone (co_repoUrl options) (co_branch options) p] /\
      (nonEmpty (Security.sanitizeProjectName (co_projectName options)) = true ->
       metadataFiles st' !! Security.sanitizeProjectName (co_projectName options)
         = None /\
       forall other,
         directoryName other = true ->
         other <> Security.sanitizeProjectName (co_projectName options) ->
         metadataFiles st' !! other = metadataFiles st !! other) /\
      (nonEmpty (Security.sanitizeProjectName (co_projectName options)) = false ->
       metadataFiles st' = ∅))).
Proof.
  unfold cloneRepo. split; [by intros ->|]. intros p st' H.
  destruct (validateRepoUrl w (co_repoUrl options)); [|done]. simpl in H.
  set (safeName := Security.sanitizeProjectName (co_projectName options)) in *.
  set (path := getProjectPath (co_projectName options)) in *.
  destruct (dirExists w path) eqn:Hdir, (co_force options) eqn:Hforce;
    cbn [andb negb] in H.
  - apply bind_ok_inv in H as ([] & s1 & Hrm & H).
    apply bind_ok_inv in H as ([] & s2 & Hmk & H).
    apply bind_ok_inv in H as ([] & s3 & Hclone & H).
    injection H as <- <-. rewrite Hdir.
    destruct (removeDirOk w path); [|done].
    apply removeCheckout_ok_inv in Hrm as (Hm1 & Hn1 & He1).
    destruct (ensureDirOk w _); [|done]. injection Hmk as <-.
    apply tryCatch_ok_inv in Hclone; [|done].
    apply exec_ok_inv in Hclone as (_ & He3 & Hm3 & Hn3).
    split; [done|]. split; [congruence|]. split; [done|]. split; [done|].
    intros _ _. split; [rewrite He3, He1; by rewrite <- app_assoc|].
    rewrite Hm3, Hm1. split.
    + intros ->. split; [apply lookup_delete_eq|].
      intros other _ Hne. by apply lookup_delete_ne.
    + by intros ->.
  - apply updateRepo_ok_inv in H as (-> & Hm & Hn & He).
    rewrite Hdir. done.
  - apply bind_ok_inv in H as ([] & s1 & Hrm & H).
    apply bind_ok_inv in H as ([] & s2 & Hmk & H).
    apply bind_ok_inv in H as ([] & s3 & Hclone & H).
    injection H as <- <-. rewrite Hdir. injection Hrm as <-.
    destruct (ensureDirOk w _); [|done]. injection Hmk as <-.
    apply tryCatch_ok_inv in Hclone; [|done].
    apply exec_ok_inv in Hclone as (_ & He3 & Hm3 & Hn3).
    done.
  - apply bind_ok_inv in H as ([] & s1 & Hrm & H).
    apply bind_ok_inv in H as ([] & s2 & Hmk & H).
    apply bind_ok_inv in H as ([] & s3 & Hclone & H).
    injection H as <- <-. rewrite Hdir. injection Hrm as <-.
    destruct (ensureDirOk w _); [|done]. injection Hmk as <-.
    apply tryCatch_ok_inv in Hclone; [|done].
    apply exec_ok_inv in Hclone as (_ & He3 & Hm3 & Hn3).
    done.
Qed.

Lemma cloneRepo_outcomes_witness :
  getProjectPath "Demo" = "/var/apps/demo"%string /\
  Samples.deployedState.(metadataFiles) !! "demo"%string
    = Some (ValidJson Samples.developRecord) /\
  effects (snd (cloneRepo Samples.deployedWorld Cases.forcedClone
                  Samples.deployedState)) =
    [RemoveDir "/var/apps/demo";
     GitClone "https://github.com/user/demo" "main" "/var/apps/demo"] /\
  metadataFiles (snd (cloneRepo Samples.deployedWorld Cases.forcedClone
                        Samples.deployedState)) !! "demo"%string = None.
Proof.
  destruct (cloneRepo_outcomes Samples.deployedWorld Cases.forcedClone
              Samples.deployedState) as [_ H].
  specialize (H "/var/apps/demo"%string
                (snd (cloneRepo Samples.deployedWorld Cases.forcedClone
                        Samples.deployedState))
                eq_refl).
  destruct H as (Hp & _ & _ & _ & H).
  destruct (H eq_refl eq_refl) as (He & Hgone & _).
  destruct (Hgone eq_refl) as [Hdemo _].
  split; [by rewrite Hp|]. split; [reflexivity|]. split; [exact He|exact Hdemo].
Defined.

Lemma logs_cloneRepo_keeps w repoUrl branch projectName :
  logsOnly keepsWorkspace
    (cloneRepo w {| co_repoUrl := repoUrl; co_branch := branch;
                    co_projectName := projectName; co_force := false |}).
Proof.
  unfold cloneRepo, updateRepo. cbn [co_repoUrl co_branch co_projectName co_force].
  destruct (validateRepoUrl w repoUrl); cbn [negb]; [|apply logs_throw].
  destruct (dirExists w (getProjectPath projectName)); cbn [andb negb]; logs.
Qed.

Lemma logs_generateNginxConfig allowed tools options :
  (forall path, allowed (NginxInstall path) = true) ->
  (forall scope message, allowed (Warn scope message) = true) ->
  logsOnly allowed (Nginx.generateNginxConfig tools options).
Proof.
  intros Hi Hw. unfold Nginx.generateNginxConfig. cbv zeta.
  repeat first
    [ apply logs_bind; [|intros ?]
    | apply logs_tryCatch; [|intros ?]
    | apply logs_liftResult | apply logs_ret | apply logs_throw
    | apply logs_warn, Hw | apply logs_installConfig, Hi
    | match goal with |- logsOnly _ (if ?b then _ else _) => destruct b end ].
Qed.

Lemma logs_reloadNginx allowed tools :
  allowed NginxReload = true ->
  (forall scope message, allowed (Warn scope message) = true) ->
  logsOnly allowed (Nginx.reloadNginx tools).
Proof.
  intros Hr Hw. unfold Nginx.reloadNginx. cbv zeta.
  repeat first
    [ apply logs_tryCatch; [|intros ?]
    | apply logs_exec, Hr | apply logs_warn, Hw ].
Qed.

Lemma logs_provision_keeps w config finalPort projectPath :
  logsOnly keepsWorkspace (provision w config finalPort projectPath).
Proof.
  unfold provision, stageAnalyze, stageInstall, stageBuild, stageRun, stageNginx,
    analyze, installDependencies, buildProject, runWithPM2.
  logs; first [by apply logs_generateNginxConfig | by apply logs_reloadNginx].
Qed.

(** Neither [deploy] nor the [update] command ever removes a directory:
    both fetch with [force] off, so an existing workspace is pulled in
    place. *)
Theorem deploy_and_update_keep_workspace (w : World) (config : DeployConfig)
    (options : UpdateOptions) (st : State) :
  (exists l, effects (snd (deploy w config st)) = effects st ++ l /\
             forall path, ~ In (RemoveDir path) l) /\
  (exists l, effects (snd (updateAction w options st)) = effects st ++ l /\
             forall path, ~ In (RemoveDir path) l).
Proof.
  assert (Hno : forall l, forallb keepsWorkspace l = true ->
                          forall path, ~ In (RemoveDir path) l).
  { intros l Hl path Hin. rewrite forallb_forall in Hl. by apply Hl in Hin. }
  split.
  - assert (H : logsOnly keepsWorkspace (deploy w config)).
    { unfold deploy, portNotice, stageFetch. logs;
        first [apply logs_cloneRepo_keeps | apply logs_provision_keeps]. }
    destruct (H st) as (l & He & Hl). exists l. split; [done|by apply Hno].
  - assert (H : logsOnly keepsWorkspace (updateAction w options)).
    { unfold updateAction, Metadata.updateMetadata. logs.
      apply logs_cloneRepo_keeps. }
    destruct (H st) as (l & He & Hl). exists l. split; [done|by apply Hno].
Qed.

End WorkspaceFacts.

Section DeployFacts.
Import Analyzer Pipeline.

(** A successful [deploy] is a successful fetch, a successful
    [provision] and a successful write of the record. *)
Lemma deploy_success_inv w config st r st' :
  deploy w config st = (Ok r, st') -> success r = true ->
  exists projectPath p s0 s1 s7,
    portNotice w config st = (Ok tt, s0) /\
    stageFetch w config s0 = (Ok projectPath, s1) /\
    provision w config (resolvePort w config) projectPath s1 = (Ok p, s7) /\
    Metadata.saveMetadata (metadataEnv w)
      (recordOf w config (resolvePort w config) p) s7 = (Ok tt, st') /\
    r = succeeded (resolvePort w config) projectPath p.
Proof.
  destruct (portNotice_ok w config st) as (s0 & Hnotice & _).
  unfold deploy. cbv zeta. unfold bind at 1. rewrite Hnotice.
  unfold bind at 1, attempt.
  destruct (stageFetch w config s0) as [[projectPath|e] s1] eqn:Hfetch; simpl.
  2:{ intros [= <- <-]. done. }
  unfold tryCatch, bind at 1.
  destruct (provision w config (resolvePort w config) projectPath s1)
    as [[p|e] s7] eqn:Hprov.
  2:{ intros [= <- <-]. done. }
  unfold bind.
  destruct (Metadata.saveMetadata _ _ s7) as [[[]|e] s8] eqn:Hsave.
  2:{ intros [= <- <-]. done. }
  intros [= <- <-] _. by exists projectPath, p, s0, s1, s7.
Qed.

Lemma stageFetch_path w config st projectPath st' :
  stageFetch w config st = (Ok projectPath, st') ->
  projectPath = getProjectPath (cfg_projectName config).
Proof.
  unfold stageFetch, cloneRepo. cbn [co_repoUrl co_branch co_projectName co_force].
  destruct (validateRepoUrl w _); [|done]. cbn [negb andb].
  destruct (dirExists w _); cbn [andb].
  - intros H. by apply updateRepo_ok_inv in H as (-> & _).
  - intros H.
    apply bind_ok_inv in H as ([] & s1 & _ & H).
    apply bind_ok_inv in H as ([] & s2 & _ & H).
    apply bind_ok_inv in H as ([] & s3 & _ & H).
    by injection H as <- _.
Qed.

Lemma stageAnalyze_ok w config projectPath st analysis st' :
  stageAnalyze w config projectPath st = (Ok analysis, st') ->
  st' = st /\ an_type analysis <> UNKNOWN /\
  detectProjectType (checkout w) projectPath (Some (cfg_projectType config))
    = Ok analysis.
Proof.
  unfold stageAnalyze, analyze, bind, liftResult.
  destruct (detectProjectType _ _ _) as [a|e]; [|done].
  destruct (bool_decide (an_type a = UNKNOWN)) eqn:E; [done|].
  intros [= <- <-]. by apply bool_decide_eq_false in E.
Qed.

Lemma runWithPM2_ok w projectPath pm analysis projectName port envVars subPath
    st n st' :
  runWithPM2 w projectPath pm analysis projectName port envVars subPath st
    = (Ok n, st') ->
  an_hasStartScript analysis = true /\
  n = processNameOf projectName subPath /\
  effects st' = effects st ++ [Pm2Start n (workDirOf projectPath subPath) port].
Proof.
  unfold runWithPM2. cbv zeta.
  destruct (an_hasStartScript analysis); [|done]. cbn [negb]. intros H.
  apply bind_ok_inv in H as ([] & s1 & Hstart & H). injection H as <- <-.
  apply tryCatch_ok_inv in Hstart; [|done].
  by apply exec_ok_inv in Hstart as (_ & He & _).
Qed.

(** What a successful step 5 did: nothing for a static frontend; the
    start of one process otherwise, from the workspace or from the backend
    sub-directory of a monorepo, on the analysis of that directory. *)
Lemma stageRun_ok w config finalPort projectPath analysis st result st' :
  stageRun w config finalPort projectPath analysis st = (Ok result, st') ->
  (result = None /\ st' = st /\
   an_type analysis = FRONTEND /\ an_isSSR analysis = false) \/
  (exists n dir started,
     result = Some n /\
     effects st' = effects st ++ [Pm2Start n dir finalPort] /\
     an_hasStartScript started = true /\
     (dir = projectPath /\ started = analysis \/
      exists sub, dir = pathJoin projectPath sub /\
                  an_backendPath analysis = Some sub /\ nonEmpty sub = true /\
                  detectProjectType (checkout w) dir (Some BACKEND) = Ok started) /\
     ~ (an_type analysis = FRONTEND /\ an_isSSR analysis = false)).
Proof.
  unfold stageRun. cbv zeta.
  destruct (bool_decide (an_type analysis = FRONTEND) && negb (an_isSSR analysis))
    eqn:Estatic.
  { intros [= <- <-]. left. apply andb_prop in Estatic as [Ht Hs].
    apply bool_decide_eq_true in Ht. apply negb_true_iff in Hs. done. }
  assert (Hnot : ~ (an_type analysis = FRONTEND /\ an_isSSR analysis = false)).
  { intros [Ht Hs]. rewrite Ht, Hs in Estatic.
    by rewrite bool_decide_eq_true_2 in Estatic. }
  destruct (bool_decide (an_type analysis = MONOREPO)
            && truthyStr (an_backendPath analysis)) eqn:Emono.
  - intros H. apply bind_ok_inv in H as (backend & s1 & Han & H).
    apply bind_ok_inv in H as (n & s2 & Hrun & H). injection H as <- <-.
    unfold analyze, liftResult in Han.
    destruct (detectProjectType _ _ _) as [a|e] eqn:Hdet; [|done].
    injection Han as <- <-.
    apply runWithPM2_ok in Hrun as (Hstart & Hn & He).
    apply andb_prop in Emono as [_ Hb].
    destruct (an_backendPath analysis) as [sub|] eqn:Hsub; [|done].
    right. exists n, (pathJoin projectPath sub), a.
    split; [done|]. unfold workDirOf in He. rewrite Hb in He.
    split; [done|]. split; [done|]. split; [|done].
    right. exists sub. by rewrite <- Hsub.
  - intros H. apply bind_ok_inv in H as (n & s2 & Hrun & H). injection H as <- <-.
    apply runWithPM2_ok in Hrun as (Hstart & Hn & He).
    right. exists n, projectPath, analysis.
    split; [done|]. split; [done|]. split; [done|]. split; [by left|done].
Qed.

Lemma chooseConfig_without_port options content :
  truthyNum (Nginx.ng_port options) = false ->
  Nginx.chooseConfig options = Ok content ->
  Nginx.ng_projectType options = FRONTEND /\
  an_isSSR (Nginx.ng_analysis options) = false.
Proof.
  unfold Nginx.chooseConfig. cbv zeta. intros ->. cbn [negb].
  destruct (bool_decide (Nginx.ng_projectType options = FRONTEND)
            && negb (an_isSSR (Nginx.ng_analysis options))) eqn:E.
  - intros _. apply andb_prop in E as [Ht Hs].
    apply bool_decide_eq_true in Ht. by apply negb_true_iff in Hs.
  - destruct (bool_decide (Nginx.ng_projectType options = BACKEND)
              || an_isSSR (Nginx.ng_analysis options)); [done|].
    by destruct (bool_decide (Nginx.ng_projectType options = MONOREPO)).
Qed.

Lemma generateNginxConfig_ok_choice tools options st path st' :
  Nginx.generateNginxConfig tools options st = (Ok path, st') ->
  exists content, Nginx.chooseConfig options = Ok content.
Proof.
  unfold Nginx.generateNginxConfig. cbv zeta. intros H.
  apply bind_ok_inv in H as (content & s1 & Hc & _).
  unfold liftResult in Hc. exists content.
  by destruct (Nginx.chooseConfig options); simplify_eq.
Qed.

Lemma resolvePort_without_port w config :
  truthyNum (cfg_port config) = false -> resolvePort w config = cfg_port config.
Proof. unfold resolvePort. by intros ->. Qed.

Lemma saveMetadata_ok_inv env metadata st st' :
  Metadata.saveMetadata env metadata st = (Ok tt, st') ->
  st' = {| metadataFiles := <[md_name metadata := ValidJson metadata]> (metadataFiles st);
           nginxFiles := nginxFiles st;
           effects := effects st |}.
Proof.
  unfold Metadata.saveMetadata. destruct (Metadata.canWrite env _); [|done].
  by intros [= <-].
Qed.

(** Without a port (none given, or 0) only a static frontend can be
    deployed: if [deploy] succeeds, the project was analyzed as a frontend
    that is not server-rendered, no process was registered for it, and the
    saved record says so. Every other kind of project fails, at the
    latest when its nginx config is generated. *)
Theorem deploy_without_port_only_static (w : World) (config : DeployConfig)
    (st : State) (r : DeployResult) (st' : State) :
  truthyNum (cfg_port config) = false ->
  deploy w config st = (Ok r, st') ->
  success r = true ->
  res_pm2ProcessName r = None /\
  exists analysis record,
    detectProjectType (checkout w) (getProjectPath (cfg_projectName config))
      (Some (cfg_projectType config)) = Ok analysis /\
    an_type analysis = FRONTEND /\ an_isSSR analysis = false /\
    metadataFiles st' !! cfg_projectName config = Some (ValidJson record) /\
    md_type record = "frontend"%string /\
    md_pm2ProcessName record = None /\
    md_port record = cfg_port config.
Proof.
  intros Hport Hrun Hok.
  destruct (deploy_success_inv _ _ _ _ _ Hrun Hok)
    as (projectPath & p & s0 & s1 & s7 & _ & Hfetch & Hprov & Hsave & ->).
  rewrite (resolvePort_without_port _ _ Hport) in *.
  apply stageFetch_path in Hfetch as ->.
  destruct (provision_ok_inv _ _ _ _ _ _ _ Hprov)
    as (s2 & s3 & s4 & s5 & s6 & Ha & _ & _ & Hr & Hn & _).
  apply stageAnalyze_ok in Ha as (-> & _ & Hdet).
  unfold stageNginx in Hn.
  destruct (generateNginxConfig_ok_choice _ _ _ _ _ Hn) as (content & Hc).
  apply chooseConfig_without_port in Hc as [Ht Hs]; [|done].
  cbn [Nginx.ng_projectType Nginx.ng_analysis] in Ht, Hs.
  apply stageRun_ok in Hr as [(Hnone & _)|(n & dir & a & _ & _ & _ & _ & Hnot)];
    [|by destruct Hnot].
  split; [done|]. exists (pv_analysis p), (recordOf w config (cfg_port config) p).
  split; [done|]. split; [done|]. split; [done|].
  apply saveMetadata_ok_inv in Hsave as ->. simpl.
  rewrite lookup_insert_eq. split; [done|]. by rewrite Ht.
Qed.

End DeployFacts.

Section DeployProcessFacts.
Import Analyzer Pipeline.

Lemma deploy_without_port_only_static_witness :
  exists record,
    metadataFiles
      (snd (deploy (Samples.calmWorld (Samples.rootManifestOnly Cases.viteApp))
                   Cases.portlessConfig Samples.emptyState)) !! "demo"%string
      = Some (ValidJson record) /\
    md_type record = "frontend"%string /\ md_pm2ProcessName record = None.
Proof.
  destruct (deploy_without_port_only_static
              (Samples.calmWorld (Samples.rootManifestOnly Cases.viteApp))
              Cases.portlessConfig Samples.emptyState
              (match fst (deploy (Samples.calmWorld
                                    (Samples.rootManifestOnly Cases.viteApp))
                                 Cases.portlessConfig Samples.emptyState) with
               | Ok r => r
               | Throw _ => failed "" ""
               end)
              (snd (deploy (Samples.calmWorld (Samples.rootManifestOnly Cases.viteApp))
                           Cases.portlessConfig Samples.emptyState)))
    as (_ & analysis & record & _ & _ & _ & Hrec & Ht & Hp & _);
    [reflexivity|by vm_compute|by vm_compute|].
  exists record. done.
Defined.

Lemma logs_stageInstall w projectPath analysis :
  logsOnly startsNoProcess (stageInstall w projectPath analysis).
Proof. unfold stageInstall, installDependencies. logs. Qed.

Lemma logs_stageBuild w projectPath analysis :
  logsOnly startsNoProcess (stageBuild w projectPath analysis).
Proof. unfold stageBuild, analyze, buildProject. logs. Qed.

Lemma logs_stageFetch w config : logsOnly startsNoProcess (stageFetch w config).
Proof. unfold stageFetch, cloneRepo, updateRepo. logs. Qed.

(** The effects of a successful [provision]: the start of the process it
    reports, if it reports one, and around it only effects that start no
    process. *)
Lemma provision_effects w config finalPort projectPath s1 p s7 :
  provision w config finalPort projectPath s1 = (Ok p, s7) ->
  exists la lb,
    forallb startsNoProcess la = true /\ forallb startsNoProcess lb = true /\
    match pv_pm2ProcessName p with
    | None => effects s7 = effects s1 ++ la ++ lb
    | Some n =>
        exists dir, effects s7 = effects s1 ++ la ++ Pm2Start n dir finalPort :: lb
    end.
Proof.
  intros Hprov.
  destruct (provision_ok_inv _ _ _ _ _ _ _ Hprov)
    as (s2 & s3 & s4 & s5 & s6 & Ha & Hi & Hb & Hr & Hn & Hl).
  apply stageAnalyze_ok in Ha as (-> & _ & _).
  destruct (logs_at _ _ _ _ _ (logs_stageInstall _ _ _) Hi) as (l3 & He3 & Hl3).
  destruct (logs_at _ _ _ _ _ (logs_stageBuild _ _ _) Hb) as (l4 & He4 & Hl4).
  unfold stageNginx in Hn.
  destruct (logs_at startsNoProcess _ _ _ _
              (logs_generateNginxConfig _ _ _ (fun _ => eq_refl) (fun _ _ => eq_refl))
              Hn) as (l6 & He6 & Hl6).
  destruct (logs_at startsNoProcess _ _ _ _
              (logs_reloadNginx _ _ eq_refl (fun _ _ => eq_refl)) Hl)
    as (l7 & He7 & Hl7).
  exists (l3 ++ l4), (l6 ++ l7).
  rewrite !forallb_app, Hl3, Hl4, Hl6, Hl7. split; [done|]. split; [done|].
  apply stageRun_ok in Hr
    as [(-> & -> & _)|(n & dir & a & -> & He5 & _)].
  - rewrite He7, He6, He4, He3. by rewrite <- !app_assoc.
  - exists dir. rewrite He7, He6, He5, He4, He3. by rewrite <- !app_assoc.
Qed.

(** The result of a successful [deploy] names a supervised process
    exactly when one was started: with no process name in the result, no
    process was started; with a name, exactly one process was started,
    under that name and on the port the result reports. *)
Theorem deploy_result_names_started_process (w : World) (config : DeployConfig)
    (st : State) (r : DeployResult) (st' : State) :
  deploy w config st = (Ok r, st') ->
  success r = true ->
  exists l,
    effects st' = effects st ++ l /\
    (res_pm2ProcessName r = None -> forallb startsNoProcess l = true) /\
    (forall n, res_pm2ProcessName r = Some n ->
       exists dir la lb,
         l = la ++ Pm2Start n dir (res_port r) :: lb /\
         forallb startsNoProcess la = true /\
         forallb startsNoProcess lb = true).
Proof.
  intros Hrun Hok.
  destruct (deploy_success_inv _ _ _ _ _ Hrun Hok)
    as (projectPath & p & s0 & s1 & s7 & Hnotice & Hfetch & Hprov & Hsave & ->).
  assert (Hlog0 : logsOnly startsNoProcess (portNotice w config))
    by (unfold portNotice; logs).
  destruct (logs_at _ _ _ _ _ Hlog0 Hnotice) as (l0 & He0 & Hl0).
  destruct (logs_at _ _ _ _ _ (logs_stageFetch _ _) Hfetch) as (l1 & He1 & Hl1).
  destruct (provision_effects _ _ _ _ _ _ _ Hprov) as (la & lb & Hla & Hlb & He7).
  apply saveMetadata_ok_inv in Hsave as ->. cbn [effects succeeded res_pm2ProcessName res_port].
  destruct (pv_pm2ProcessName p) as [n|].
  - destruct He7 as [dir He7].
    exists (l0 ++ l1 ++ la ++ Pm2Start n dir (resolvePort w config) :: lb).
    split; [rewrite He7, He1, He0; by rewrite <- !app_assoc|].
    split; [done|]. intros n' [= <-].
    exists dir, (l0 ++ l1 ++ la), lb.
    split; [by rewrite <- !app_assoc|].
    by rewrite !forallb_app, Hl0, Hl1, Hla.
  - exists (l0 ++ l1 ++ la ++ lb).
    split; [rewrite He7, He1, He0; by rewrite <- !app_assoc|].
    split; [|done]. intros _.
    by rewrite !forallb_app, Hl0, Hl1, Hla, Hlb.
Qed.

Lemma deploy_result_names_started_process_witness :
  exists dir la lb,
    effects (snd (deploy (Samples.calmWorld (Samples.rootManifestOnly Samples.expressApi))
                         Samples.demoConfig Samples.emptyState))
      = [] ++ la ++ Pm2Start "demo" dir (Some 3000) :: lb /\
    forallb startsNoProcess la = true /\ forallb startsNoProcess lb = true.
Proof.
  destruct (deploy_result_names_started_process
              (Samples.calmWorld (Samples.rootManifestOnly Samples.expressApi))
              Samples.demoConfig Samples.emptyState
              (match fst (deploy (Samples.calmWorld
                                    (Samples.rootManifestOnly Samples.expressApi))
                                 Samples.demoConfig Samples.emptyState) with
               | Ok r => r
               | Throw _ => failed "" ""
               end)
              (snd (deploy (Samples.calmWorld
                              (Samples.rootManifestOnly Samples.expressApi))
                           Samples.demoConfig Samples.emptyState)))
    as (l & He & _ & Hsome); [by vm_compute|by vm_compute|].
  destruct (Hsome "demo"%string) as (dir & la & lb & -> & Hla & Hlb);
    [by vm_compute|].
  exists dir, la, lb. split; [exact He|]. by split.
Defined.




End DeployProcessFacts.

Section NginxInstallFacts.
Import Analyzer Nginx.

(** Once the routing shape is chosen and the temporary file written,
    whether the config ends up installed depends on the [sudo cp] alone:
    if the copy fails nothing is installed and the call throws; if it
    succeeds the config is installed under the project's config path, and
    the call returns that path, unless the temporary file cannot be
    removed: then it throws the same write error although the config is
    in place. The metadata store is never touched. *)
Theorem generateNginxConfig_install_outcome (tools : Tools)
    (options : NginxConfigOptions) (st : State) (content : NginxConfig) :
  chooseConfig options = Ok content ->
  writeTemp tools (tempConfigPath (ng_projectName options)) = true ->
  metadataFiles (snd (generateNginxConfig tools options st)) = metadataFiles st /\
  (sudoCp tools (tempConfigPath (ng_projectName options))
                (getNginxConfigPath (ng_projectName options)) = false ->
   nginxFiles (snd (generateNginxConfig tools options st)) = nginxFiles st /\
   exists message,
     fst (generateNginxConfig tools options st) =
       Throw ("Nginx config write failed: " +:+ message)) /\
  (sudoCp tools (tempConfigPath (ng_projectName options))
                (getNginxConfigPath (ng_projectName options)) = true ->
   nginxFiles (snd (generateNginxConfig tools options st)) =
     <[getNginxConfigPath (ng_projectName options) := content]> (nginxFiles st) /\
   (removeTemp tools (tempConfigPath (ng_projectName options)) = true ->
    fst (generateNginxConfig tools options st) =
      Ok (getNginxConfigPath (ng_projectName options))) /\
   (removeTemp tools (tempConfigPath (ng_projectName options)) = false ->
    exists message,
      fst (generateNginxConfig tools options st) =
        Throw ("Nginx config write failed: " +:+ message))).
Proof.
  intros Hc Hw. unfold generateNginxConfig. cbv zeta.
  unfold bind at 1. rewrite Hc. unfold liftResult.
  unfold bind at 1. rewrite Hw. unfold ret at 1.
  unfold bind at 1, tryCatch at 1, bind at 1.
  destruct (sudoCp tools _ _).
  - unfold installConfig at 1.
    destruct (removeTemp tools _).
    + unfold ret at 1, bind, tryCatch.
      destruct (sudoNginxT tools _); simpl.
      * split; [done|]. split; [done|]. intros _. split; [done|]. by split.
      * split; [done|]. split; [done|]. intros _. split; [done|]. by split.
    + simpl. split; [done|]. split; [done|]. intros _. split; [done|].
      split; [done|]. intros _. by eexists.
  - simpl. split; [done|]. split; [|done]. intros _. split; [done|]. by eexists.
Qed.

Lemma generateNginxConfig_install_outcome_witness :
  nginxFiles (snd (generateNginxConfig Cases.stickyTemp Cases.apiOptions
                                       Samples.emptyState))
    = <[getNginxConfigPath "demo" := ProxyConfig "demo.local" 3000 "/"]> ∅ /\
  exists message,
    fst (generateNginxConfig Cases.stickyTemp Cases.apiOptions Samples.emptyState)
      = Throw ("Nginx config write failed: " +:+ message).
Proof.
  destruct (generateNginxConfig_install_outcome Cases.stickyTemp Cases.apiOptions
              Samples.emptyState (ProxyConfig "demo.local" 3000 "/"))
    as (_ & _ & H); [reflexivity|reflexivity|].
  destruct H as (Hfiles & _ & Hthrow); [reflexivity|].
  split; [exact Hfiles|]. by apply Hthrow.
Defined.

End NginxInstallFacts.

Section WebhookGateFacts.
Import Pipeline Webhook.

Lemma updateAction_returns w options st :
  exists exit st', updateAction w options st = (Ok exit, st').
Proof.
  unfold updateAction, tryCatch.
  match goal with
  | |- context [let (_, _) := ?c st in _] => destruct (c st) as [[x|e] s]
  end; by eexists _, _.
Qed.

Lemma handlePush_status env req body st resp st' :
  handlePush env req body st = (Ok resp, st') -> knownStatus (status resp) = true.
Proof.
  unfold handlePush, respond.
  destruct (negb (bool_decide (req_event req = Some "push"%string)));
    [by intros [= <- _]|].
  destruct (parseJson env body) as [payload|]; [|done].
  destruct (negb (truthyStr _)); [by intros [= <- _]|].
  intros H. apply bind_ok_inv in H as (projects & s1 & _ & H).
  destruct (List.find _ projects) as [project|]; [|by injection H as <- _].
  destruct (String.eqb _ _); [|by injection H as <- _].
  apply bind_ok_inv in H as (exit & s2 & _ & H).
  destruct exit; by injection H as <- _.
Qed.

(** The listener answers every request: whatever the request, the
    stored projects and the outcome of the tools, the handler returns a
    response, and its status is 200, 400, 401, 404 or 500. *)
Theorem handleRequest_always_responds (config : WebhookConfig) (env : Env)
    (req : Request) (st : State) :
  exists resp st',
    handleRequest config env req st = (Ok resp, st') /\
    status resp ∈ [200; 400; 401; 404; 500].
Proof.
  assert (Hin : forall resp, knownStatus (status resp) = true ->
                             status resp ∈ [200; 400; 401; 404; 500])
    by (intros resp; apply bool_decide_eq_true).
  unfold handleRequest. cbv zeta.
  destruct (String.eqb (req_method req) "OPTIONS").
  { eexists _, _. split; [reflexivity|]. by apply Hin. }
  destruct (negb _ || negb _).
  { eexists _, _. split; [reflexivity|]. by apply Hin. }
  unfold tryCatch.
  match goal with
  | |- context [let (_, _) := ?c st in _] =>
      destruct (c st) as [[resp|e] s] eqn:Hbody
  end.
  2:{ eexists _, _. split; [reflexivity|]. by apply Hin. }
  exists resp, s. split; [done|]. apply Hin.
  apply bind_ok_inv in Hbody as (body & s1 & _ & Hbody).
  apply bind_ok_inv in Hbody as (authorized & s2 & _ & Hbody).
  destruct authorized; simpl in Hbody.
  - by apply handlePush_status in Hbody.
  - by injection Hbody as <- _.
Qed.

(** The signature header is the only gate, and only when a secret is
    configured: without a secret the header is never looked at, so any
    request is handled as if it were signed; with a secret, a request
    without the header (or with an empty one) is answered 401 and no
    state changes. *)
Theorem handleRequest_authentication_gate (config : WebhookConfig) (env : Env)
    (req : Request) (st : State) :
  (truthyStr (wh_secret config) = false ->
   forall signature,
     handleRequest config env (withSignature signature req) st =
     handleRequest config env req st) /\
  (truthyStr (wh_secret config) = true ->
   truthyStr (req_signature req) = false ->
   req_method req = "POST"%string ->
   req_url req = default "/webhook"%string (wh_path config) ->
   forall body, readRequestBody req = Ok body ->
     handleRequest config env req st =
       (Ok {| status := 401; content := "Unauthorized" |}, st)).
Proof.
  split.
  - intros Hsec signature. unfold handleRequest.
    unfold readRequestBody.
    cbn [withSignature req_method req_url req_chunks req_signature].
    by rewrite Hsec.
  - intros Hsec Hsig Hm Hu body Hb. unfold handleRequest.
    rewrite Hm, Hu, Hsec, Hsig, Hb. simpl. by rewrite String.eqb_refl.
Qed.

End WebhookGateFacts.

Section FlagFacts.
Import Metadata Pipeline Webhook.

Lemma handleRequest_authentication_gate_witness :
  handleRequest Samples.hookConfig Samples.hookEnv Cases.unsignedPush
    Samples.deployedState =
    (Ok {| status := 401; content := "Unauthorized" |}, Samples.deployedState).
Proof.
  destruct (handleRequest_authentication_gate Samples.hookConfig Samples.hookEnv
              Cases.unsignedPush Samples.deployedState) as [_ H].
  by apply (H eq_refl eq_refl eq_refl eq_refl Samples.pushBody).
Defined.

Lemma flagBlind_ret {A} (a : A) : flagBlind (ret a).
Proof. by intros st. Qed.

Lemma flagBlind_throw {A} message : flagBlind (@throw A message).
Proof. by intros st. Qed.

Lemma flagBlind_liftResult {A} (r : Result A) : flagBlind (liftResult r).
Proof. by intros st. Qed.

Lemma flagBlind_emit e : flagBlind (emit e).
Proof. by intros st. Qed.

Lemma flagBlind_exec b e message : flagBlind (exec b e message).
Proof. intros st. by destruct b. Qed.

Lemma flagBlind_removeCheckout safeName : flagBlind (removeCheckout safeName).
Proof.
  intros st. unfold removeCheckout, eraseWebhookFlags. simpl.
  destruct (nonEmpty safeName); [by rewrite fmap_delete|by rewrite fmap_empty].
Qed.

Lemma flagBlind_bind {A B} (c : M A) (k : A -> M B) :
  flagBlind c -> (forall a, flagBlind (k a)) -> flagBlind (bind c k).
Proof.
  intros Hc Hk st. unfold bind. rewrite Hc.
  destruct (c st) as [[a|e] s]; simpl; [apply Hk|done].
Qed.

Lemma flagBlind_tryCatch {A} (c : M A) (h : string -> M A) :
  flagBlind c -> (forall e, flagBlind (h e)) -> flagBlind (tryCatch c h).
Proof.
  intros Hc Hh st. unfold tryCatch. rewrite Hc.
  destruct (c st) as [[a|e] s]; simpl; [done|apply Hh].
Qed.

Lemma loadMetadata_erased name st :
  loadMetadata name (eraseWebhookFlags st) =
    (Ok (withWebhookFlag None <$> storedRecord st name), eraseWebhookFlags st).
Proof.
  unfold loadMetadata, storedRecord. cbn [eraseWebhookFlags metadataFiles].
  rewrite lookup_fmap. by destruct (metadataFiles st !! name) as [[m|]|].
Qed.

(** A continuation that reads a loaded record without its flag. *)
Lemma flagBlind_load_bind {B} name (k : option ProjectMetadata -> M B) :
  (forall o, flagBlind (k o)) ->
  (forall m, k (Some (withWebhookFlag None m)) = k (Some m)) ->
  flagBlind (bind (loadMetadata name) k).
Proof.
  intros Hk Hsame st. unfold bind.
  rewrite loadMetadata_erased, loadMetadata_stored.
  destruct (storedRecord st name) as [m|]; simpl; [|apply Hk].
  rewrite Hsame. apply Hk.
Qed.

Lemma flagBlind_updateMetadata env name updates :
  pm_webhookEnabled updates = None ->
  flagBlind (updateMetadata env name updates).
Proof.
  intros Hu st. unfold updateMetadata, bind.
  rewrite loadMetadata_erased, loadMetadata_stored.
  destruct (storedRecord st name) as [m|]; simpl; [|done].
  assert (Hmerge : mergeMetadata (withWebhookFlag None m) updates (now env) =
                   withWebhookFlag None (mergeMetadata m updates (now env))).
  { unfold mergeMetadata, withWebhookFlag. simpl. by rewrite Hu. }
  rewrite Hmerge. unfold saveMetadata.
  change (md_name (withWebhookFlag None ?x)) with (md_name x).
  destruct (canWrite env _); [|done].
  unfold writeFile, eraseWebhookFlags. simpl. by rewrite fmap_insert.
Qed.

End FlagFacts.

(** Decomposes a computation into its primitive steps to show that it
    does not look at the [webhookEnabled] fields. *)
Ltac blind_step :=
  lazymatch goal with
  | |- Webhook.flagBlind (ret _) => apply flagBlind_ret
  | |- Webhook.flagBlind (throw _) => apply flagBlind_throw
  | |- Webhook.flagBlind (liftResult _) => apply flagBlind_liftResult
  | |- Webhook.flagBlind (exec _ _ _) => apply flagBlind_exec
  | |- Webhook.flagBlind (Pipeline.removeCheckout _) => apply flagBlind_removeCheckout
  | |- Webhook.flagBlind (bind _ _) => apply flagBlind_bind; [|intros ?]
  | |- Webhook.flagBlind (tryCatch _ _) => apply flagBlind_tryCatch; [|intros ?]
  | |- Webhook.flagBlind (if ?b then _ else _) => destruct b
  | |- Webhook.flagBlind (match ?x with _ => _ end) => destruct x
  end.

Ltac blind := cbv zeta; repeat blind_step.

Section FlagBlindHandler.
Import Metadata Pipeline Webhook.

Lemma flagBlind_cloneRepo w options : flagBlind (cloneRepo w options).
Proof. unfold cloneRepo, updateRepo. blind. Qed.

Lemma flagBlind_updateAction w options : flagBlind (updateAction w options).
Proof.
  unfold updateAction. apply flagBlind_tryCatch; [|intros e; apply flagBlind_ret].
  apply flagBlind_load_bind; [|done].
  intros [m|]; [|apply flagBlind_ret].
  apply flagBlind_bind; [apply flagBlind_cloneRepo|intros _].
  apply flagBlind_bind; [blind|intros _].
  apply flagBlind_bind; [by apply flagBlind_updateMetadata|intros _].
  apply flagBlind_ret.
Qed.

Lemma insertByUpdate_erased getTime x l :
  insertByUpdate getTime (withWebhookFlag None x) (withWebhookFlag None <$> l) =
  withWebhookFlag None <$> insertByUpdate getTime x l.
Proof.
  induction l as [|y l IH]; [done|].
  change (withWebhookFlag None <$> y :: l)
    with (withWebhookFlag None y :: (withWebhookFlag None <$> l)).
  simpl insertByUpdate.
  destruct (getTime (md_updatedAt y) <=? getTime (md_updatedAt x)); [done|].
  rewrite IH. reflexivity.
Qed.

Lemma storedRecord_erased st entry :
  storedRecord (eraseWebhookFlags st) entry =
  withWebhookFlag None <$> storedRecord st entry.
Proof.
  unfold storedRecord. cbn [eraseWebhookFlags metadataFiles].
  rewrite lookup_fmap. by destruct (metadataFiles st !! entry) as [[m|]|].
Qed.

Lemma sorted_erased getTime (l : list ProjectMetadata) :
  foldr (insertByUpdate getTime) [] (withWebhookFlag None <$> l) =
  withWebhookFlag None <$> foldr (insertByUpdate getTime) [] l.
Proof.
  induction l as [|x l IH]; [done|].
  change (withWebhookFlag None <$> x :: l)
    with (withWebhookFlag None x :: (withWebhookFlag None <$> l)).
  cbn [foldr]. by rewrite IH, insertByUpdate_erased.
Qed.

Lemma positions_erased (l : list ProjectMetadata) (positions : list nat) :
  omap (fun i => (withWebhookFlag None <$> l) !! i) positions =
  withWebhookFlag None <$> omap (fun i => l !! i) positions.
Proof.
  induction positions as [|i positions IH]; [done|].
  change (omap ?f (i :: positions))
    with (match f i with
          | Some m => m :: omap f positions
          | None => omap f positions
          end).
  cbv beta. rewrite list_lookup_fmap, IH. by destruct (l !! i).
Qed.

(** The sort looks at the [updatedAt] fields only. *)
Lemma sortByUpdate_erased env (l : list ProjectMetadata) :
  sortByUpdate env (withWebhookFlag None <$> l) =
  withWebhookFlag None <$> sortByUpdate env l.
Proof.
  unfold sortByUpdate.
  assert (Hd : forallb (dated env) (withWebhookFlag None <$> l) =
               forallb (dated env) l).
  { induction l as [|x l IH]; [done|].
    change (withWebhookFlag None <$> x :: l)
      with (withWebhookFlag None x :: (withWebhookFlag None <$> l)).
    cbn [forallb]. by rewrite IH. }
  assert (Hk : updateTime env <$> (withWebhookFlag None <$> l) =
               updateTime env <$> l).
  { rewrite <- list_fmap_compose. by apply list_fmap_ext. }
  rewrite Hd, Hk. destruct (forallb (dated env) l);
    [apply sorted_erased|apply positions_erased].
Qed.

Lemma loadEach_erased env entries st :
  loadEach env entries (eraseWebhookFlags st) =
    (match fst (loadEach env entries st) with
     | Ok l => Ok (withWebhookFlag None <$> l)
     | Throw e => Throw e
     end, eraseWebhookFlags st).
Proof.
  induction entries as [|entry rest IH]; [done|].
  cbn [loadEach]. unfold bind, liftResult, ret.
  destruct (isDirectory env entry) as [[|]|e]; [| |done].
  - rewrite loadMetadata_erased, loadMetadata_stored, IH.
    destruct (loadEach env rest st) as [[l|e] s]; [|done]. cbn [fst].
    by destruct (storedRecord st entry).
  - rewrite IH. by destruct (loadEach env rest st) as [[l|e] s].
Qed.

Lemma listAllProjects_erased env st :
  listAllProjects env (eraseWebhookFlags st) =
    (match fst (listAllProjects env st) with
     | Ok l => Ok (withWebhookFlag None <$> l)
     | Throw e => Throw e
     end, eraseWebhookFlags st).
Proof.
  unfold listAllProjects.
  destruct (appsEntries env) as [[entries|e]|]; [|done|done].
  unfold bind, liftResult, ret. rewrite loadEach_erased.
  destruct (loadEach env entries st) as [[l|e] s]; [|done]. cbn [fst].
  by rewrite sortByUpdate_erased.
Qed.

Lemma listAllProjects_state env st : snd (listAllProjects env st) = st.
Proof.
  unfold listAllProjects.
  destruct (appsEntries env) as [[entries|e]|]; [|done|done].
  unfold bind, liftResult, ret.
  pose proof (loadEach_state env entries st) as Hs.
  destruct (loadEach env entries st) as [[l|e] s]; simpl in *; by subst.
Qed.

Lemma find_sameRepo_erased repoUrl (l : list ProjectMetadata) :
  List.find (sameRepo repoUrl) (withWebhookFlag None <$> l) =
  withWebhookFlag None <$> List.find (sameRepo repoUrl) l.
Proof.
  induction l as [|x l IH]; [done|].
  change (withWebhookFlag None <$> x :: l)
    with (withWebhookFlag None x :: (withWebhookFlag None <$> l)).
  cbn [List.find].
  change (sameRepo repoUrl (withWebhookFlag None x)) with (sameRepo repoUrl x).
  by destruct (sameRepo repoUrl x).
Qed.

Lemma flagBlind_listing_bind {B} env (k : list ProjectMetadata -> M B) :
  (forall projects st,
     k (withWebhookFlag None <$> projects) (eraseWebhookFlags st) =
       (fst (k projects st), eraseWebhookFlags (snd (k projects st)))) ->
  flagBlind (bind (listAllProjects env) k).
Proof.
  intros Hk st. unfold bind. rewrite listAllProjects_erased.
  pose proof (listAllProjects_state env st) as Hs.
  destruct (listAllProjects env st) as [[projects|e] s]; simpl in *; subst s;
    [apply Hk|done].
Qed.

Lemma flagBlind_handlePush env req body : flagBlind (handlePush env req body).
Proof.
  unfold handlePush, respond.
  destruct (negb (bool_decide (req_event req = Some "push"%string)));
    [apply flagBlind_ret|].
  destruct (parseJson env body) as [payload|]; [|apply flagBlind_throw].
  destruct (negb (truthyStr _)); [apply flagBlind_ret|].
  apply flagBlind_listing_bind. intros projects st.
  rewrite find_sameRepo_erased.
  destruct (List.find _ projects) as [project|]; simpl; [|done].
  destruct (String.eqb (md_branch project) _); [|done].
  apply (flagBlind_bind (updateCommand (world env) (md_name project) _));
    [apply flagBlind_updateAction|].
  intros [|message]; apply flagBlind_ret.
Qed.

Lemma flagBlind_handleRequest config env req :
  flagBlind (handleRequest config env req).
Proof.
  unfold handleRequest, respond. cbv zeta.
  destruct (String.eqb (req_method req) "OPTIONS"); [apply flagBlind_ret|].
  destruct (negb _ || negb _); [apply flagBlind_ret|].
  apply flagBlind_tryCatch; [|intros e; apply flagBlind_ret].
  apply flagBlind_bind; [apply flagBlind_liftResult|intros body].
  apply flagBlind_bind; [blind|intros authorized].
  destruct (negb authorized); [apply flagBlind_ret|apply flagBlind_handlePush].
Qed.

(** The listener never consults a project's [webhookEnabled] field: on
    two stores that differ only in these fields, a request gets the same
    response and triggers the same effects, and the stores still differ
    only in these fields afterwards. A push therefore updates every
    recorded project of the repository and branch, whether or not it was
    deployed with [--webhook]. *)
Theorem handleRequest_ignores_webhook_flag (config : WebhookConfig) (env : Env)
    (req : Request) (st1 st2 : State) :
  eraseWebhookFlags st1 = eraseWebhookFlags st2 ->
  fst (handleRequest config env req st1) = fst (handleRequest config env req st2) /\
  effects (snd (handleRequest config env req st1)) =
    effects (snd (handleRequest config env req st2)) /\
  eraseWebhookFlags (snd (handleRequest config env req st1)) =
    eraseWebhookFlags (snd (handleRequest config env req st2)).
Proof.
  intros Hsame.
  pose proof (flagBlind_handleRequest config env req st1) as H1.
  pose proof (flagBlind_handleRequest config env req st2) as H2.
  rewrite Hsame, H2 in H1.
  pose proof (f_equal fst H1) as Hr. pose proof (f_equal snd H1) as Hs.
  simpl in Hr, Hs. split; [done|]. split; [|done].
  by apply (f_equal effects) in Hs.
Qed.

Lemma handleRequest_ignores_webhook_flag_witness :
  fst (handleRequest Cases.openConfig Cases.developPushEnv Cases.unsignedPush
         Samples.deployedState) =
    Ok {| status := 200; content := "Project updated" |} /\
  fst (handleRequest Cases.openConfig Cases.developPushEnv Cases.unsignedPush
         Cases.hookedState) =
    Ok {| status := 200; content := "Project updated" |} /\
  effects (snd (handleRequest Cases.openConfig Cases.developPushEnv
                  Cases.unsignedPush Samples.deployedState)) =
    [GitPull "/var/apps/demo" "develop"; Pm2Restart "demo"].
Proof.
  destruct (handleRequest_ignores_webhook_flag Cases.openConfig Cases.developPushEnv
              Cases.unsignedPush Samples.deployedState Cases.hookedState)
    as (Hr & He & _); [by vm_compute|].
  split; [reflexivity|]. split; [by rewrite <- Hr|reflexivity].
Defined.

End FlagBlindHandler.

Section HealthFacts.
Import Metadata Pipeline Health.

(** [checkHealth] changes nothing and always returns a status for the
    name it was asked about. The status is healthy exactly when the
    project has a record that names a PM2 process, [pm2 jlist] can be
    read, and the first listed process of that name reports the status
    [online]. *)
Theorem checkHealth_healthy_iff (env : Env) (projectName : string) (st : State) :
  exists s,
    checkHealth env projectName st = (Ok s, st) /\
    hs_projectName s = projectName /\
    (hs_healthy s = true <->
     exists m processName processes process,
       metadataFiles st !! projectName = Some (ValidJson m) /\
       md_pm2ProcessName m = Some processName /\
       nonEmpty processName = true /\
       pm2Jlist env = Some processes /\
       List.find (namedBy processName) processes = Some process /\
       proc_status process = Some "online"%string).
Proof.
  unfold checkHealth, bind. rewrite loadMetadata_stored. unfold storedRecord.
  destruct (metadataFiles st !! projectName) as [[m|]|] eqn:Hm; cbv zeta.
  2,3: eexists; split; [reflexivity|]; split; [done|]; split; [done|];
       intros (m0 & pn & ps & pr & H1 & _); simplify_eq; congruence.
  destruct (md_pm2ProcessName m) as [processName|] eqn:Hname; simpl.
  2:{ eexists. split; [reflexivity|]. split; [done|]. split; [done|].
      intros (m0 & pn & ps & pr & H1 & H2 & _). simplify_eq; congruence. }
  destruct (nonEmpty processName) eqn:Hne.
  2:{ eexists. split; [reflexivity|]. split; [done|]. split; [done|].
      intros (m0 & pn & ps & pr & H1 & H2 & H3 & _). simplify_eq; congruence. }
  destruct (pm2Jlist env) as [processes|] eqn:Hlist.
  2:{ eexists. split; [reflexivity|]. split; [done|]. split; [done|].
      intros (m0 & pn & ps & pr & H1 & H2 & H3 & H4 & _). simplify_eq; congruence. }
  destruct (List.find (namedBy processName) processes) as [process|] eqn:Hfind.
  2:{ eexists. split; [reflexivity|]. split; [done|]. split; [done|].
      intros (m0 & pn & ps & pr & H1 & H2 & H3 & H4 & H5 & _). simplify_eq; congruence. }
  eexists. split; [reflexivity|]. split; [done|]. simpl. split.
  - intros Honline. apply String.eqb_eq in Honline.
    exists m, processName, processes, process. repeat (split; [done|]).
    unfold orElse in Honline.
    destruct (proc_status process) as [status|]; simpl in Honline; [|done].
    destruct (nonEmpty status); [by subst|done].
  - intros (m0 & pn & ps & pr & H1 & H2 & H3 & H4 & H5 & H6). simplify_eq.
    by rewrite H6.
Qed.

(** A static frontend is never reported healthy: after a successful
    [deploy] that registered no process, [checkHealth] of the project
    answers unhealthy, without a PM2 status, whatever the supervisor
    runs. *)
Theorem deploy_static_frontend_reported_unhealthy (w : World)
    (config : DeployConfig) (st : State) (r : DeployResult) (st' : State)
    (env : Env) :
  deploy w config st = (Ok r, st') ->
  success r = true ->
  res_pm2ProcessName r = None ->
  exists s,
    checkHealth env (cfg_projectName config) st' = (Ok s, st') /\
    hs_healthy s = false /\ hs_pm2Status s = None.
Proof.
  intros Hrun Hok Hnone.
  destruct (deploy_success_inv _ _ _ _ _ Hrun Hok)
    as (projectPath & p & s0 & s1 & s7 & _ & _ & _ & Hsave & ->).
  cbn [succeeded res_pm2ProcessName] in Hnone.
  apply saveMetadata_ok_inv in Hsave as ->.
  unfold checkHealth, bind. rewrite loadMetadata_stored. unfold storedRecord.
  simpl. rewrite lookup_insert_eq. simpl. rewrite Hnone. simpl.
  eexists. by split.
Qed.

Lemma deploy_static_frontend_reported_unhealthy_witness :
  exists s,
    checkHealth
      {| pm2Jlist := Some [ {| proc_name := "demo"; proc_status := Some "online"%string;
                               proc_uptime := None; proc_restarts := None;
                               proc_memory := None; proc_cpu := None |} ];
         clock := Samples.stamp;
         listing := Samples.hookEnv |}
      "demo"
      (snd (deploy (Samples.calmWorld (Samples.rootManifestOnly Cases.viteApp))
                   Cases.portlessConfig Samples.emptyState))
    = (Ok s, snd (deploy (Samples.calmWorld (Samples.rootManifestOnly Cases.viteApp))
                         Cases.portlessConfig Samples.emptyState)) /\
    hs_healthy s = false /\ hs_pm2Status s = None.
Proof.
  apply (deploy_static_frontend_reported_unhealthy
           (Samples.calmWorld (Samples.rootManifestOnly Cases.viteApp))
           Cases.portlessConfig Samples.emptyState
           (match fst (deploy (Samples.calmWorld
                                 (Samples.rootManifestOnly Cases.viteApp))
                              Cases.portlessConfig Samples.emptyState) with
            | Ok r => r
            | Throw _ => failed "" ""
            end)); by vm_compute.
Defined.

End HealthFacts.

Section MigrateFacts.
Import Metadata Migrate.

Lemma migrateEntry_outcome env entry st :
  migrateEntry env entry st = (Ok tt, st) \/
  (exists message, migrateEntry env entry st = (Throw message, st)) \/
  (isDirectory env entry = Some true /\ metadataFiles st !! entry = None /\
   identified env entry = true /\
   migrateEntry env entry st =
     (Ok tt, {| metadataFiles :=
                  <[entry := ValidJson (discovered env entry)]> (metadataFiles st);
                nginxFiles := nginxFiles st;
                effects := effects st |})).
Proof.
  unfold migrateEntry.
  destruct (isDirectory env entry) as [[|]|]; [|by left|right; left; by eexists].
  destruct (metadataFiles st !! entry) eqn:Hm; [by left|].
  destruct (identified env entry); [|by left].
  unfold saveMetadata. change (md_name (discovered env entry)) with entry.
  destruct (canWrite (store env) entry); [|right; left; by eexists].
  right. right. done.
Qed.

(** What a run over some entries leaves: the same nginx files and
    effects, every record there was, and beyond those only the discovered
    records of listed directories that had none. *)
Lemma migrateEntries_frame env entries : forall st,
  nginxFiles (snd (migrateEntries env entries st)) = nginxFiles st /\
  effects (snd (migrateEntries env entries st)) = effects st /\
  (forall name f, metadataFiles st !! name = Some f ->
     metadataFiles (snd (migrateEntries env entries st)) !! name = Some f) /\
  (forall name f,
     metadataFiles st !! name = None ->
     metadataFiles (snd (migrateEntries env entries st)) !! name = Some f ->
     name ∈ entries /\ isDirectory env name = Some true /\
     identified env name = true /\ f = ValidJson (discovered env name)).
Proof.
  induction entries as [|entry rest IH]; intros st.
  - simpl. split; [done|]. split; [done|]. split; [done|].
    intros name f Hnone Hsome. congruence.
  - change (migrateEntries env (entry :: rest))
      with (bind (migrateEntry env entry) (fun _ => migrateEntries env rest)).
    unfold bind.
    destruct (migrateEntry_outcome env entry st)
      as [->|[[message ->]|(Hdir & Hnone & Hid & ->)]].
    + destruct (IH st) as (Hn & He & Hkeep & Hnew).
      split; [done|]. split; [done|]. split; [done|].
      intros name f H1 H2. destruct (Hnew name f H1 H2) as (Hin & Hrest).
      split; [by apply list_elem_of_further|done].
    + simpl. split; [done|]. split; [done|]. split; [done|].
      intros name f H1 H2. congruence.
    + set (s1 := {| metadataFiles := _; nginxFiles := _; effects := _ |}).
      destruct (IH s1) as (Hn & He & Hkeep & Hnew).
      split; [done|]. split; [done|]. split.
      * intros name f Hf. apply Hkeep. subst s1. simpl.
        rewrite lookup_insert_ne; [done|]. intros <-. congruence.
      * intros name f Hf Hafter.
        destruct (decide (name = entry)) as [->|Hne].
        -- assert (Hs1 : metadataFiles s1 !! entry =
                         Some (ValidJson (discovered env entry)))
             by (subst s1; simpl; by rewrite lookup_insert_eq).
           apply Hkeep in Hs1. rewrite Hs1 in Hafter. injection Hafter as <-.
           split; [by left|done].
        -- assert (Hs1 : metadataFiles s1 !! name = None)
             by (subst s1; simpl; by rewrite lookup_insert_ne).
           destruct (Hnew name f Hs1 Hafter) as (Hin & Hrest).
           split; [by apply list_elem_of_further|done].
Qed.

(** The migration never rewrites or removes a record: whatever it
    finds and however it ends, every [metadata.json] there was (readable
    or not) is still there unchanged, nothing else of the state changes,
    and a record that appears belongs to a listed directory that had none
    and for which a repository URL or a PM2 process was found; it is the
    discovered record, with [webhookEnabled] off. *)
Theorem migrateExistingProjects_only_adds (env : Env) (st : State) :
  nginxFiles (snd (migrateExistingProjects env st)) = nginxFiles st /\
  effects (snd (migrateExistingProjects env st)) = effects st /\
  (forall name f, metadataFiles st !! name = Some f ->
     metadataFiles (snd (migrateExistingProjects env st)) !! name = Some f) /\
  (forall name f,
     metadataFiles st !! name = None ->
     metadataFiles (snd (migrateExistingProjects env st)) !! name = Some f ->
     exists entries,
       appsEntries env = Some entries /\ name ∈ entries /\
       isDirectory env name = Some true /\ identified env name = true /\
       f = ValidJson (discovered env name) /\
       md_name (discovered env name) = name /\
       md_webhookEnabled (discovered env name) = Some false).
Proof.
  unfold migrateExistingProjects.
  destruct (appsEntries env) as [entries|].
  - destruct (migrateEntries_frame env entries st) as (Hn & He & Hkeep & Hnew).
    split; [done|]. split; [done|]. split; [done|].
    intros name f H1 H2. destruct (Hnew name f H1 H2) as (Hin & Hdir & Hid & ->).
    by exists entries.
  - simpl. split; [done|]. split; [done|]. split; [done|].
    intros name f H1 H2. congruence.
Qed.

Lemma migrateEntries_settled env entries : forall st st',
  migrateEntries env entries st = (Ok tt, st') ->
  forall entry, entry ∈ entries ->
    isDirectory env entry = Some false \/
    isDirectory env entry = Some true /\
    (is_Some (metadataFiles st' !! entry) \/ identified env entry = false).
Proof.
  induction entries as [|e rest IH]; intros st st' Hrun entry Hin.
  - by apply elem_of_nil in Hin.
  - change (migrateEntries env (e :: rest))
      with (bind (migrateEntry env e) (fun _ => migrateEntries env rest)) in Hrun.
    apply bind_ok_inv in Hrun as ([] & s1 & Hstep & Hrest).
    apply elem_of_cons in Hin as [->|Hin]; [|by eapply IH].
    assert (Hkeep : forall f, metadataFiles s1 !! e = Some f ->
                              metadataFiles st' !! e = Some f).
    { intros f Hf. destruct (migrateEntries_frame env rest s1) as (_ & _ & Hk & _).
      rewrite Hrest in Hk. by apply Hk. }
    unfold migrateEntry in Hstep.
    destruct (isDirectory env e) as [[|]|]; [|by left|done]. right. split; [done|].
    destruct (metadataFiles st !! e) as [f|] eqn:Hm.
    + injection Hstep as <-. left. exists f. by apply Hkeep.
    + destruct (identified env e); [|by right].
      apply saveMetadata_ok_inv in Hstep as ->. left. eexists.
      apply Hkeep. simpl. change (md_name (discovered env e)) with e.
      by rewrite lookup_insert_eq.
Qed.

Lemma migrateEntries_nothing_to_do env entries st :
  (forall entry, entry ∈ entries ->
     isDirectory env entry = Some false \/
     isDirectory env entry = Some true /\
     (is_Some (metadataFiles st !! entry) \/ identified env entry = false)) ->
  migrateEntries env entries st = (Ok tt, st).
Proof.
  induction entries as [|e rest IH]; intros Hall; [done|].
  change (migrateEntries env (e :: rest))
    with (bind (migrateEntry env e) (fun _ => migrateEntries env rest)).
  unfold bind.
  assert (Hstep : migrateEntry env e st = (Ok tt, st)).
  { unfold migrateEntry.
    destruct (Hall e) as [->|(-> & [[f ->]|Hid])]; [by left|done|done|].
    destruct (metadataFiles st !! e); [done|]. by rewrite Hid. }
  rewrite Hstep. apply IH. intros entry Hin. apply Hall. by right.
Qed.

(** The migration is idempotent: after a run that completed, a second
    run (over the same directories and findings) writes nothing. *)
Theorem migrateExistingProjects_idempotent (env : Env) (st st' : State) :
  migrateExistingProjects env st = (Ok tt, st') ->
  migrateExistingProjects env st' = (Ok tt, st').
Proof.
  unfold migrateExistingProjects.
  destruct (appsEntries env) as [entries|]; [|by intros [= <-]].
  intros Hrun. apply migrateEntries_nothing_to_do.
  by apply (migrateEntries_settled env entries st st').
Qed.

Lemma migrateExistingProjects_idempotent_witness :
  storedRecord (snd (migrateExistingProjects Cases.legacyApps Samples.deployedState))
    "legacy" = Some (discovered Cases.legacyApps "legacy") /\
  storedRecord (snd (migrateExistingProjects Cases.legacyApps Samples.deployedState))
    "demo" = Some Samples.developRecord /\
  migrateExistingProjects Cases.legacyApps
    (snd (migrateExistingProjects Cases.legacyApps Samples.deployedState)) =
    (Ok tt, snd (migrateExistingProjects Cases.legacyApps Samples.deployedState)).
Proof.
  split; [reflexivity|]. split; [reflexivity|].
  apply (migrateExistingProjects_idempotent Cases.legacyApps Samples.deployedState).
  by vm_compute.
Defined.

End MigrateFacts.

Section CliFacts.
Import Security Pipeline Cli.

Lemma split_cons sep c s :
  split sep (String c s) =
  if Ascii.eqb c sep then EmptyString :: split sep s
  else match split sep s with
       | first :: rest => String c first :: rest
       | [] => [String c EmptyString]
       end.
Proof. reflexivity. Qed.

Lemma split_nonempty sep s : split sep s <> [].
Proof.
  induction s as [|c s IH]; [done|]. rewrite split_cons.
  destruct (Ascii.eqb c sep); [done|]. by destruct (split sep s).
Qed.

Lemma split_lacks sep s : lacks sep s = true -> split sep s = [s].
Proof.
  induction s as [|c s IH]; [done|]. simpl lacks.
  intros [Hc Hs]%andb_prop. rewrite split_cons.
  apply negb_true_iff in Hc. rewrite Hc, IH by done. done.
Qed.

Lemma split_at_sep sep (k v : string) :
  lacks sep k = true -> split sep (k +:+ String sep v) = k :: split sep v.
Proof.
  induction k as [|c k IH]; intros Hk.
  - rewrite append_nil_l, split_cons. by rewrite Ascii.eqb_refl.
  - simpl lacks in Hk. apply andb_prop in Hk as [Hc Hk].
    apply negb_true_iff in Hc.
    rewrite append_cons, split_cons, Hc, IH by done. done.
Qed.

Lemma split_head_lacks sep s first rest :
  split sep s = first :: rest -> lacks sep first = true.
Proof.
  revert first rest. induction s as [|c s IH]; intros first rest.
  - by intros [= <- <-].
  - rewrite split_cons. destruct (Ascii.eqb c sep) eqn:Hc.
    + by intros [= <- <-].
    + destruct (split sep s) as [|f r] eqn:Hs; [by destruct (split_nonempty sep s)|].
      intros [= <- <-]. simpl. rewrite Hc. simpl. by apply (IH f r).
Qed.

Lemma join_cons2 sep part part' rest :
  join sep (part :: part' :: rest) = part +:+ String sep (join sep (part' :: rest)).
Proof. reflexivity. Qed.

Lemma join_split sep s : join sep (split sep s) = s.
Proof.
  induction s as [|c s IH]; [done|]. rewrite split_cons.
  destruct (Ascii.eqb c sep) eqn:Hc.
  - apply Ascii.eqb_eq in Hc as ->.
    destruct (split sep s) as [|f r] eqn:Hs; [by destruct (split_nonempty sep s)|].
    rewrite join_cons2, append_nil_l. by rewrite IH.
  - destruct (split sep s) as [|f r] eqn:Hs; [by destruct (split_nonempty sep s)|].
    destruct r as [|f' r].
    + simpl in *. by rewrite IH.
    + rewrite join_cons2 in *. rewrite append_cons. by rewrite IH.
Qed.

Lemma lacks_app c (a b : string) :
  lacks c (a +:+ b) = lacks c a && lacks c b.
Proof.
  induction a as [|d a IH]; [done|]. rewrite append_cons. simpl.
  by rewrite IH, andb_assoc.
Qed.

Lemma parseSetOption_accepts (key value : string) :
  lacks "=" key = true -> nonEmpty key = true -> nonEmpty value = true ->
  parseSetOption (key +:+ "=" +:+ value) = Some (key, value).
Proof.
  intros Hlacks Hk Hv. unfold parseSetOption.
  change ("=" +:+ value) with (String "=" value).
  rewrite split_at_sep by done.
  assert (Hj : join "=" (split "=" value) = value) by apply join_split.
  by rewrite Hj, Hk, Hv.
Qed.

(** [env --set] splits its argument at the first [=]: it is accepted
    exactly when a non-empty key without [=] is followed by [=] and a
    non-empty value, and then yields that key and the whole rest as the
    value, further [=] signs included. *)
Theorem parseSetOption_splits_at_first_equals (setOption key value : string) :
  parseSetOption setOption = Some (key, value) <->
  setOption = key +:+ "=" +:+ value /\
  lacks "=" key = true /\ nonEmpty key = true /\ nonEmpty value = true.
Proof.
  unfold parseSetOption. split.
  - destruct (split "=" setOption) as [|k parts] eqn:Hs; [done|].
    destruct (nonEmpty k && nonEmpty (join "=" parts)) eqn:Hne; [|done].
    intros [= <- <-]. apply andb_prop in Hne as [Hk Hv].
    split; [|split; [by apply (split_head_lacks "=" setOption k parts)|done]].
    rewrite <- (join_split "=" setOption) at 1. rewrite Hs.
    destruct parts as [|p ps]; [done|]. by rewrite join_cons2.
  - intros (-> & Hlacks & Hk & Hv). by apply parseSetOption_accepts.
Qed.

(** [deploy --env] cuts a value at its first [=]: for a single pair
    [KEY=value=rest] only [value] is assigned, the [=] and the rest are
    dropped; [env --set] keeps them. *)
Theorem envAssignments_cut_value_at_equals (trim : string -> string)
    (key value rest : string) :
  lacks "=" key = true -> lacks "," key = true -> nonEmpty key = true ->
  lacks "=" value = true -> lacks "," value = true -> nonEmpty value = true ->
  lacks "," rest = true ->
  envAssignments trim (key +:+ "=" +:+ value +:+ "=" +:+ rest) =
    [(trim key, trim value)] /\
  parseSetOption (key +:+ "=" +:+ value +:+ "=" +:+ rest) =
    Some (key, value +:+ "=" +:+ rest).
Proof.
  intros Hk1 Hk2 Hk3 Hv1 Hv2 Hv3 Hr. split.
  - unfold envAssignments.
    rewrite split_lacks by (rewrite !lacks_app, Hk2, Hv2, Hr; done).
    unfold envAssignment. simpl omap.
    change ("=" +:+ value +:+ "=" +:+ rest) with (String "=" (value +:+ "=" +:+ rest)).
    rewrite split_at_sep by done.
    change ("=" +:+ rest) with (String "=" rest).
    rewrite split_at_sep by done.
    destruct (split "=" rest); by rewrite Hk3, Hv3.
  - apply parseSetOption_accepts; [done|done|]. by destruct value.
Qed.

Lemma envAssignments_cut_value_at_equals_witness :
  envAssignments (fun s => s) "TOKEN=YWJj=" = [("TOKEN", "YWJj")]%string /\
  parseSetOption "TOKEN=YWJj=" = Some ("TOKEN", "YWJj=")%string.
Proof.
  apply (envAssignments_cut_value_at_equals (fun s => s) "TOKEN" "YWJj" "");
    reflexivity.
Defined.

(** The name the deploy command derives, from [--name] or from the
    repository URL and the branch, is in the sanitizer's normal form: the
    workspace that [cloneRepo] computes for it is the directory of that
    very name under the apps directory, which is where the other commands
    look for the project. *)
Theorem deriveProjectName_names_workspace (repoUrl : string)
    (nameOption : option string) (branchOption : string) :
  wellFormedName (deriveProjectName repoUrl nameOption branchOption) /\
  sanitizeProjectName (deriveProjectName repoUrl nameOption branchOption) =
    deriveProjectName repoUrl nameOption branchOption /\
  getProjectPath (deriveProjectName repoUrl nameOption branchOption) =
    pathJoin APPS_DIR (deriveProjectName repoUrl nameOption branchOption).
Proof.
  assert (Hwf : wellFormedName (deriveProjectName repoUrl nameOption branchOption))
    by apply sanitizeProjectName_wellFormed.
  split; [done|]. split; [by apply sanitizeProjectName_fixes_wellFormed|].
  unfold getProjectPath. by rewrite sanitizeProjectName_fixes_wellFormed.
Qed.

Example deriveProjectName_examples :
  deriveProjectName "https://github.com/user/My_App.git" None "main" = "my-app"%string /\
  deriveProjectName "https://github.com/user/My_App.git" None "feature/login"
    = "my-app-feature-login"%string /\
  deriveProjectName "https://github.com/user/My_App.git" (Some "Shop API"%string)
    "develop" = "shop-api"%string /\
  deriveProjectName "https://github.com/user/repo/" None "main" = ""%string.
Proof. repeat split. Qed.

End CliFacts.

Section SubPackageFacts.
Import Analyzer Pipeline.

Lemma scanEntry_holds fs projectPath found entry :
  holdsManifest fs projectPath (fst found) ->
  holdsManifest fs projectPath (snd found) ->
  holdsManifest fs projectPath (fst (scanEntry fs projectPath found entry)) /\
  holdsManifest fs projectPath (snd (scanEntry fs projectPath found entry)).
Proof.
  intros Hf Hb. unfold scanEntry.
  destruct (scanned entry); [|done]. cbv zeta.
  destruct (pathExists fs (manifestPath (pathJoin projectPath (entryName entry))))
    eqn:Hm; [|done].
  destruct (readJson fs _) as [pkg| |]; [|done..]. cbn [fst snd]. split.
  - destruct (existsb _ scanFrontendFrameworks && negb (truthyStr (fst found)));
      [by intros _|done].
  - destruct (existsb _ scanBackendFrameworks && negb (truthyStr (snd found)));
      [by intros _|done].
Qed.

Lemma scan_holds fs projectPath entries : forall found,
  holdsManifest fs projectPath (fst found) ->
  holdsManifest fs projectPath (snd found) ->
  holdsManifest fs projectPath
    (fst (fold_left (scanEntry fs projectPath) entries found)) /\
  holdsManifest fs projectPath
    (snd (fold_left (scanEntry fs projectPath) entries found)).
Proof.
  induction entries as [|entry entries IH]; intros found Hf Hb; [done|].
  simpl. destruct (scanEntry_holds fs projectPath found entry Hf Hb).
  by apply IH.
Qed.

Lemma find_hasManifestAt fs projectPath paths :
  holdsManifest fs projectPath (List.find (hasManifestAt fs projectPath) paths).
Proof.
  intros Ht. destruct (List.find _ paths) as [dir|] eqn:Hfind; [|done].
  apply find_some in Hfind as [_ Hm]. unfold hasManifestAt in Hm.
  by apply andb_prop in Hm as [_ Hm].
Qed.

(** The sub-paths that [analyzeMonorepo] reports are directories of the
    checkout that hold a [package.json], whether they come from the
    conventional names or from the scan of the first-level directories. *)
Theorem analyzeMonorepo_paths_hold_manifest (fs : FileSystem)
    (projectPath : string) :
  (forall dir, fst (analyzeMonorepo fs projectPath) = Some dir ->
     nonEmpty dir = true ->
     pathExists fs (manifestPath (pathJoin projectPath dir)) = true) /\
  (forall dir, snd (analyzeMonorepo fs projectPath) = Some dir ->
     nonEmpty dir = true ->
     pathExists fs (manifestPath (pathJoin projectPath dir)) = true).
Proof.
  assert (H : holdsManifest fs projectPath (fst (analyzeMonorepo fs projectPath)) /\
              holdsManifest fs projectPath (snd (analyzeMonorepo fs projectPath))).
  { unfold analyzeMonorepo. cbv zeta.
    pose proof (find_hasManifestAt fs projectPath commonFrontendPaths) as Hf.
    pose proof (find_hasManifestAt fs projectPath commonBackendPaths) as Hb.
    destruct (negb _ && negb _); [|done].
    destruct (readdir fs projectPath) as [entries|]; [|done].
    by apply scan_holds. }
  destruct H as [Hf Hb]. unfold holdsManifest in *.
  split; intros dir Hdir Hne.
  - rewrite Hdir in Hf. by apply Hf.
  - rewrite Hdir in Hb. by apply Hb.
Qed.

(** A repository without [package.json] at its root deploys only if the
    analysis finds a backend sub-package: with a frontend sub-package
    alone the analysis succeeds, but the deploy then stops at the missing
    start script. *)
Theorem deploy_without_root_manifest_needs_backend (w : World)
    (config : DeployConfig) (st : State) (r : DeployResult) (st' : State) :
  pathExists (checkout w)
    (manifestPath (getProjectPath (cfg_projectName config))) = false ->
  deploy w config st = (Ok r, st') ->
  success r = true ->
  truthyStr (snd (analyzeMonorepo (checkout w)
                    (getProjectPath (cfg_projectName config)))) = true.
Proof.
  intros Hroot Hrun Hok.
  destruct (deploy_success_inv _ _ _ _ _ Hrun Hok)
    as (projectPath & p & s0 & s1 & s7 & _ & Hfetch & Hprov & _ & ->).
  apply stageFetch_path in Hfetch as ->.
  destruct (provision_ok_inv _ _ _ _ _ _ _ Hprov)
    as (s2 & s3 & s4 & s5 & s6 & Ha & _ & _ & Hr & _ & _).
  apply stageAnalyze_ok in Ha as (-> & _ & Hdet).
  unfold detectProjectType, readPackageJson in Hdet. rewrite Hroot in Hdet.
  cbv zeta in Hdet.
  destruct (truthyStr (fst (analyzeMonorepo _ _)) || truthyStr (snd (analyzeMonorepo _ _)));
    [|done].
  injection Hdet as Hdet.
  apply stageRun_ok in Hr
    as [(_ & _ & Ht & _)|(n & dir & a & _ & _ & Hstart & Hwhere & _)].
  - rewrite <- Hdet in Ht. done.
  - destruct Hwhere as [[_ ->]|(sub & _ & Hsub & Hne & _)].
    + rewrite <- Hdet in Hstart. done.
    + rewrite <- Hdet in Hsub. cbn [an_backendPath] in Hsub. by rewrite Hsub.
Qed.

Lemma deploy_without_root_manifest_needs_backend_witness :
  truthyStr (snd (analyzeMonorepo Cases.backendOnly "/var/apps/demo")) = true /\
  res_pm2ProcessName
    (match fst (deploy (Samples.calmWorld Cases.backendOnly)
                       Samples.demoConfig Samples.emptyState) with
     | Ok r => r
     | Throw _ => failed "" ""
     end) = Some "demo-backend"%string.
Proof.
  split; [|reflexivity].
  apply (deploy_without_root_manifest_needs_backend
           (Samples.calmWorld Cases.backendOnly) Samples.demoConfig
           Samples.emptyState
           (match fst (deploy (Samples.calmWorld Cases.backendOnly)
                              Samples.demoConfig Samples.emptyState) with
            | Ok r => r
            | Throw _ => failed "" ""
            end)
           (snd (deploy (Samples.calmWorld Cases.backendOnly)
                        Samples.demoConfig Samples.emptyState)));
    by vm_compute.
Defined.

End SubPackageFacts.

Section RemoveFacts.
Import Metadata Pipeline.

Lemma preserves_removeConfig path : preservesMetadata (removeConfig path).
Proof. by intros st. Qed.

Lemma stopProcess_returns tools metadata st :
  exists s, stopProcess tools metadata st = (Ok tt, s) /\
            metadataFiles s = metadataFiles st.
Proof.
  unfold stopProcess, tryCatch.
  destruct (truthyStr _); [|by eexists]. destruct (pm2DeleteOk _ _); by eexists.
Qed.

Lemma dropConfig_returns tools metadata st :
  exists s, dropConfig tools metadata st = (Ok tt, s) /\
            metadataFiles s = metadataFiles st.
Proof.
  unfold dropConfig, tryCatch, bind, exec.
  destruct (truthyStr _); [|by eexists].
  destruct (sudoRmOk _ _); [|by eexists]. simpl.
  destruct (sudoReloadOk tools); by eexists.
Qed.

(** Once the operator agreed, what is left of the command is steps 1 to
    4 and the catch-all handler. *)
Lemma removeAction_confirmed tools name force st m :
  storedRecord st name = Some m ->
  negb force && negb (confirmed (confirmation tools)) = false ->
  removeAction tools name force st =
    tryCatch (removeProject tools name m) (fun message => ret (Crashed message)) st.
Proof.
  intros Hm Hgate. unfold removeAction, tryCatch, bind.
  by rewrite loadMetadata_stored, Hm, Hgate.
Qed.

Lemma removeProject_outcome tools name m st :
  metadataFiles st !! name = Some (ValidJson m) ->
  exists st',
    tryCatch (removeProject tools name m) (fun message => ret (Crashed message)) st
      = (if removeWorkspaceOk tools name || removeMetadataOk tools name
         then Ok Removed else Ok (Crashed "metadata remove failed"), st') /\
    (removeWorkspaceOk tools name || removeMetadataOk tools name = true ->
     metadataFiles st' = delete name (metadataFiles st)).
Proof.
  intros Hfile. unfold removeProject.
  destruct (stopProcess_returns tools m st) as (s1 & Hs1 & Hm1).
  destruct (dropConfig_returns tools m s1) as (s2 & Hs2 & Hm2).
  unfold tryCatch, bind. rewrite Hs1, Hs2. unfold dropWorkspace, tryCatch.
  destruct (removeWorkspaceOk tools name).
  - unfold removeWorkspace, deleteMetadata. simpl. rewrite lookup_delete_eq.
    eexists. split; [reflexivity|]. intros _. simpl. congruence.
  - unfold throw, warn, emit, deleteMetadata. simpl. rewrite Hm2, Hm1, Hfile.
    destruct (removeMetadataOk tools name); simpl.
    + eexists. split; [reflexivity|]. intros _. simpl. congruence.
    + by eexists.
Qed.

(** For a name that names a directory under the apps directory, the
    [remove] command does nothing when the name has no readable record,
    and nothing when the operator does not answer y or yes (and
    [--force] is off). Otherwise it reports the removal exactly when the
    project's directory or at least its [metadata.json] could be removed,
    whether or not the PM2 process and the nginx config could; the
    project then no longer loads, and the records of the other projects
    are kept. *)
Theorem removeAction_outcomes (tools : RemoveTools) (name : string)
    (force : bool) (st : State) :
  directoryName name = true ->
  (storedRecord st name = None ->
   removeAction tools name force st = (Ok NotFound, st)) /\
  (is_Some (storedRecord st name) ->
   (force = false -> confirmed (confirmation tools) = false ->
    removeAction tools name force st = (Ok Cancelled, st)) /\
   (force = true \/ confirmed (confirmation tools) = true ->
    (fst (removeAction tools name force st) = Ok Removed <->
     removeWorkspaceOk tools name = true \/ removeMetadataOk tools name = true) /\
    (fst (removeAction tools name force st) = Ok Removed ->
     metadataFiles (snd (removeAction tools name force st)) !! name = None /\
     forall other, other <> name ->
       metadataFiles (snd (removeAction tools name force st)) !! other =
       metadataFiles st !! other))).
Proof.
  intros _. split.
  { intros Hm. unfold removeAction, tryCatch, bind.
    by rewrite loadMetadata_stored, Hm. }
  intros [m Hm]. split.
  { intros -> Hno. unfold removeAction, tryCatch, bind.
    by rewrite loadMetadata_stored, Hm, Hno. }
  intros Hgo.
  assert (Hgate : negb force && negb (confirmed (confirmation tools)) = false)
    by (destruct Hgo as [->| ->]; [done|by rewrite andb_false_r]).
  assert (Hfile : metadataFiles st !! name = Some (ValidJson m)).
  { unfold storedRecord in Hm.
    by destruct (metadataFiles st !! name) as [[?|]|]; simplify_eq. }
  rewrite (removeAction_confirmed _ _ _ _ _ Hm Hgate).
  destruct (removeProject_outcome tools name m st Hfile) as (st' & -> & Hfiles).
  simpl. destruct (removeWorkspaceOk tools name || removeMetadataOk tools name) eqn:E.
  - apply orb_prop in E. split; [done|]. intros _. rewrite Hfiles by done.
    rewrite lookup_delete_eq. split; [done|].
    intros other Hne. by rewrite lookup_delete_ne.
  - apply orb_false_elim in E as [E1 E2]. split; [|done].
    split; [done|]. intros [?|?]; congruence.
Qed.

Lemma removeAction_outcomes_witness :
  fst (removeAction Cases.stubbornTools "demo" false Samples.deployedState)
    = Ok Removed /\
  metadataFiles (snd (removeAction Cases.stubbornTools "demo" false
                        Samples.deployedState)) !! "demo"%string = None.
Proof.
  destruct (removeAction_outcomes Cases.stubbornTools "demo" false
              Samples.deployedState) as [_ H]; [reflexivity|].
  destruct H as [_ H]; [by eexists|].
  destruct H as [Hiff Hgone]; [by right|].
  assert (Hr : fst (removeAction Cases.stubbornTools "demo" false
                      Samples.deployedState) = Ok Removed)
    by (apply Hiff; by left).
  split; [exact Hr|]. by apply Hgone.
Defined.

End RemoveFacts.

Section MoreInstances.
Import Security PortFinder Metadata Analyzer Migrate.

Lemma sanitizeInput_strips_metacharacters_witness :
  sanitizeInput "DATABASE_URL" = "DATABASE_URL"%string.
Proof.
  destruct (sanitizeInput_strips_metacharacters "DATABASE_URL") as (_ & _ & _ & H).
  by apply H.
Defined.

Lemma findAvailablePort_result_sound_witness :
  findAvailablePort (ssOnly (fun _ => true)) 3000 3 = 3000 /\
  forall j : nat, (j < 3)%nat ->
    isPortInUse (ssOnly (fun _ => true)) (3000 + Z.of_nat j) = true.
Proof.
  destruct (findAvailablePort_result_sound (ssOnly (fun _ => true)) 3000 3)
    as (_ & _ & _ & H).
  by apply H.
Defined.

Lemma deleteMetadata_forgets_project_witness :
  exists st',
    deleteMetadata (fun _ => true) "demo" Samples.deployedState = (Ok tt, st') /\
    loadMetadata "demo" st' = (Ok None, st').
Proof.
  destruct (deleteMetadata_forgets_project (fun _ => true) "demo"
              Samples.deployedState) as [_ H]; [reflexivity|].
  destruct H as [H _]; [by eexists|].
  destruct H as (st' & Hrun & Hload & _); [reflexivity|].
  by exists st'.
Defined.

Lemma migrateExistingProjects_only_adds_witness :
  metadataFiles (snd (migrateExistingProjects Cases.legacyApps Samples.deployedState))
    !! "demo"%string = Some (ValidJson Samples.developRecord).
Proof.
  destruct (migrateExistingProjects_only_adds Cases.legacyApps Samples.deployedState)
    as (_ & _ & Hkeep & _).
  by apply Hkeep.
Defined.

Lemma analyzeMonorepo_paths_hold_manifest_witness :
  pathExists Cases.backendOnly
    (manifestPath (pathJoin "/var/apps/demo" "backend")) = true.
Proof.
  destruct (analyzeMonorepo_paths_hold_manifest Cases.backendOnly "/var/apps/demo")
    as [_ H].
  by apply (H "backend"%string).
Defined.

End MoreInstances.
